(** * pytcsii: the live TCS II session controller and the protocol-file builder

    A shallow embedding of [src/pytcsii/pytcsii.py] (classes [tcsii] and
    [tcsii_protocol_generator]) and the properties of its duration-mode
    resolver, fixed-width encoders, surface mask, sampling loop and
    protocol document.

    Conventions of the embedding:
    - a Python [int] is a [Z]; a Python [float] is an IEEE-754 binary64 value,
      a [spec_float] with [prec = 53] and [emax = 1024], computed with the
      Standard Library's executable specification of the operations;
    - an instance attribute that [__init__] does not assign is an [option]
      field of the object's record: reading it while it is [None] raises
      [AttributeError], as Python does for a missing attribute;
    - a method is a function in a state-and-exception monad over the object's
      record: an exception leaves the effects that happened before it in
      the state (bytes already written to the port stay written);
    - the serial port is the list of the commands written to it, oldest
      first, together with the response lines still to be read. *)

From Stdlib Require Import ZArith List String Ascii Bool Lia.
From Stdlib Require Import DecimalString DecimalZ DecimalN DecimalPos DecimalFacts.
From Stdlib Require Import Floats.SpecFloat.
From stdpp Require Import base list strings gmap.

Local Open Scope string_scope.
Local Open Scope list_scope.
Local Open Scope Z_scope.

(** ** Exceptions and the method monad *)

(** The built-in exceptions the modelled code can raise. The code defines no
    exception class of its own. [OSError] stands for the class and its
    subclasses ([FileNotFoundError], [PermissionError], ...). *)
Inductive exc : Set :=
  | AttributeError
  | TypeError
  | ZeroDivisionError
  | OverflowError
  | ValueError
  | IndexError
  | AssertionError
  | OSError.

Inductive result (A : Type) : Type :=
  | Ok (a : A)
  | Raise (e : exc).
Arguments Ok {A} a.
Arguments Raise {A} e.

Definition is_ok {A} (r : result A) : bool :=
  match r with Ok _ => true | Raise _ => false end.

(** Pure computations that may raise. *)
Definition rbind {A B} (r : result A) (k : A -> result B) : result B :=
  match r with
  | Ok a => k a
  | Raise e => Raise e
  end.

(** A method on an object of state [St]: the outcome and the state left
    behind, also when the outcome is an exception. *)
Definition M (St A : Type) : Type := St -> result A * St.

Definition ret {St A} (a : A) : M St A := fun s => (Ok a, s).

Definition raise {St A} (e : exc) : M St A := fun s => (Raise e, s).

Definition bind {St A B} (m : M St A) (k : A -> M St B) : M St B :=
  fun s =>
    match m s with
    | (Ok a, s') => k a s'
    | (Raise e, s') => (Raise e, s')
    end.

Definition lift {St A} (r : result A) : M St A := fun s => (r, s).

Definition get {St} : M St St := fun s => (Ok s, s).

Definition modify {St} (f : St -> St) : M St unit := fun s => (Ok tt, f s).

(** Reading an attribute that may be missing. *)
Definition getattr {St A} (field : St -> option A) : M St A :=
  fun s =>
    match field s with
    | Some a => (Ok a, s)
    | None => (Raise AttributeError, s)
    end.

Declare Scope py_scope.
Delimit Scope py_scope with py.
Notation "'let*' x ':=' c 'in' k" := (bind c (fun x => k))
  (at level 10, x name, c at level 100, k at level 200) : py_scope.
Notation "c '>>' k" := (bind c (fun _ => k))
  (at level 100, k at level 200, right associativity) : py_scope.
Notation "'let?' x ':=' c 'in' k" := (rbind c (fun x => k))
  (at level 10, x name, c at level 100, k at level 200) : py_scope.

(** ** Strings: [str] of an integer and [str.zfill] *)

(** [str(n)] for an [int]. *)
Definition str_Z (n : Z) : string := NilZero.string_of_int (Z.to_int n).

(** Reading a decimal integer back, as [int(s)] does for a string of an
    optional [-] and digits. *)
Definition decode (s : string) : option Z :=
  Z.of_int <$> NilZero.int_of_string s.

Definition zeros (n : nat) : string := string_of_list_ascii (replicate n "0"%char).

Definition is_sign (c : ascii) : bool :=
  if decide (c = "+"%char) then true
  else if decide (c = "-"%char) then true else false.

(** [s.zfill(width)]: nothing is done when [s] already has [width]
    characters or more; otherwise zeros are put on the left, after a
    leading sign. *)
Definition zfill (s : string) (width : Z) : string :=
  let len := Z.of_nat (String.length s) in
  if width <=? len then s
  else
    let fill := zeros (Z.to_nat (width - len)) in
    match s with
    | String c rest => if is_sign c then String c (fill +:+ rest) else fill +:+ s
    | EmptyString => fill
    end.

Definition is_digit (c : ascii) : bool :=
  let n := nat_of_ascii c in (48 <=? n)%nat && (n <=? 57)%nat.

Fixpoint all_digits (s : string) : bool :=
  match s with
  | EmptyString => true
  | String c rest => is_digit c && all_digits rest
  end.

(** ** Python numbers

    [int] is unbounded; [float] is binary64 with round-to-nearest-even. The
    operators follow Python's coercion: two ints stay an int under [-], [+]
    and [*]; [/] always gives a float; an int next to a float is converted
    first, which raises [OverflowError] when it is too large. *)

Definition prec : Z := 53.
Definition emax : Z := 1024.

Inductive PyNum : Set :=
  | PInt (n : Z)
  | PFloat (f : spec_float).

Definition is_infinity (f : spec_float) : bool :=
  match f with S754_infinity _ => true | _ => false end.

Definition is_fzero (f : spec_float) : bool :=
  match f with S754_zero _ => true | _ => false end.

(** [float(n)]. *)
Definition float_of_Z (n : Z) : result spec_float :=
  let f := binary_normalize prec emax n 0 false in
  if is_infinity f then Raise OverflowError else Ok f.

Definition to_float (x : PyNum) : result spec_float :=
  match x with
  | PInt n => float_of_Z n
  | PFloat f => Ok f
  end.

(** [a / b] on two ints: the quotient rounded once. *)
Definition int_truediv (a b : Z) : result spec_float :=
  if b =? 0 then Raise ZeroDivisionError
  else
    match a with
    | 0 => Ok (S754_zero (b <? 0))
    | _ =>
        let '(mz, ez, lz) := SFdiv_core_binary prec emax (Z.abs a) 0 (Z.abs b) 0 in
        let f := binary_round_aux prec emax (xorb (a <? 0) (b <? 0)) mz ez lz in
        if is_infinity f then Raise OverflowError else Ok f
    end.

Definition py_sub (x y : PyNum) : result PyNum :=
  match x, y with
  | PInt a, PInt b => Ok (PInt (a - b))
  | _, _ =>
      rbind (to_float x) (fun fx =>
      rbind (to_float y) (fun fy =>
      Ok (PFloat (SFsub prec emax fx fy))))
  end.

Definition py_add (x y : PyNum) : result PyNum :=
  match x, y with
  | PInt a, PInt b => Ok (PInt (a + b))
  | _, _ =>
      rbind (to_float x) (fun fx =>
      rbind (to_float y) (fun fy =>
      Ok (PFloat (SFadd prec emax fx fy))))
  end.

Definition py_mul (x y : PyNum) : result PyNum :=
  match x, y with
  | PInt a, PInt b => Ok (PInt (a * b))
  | _, _ =>
      rbind (to_float x) (fun fx =>
      rbind (to_float y) (fun fy =>
      Ok (PFloat (SFmul prec emax fx fy))))
  end.

(** [x / y]: a zero divisor raises, whatever its sign or type. *)
Definition py_truediv (x y : PyNum) : result PyNum :=
  match x, y with
  | PInt a, PInt b => rbind (int_truediv a b) (fun f => Ok (PFloat f))
  | _, _ =>
      rbind (to_float x) (fun fx =>
      rbind (to_float y) (fun fy =>
      if is_fzero fy then Raise ZeroDivisionError
      else Ok (PFloat (SFdiv prec emax fx fy))))
  end.

(** [int(f)]: truncation toward zero. *)
Definition float_trunc (f : spec_float) : result Z :=
  match f with
  | S754_nan => Raise ValueError
  | S754_infinity _ => Raise OverflowError
  | S754_zero _ => Ok 0
  | S754_finite s m e =>
      let v := if 0 <=? e then Z.pos m * 2 ^ e else Z.pos m / 2 ^ (- e) in
      Ok (if s then - v else v)
  end.

Definition py_int (x : PyNum) : result Z :=
  match x with
  | PInt n => Ok n
  | PFloat f => float_trunc f
  end.

(** [x < y], exact also between an int and a float. *)
Definition int_lt_float (n : Z) (f : spec_float) : bool :=
  match f with
  | S754_nan => false
  | S754_infinity s => negb s
  | S754_zero _ => n <? 0
  | S754_finite s m e =>
      let v := if s then Z.neg m else Z.pos m in
      if 0 <=? e then n <? v * 2 ^ e else n * 2 ^ (- e) <? v
  end.

Definition float_lt_int (f : spec_float) (n : Z) : bool :=
  match f with
  | S754_nan => false
  | S754_infinity s => s
  | S754_zero _ => 0 <? n
  | S754_finite s m e =>
      let v := if s then Z.neg m else Z.pos m in
      if 0 <=? e then v * 2 ^ e <? n else v <? n * 2 ^ (- e)
  end.

Definition py_lt (x y : PyNum) : bool :=
  match x, y with
  | PInt a, PInt b => a <? b
  | PInt a, PFloat g => int_lt_float a g
  | PFloat f, PInt b => float_lt_int f b
  | PFloat f, PFloat g => SFltb f g
  end.

(** The integer nearest to [num / den] ([den > 0]), ties to even. *)
Definition round_half_even (num den : Z) : Z :=
  let q := num / den in
  let r := num mod den in
  match 2 * r ?= den with
  | Lt => q
  | Gt => q + 1
  | Eq => if Z.even q then q else q + 1
  end.

(** [f'{x:.3f}'] for a float: the exact binary value rounded to three
    decimals, ties to even; the sign of a negative value is kept even when
    it rounds to zero. *)
Definition float_fmt3 (f : spec_float) : string :=
  match f with
  | S754_nan => "nan"
  | S754_infinity s => if s then "-inf" else "inf"
  | S754_zero s => (if s then "-" else "") +:+ "0.000"
  | S754_finite s m e =>
      let n := if 0 <=? e then Z.pos m * 2 ^ e * 1000
               else round_half_even (Z.pos m * 1000) (2 ^ (- e)) in
      (if s then "-" else "") +:+ str_Z (n / 1000) +:+ "." +:+ zfill (str_Z (n mod 1000)) 3
  end.

(** [f'{x:.3f}'] for an int or a float: an int is converted to a float. *)
Definition fmt3 (x : PyNum) : result string :=
  rbind (to_float x) (fun f => Ok (float_fmt3 f)).

(** ** [float(text)]

    Reading a number from text as [float] does, which is also how
    [astype(float)] converts an array of text: white space around, an
    optional sign, then [inf], [infinity] or [nan] in any case, or digits
    with an optional point and an optional exponent, where single
    underscores may stand between digits. The value is rounded to the
    nearest binary64 number, a value too large becomes an infinity, and
    any other text raises [ValueError]. A character of a [string] stands
    for the code point of its number. *)

(** White space for [float]: tab to carriage return, space, and the two
    of Latin-1 (NEL and the no-break space). *)
Definition is_space (c : ascii) : bool :=
  let n := nat_of_ascii c in
  ((9 <=? n)%nat && (n <=? 13)%nat) || (n =? 32)%nat || (n =? 133)%nat || (n =? 160)%nat.

Fixpoint lstrip (s : string) : string :=
  match s with
  | String c rest => if is_space c then lstrip rest else s
  | EmptyString => EmptyString
  end.

Fixpoint rstrip (s : string) : string :=
  match s with
  | String c rest =>
      match rstrip rest with
      | EmptyString => if is_space c then EmptyString else String c EmptyString
      | rest' => String c rest'
      end
  | EmptyString => EmptyString
  end.

(** A fixed-width array of text does not keep NUL characters at the end. *)
Fixpoint rstrip_nul (s : string) : string :=
  match s with
  | String c rest =>
      match rstrip_nul rest with
      | EmptyString => if (nat_of_ascii c =? 0)%nat then EmptyString else String c EmptyString
      | rest' => String c rest'
      end
  | EmptyString => EmptyString
  end.

Definition lower (c : ascii) : ascii :=
  let n := nat_of_ascii c in
  if (65 <=? n)%nat && (n <=? 90)%nat then ascii_of_nat (n + 32) else c.

Fixpoint lowercase (s : string) : string :=
  match s with
  | String c rest => String (lower c) (lowercase rest)
  | EmptyString => EmptyString
  end.

(** [digit (["_"] digit)*] after its first digit: the digits and the rest. *)
Fixpoint digitpart_tail (s : string) : string * string :=
  match s with
  | String c rest =>
      if is_digit c then
        let '(ds, r) := digitpart_tail rest in (String c ds, r)
      else if decide (c = "_"%char) then
        match rest with
        | String c' rest' =>
            if is_digit c' then
              let '(ds, r) := digitpart_tail rest' in (String c' ds, r)
            else (EmptyString, s)
        | EmptyString => (EmptyString, s)
        end
      else (EmptyString, s)
  | EmptyString => (EmptyString, EmptyString)
  end.

Definition digitpart (s : string) : option (string * string) :=
  match s with
  | String c rest =>
      if is_digit c then
        let '(ds, r) := digitpart_tail rest in Some (String c ds, r)
      else None
  | EmptyString => None
  end.

(** [[digitpart] "." digitpart | digitpart ["."]]: the digits before and
    after the point, and the rest. *)
Definition number (s : string) : option (string * string * string) :=
  match digitpart s with
  | Some (ds, r) =>
      match r with
      | String "." r' =>
          match digitpart r' with
          | Some (fs, r'') => Some (ds, fs, r'')
          | None => Some (ds, EmptyString, r')
          end
      | _ => Some (ds, EmptyString, r)
      end
  | None =>
      match s with
      | String "." r' =>
          match digitpart r' with
          | Some (fs, r'') => Some (EmptyString, fs, r'')
          | None => None
          end
      | _ => None
      end
  end.

(** The value of a text of digits. *)
Definition digits_value (ds : string) : Z :=
  match NilEmpty.uint_of_string ds with
  | Some u => Z.of_uint u
  | None => 0
  end.

(** [("e" | "E") ["+" | "-"] digitpart], or nothing. *)
Definition exponent (s : string) : option (Z * string) :=
  match s with
  | String c r =>
      if decide (lower c = "e"%char) then
        let '(neg, r1) :=
          match r with
          | String "+" r' => (false, r')
          | String "-" r' => (true, r')
          | _ => (false, r)
          end in
        match digitpart r1 with
        | Some (ds, r2) => Some (if neg : bool then - digits_value ds else digits_value ds, r2)
        | None => None
        end
      else Some (0, s)
  | EmptyString => Some (0, EmptyString)
  end.

(** The binary64 value nearest to [(-1)^neg * m * 10^e]. *)
Definition decimal_to_float (neg : bool) (m e : Z) : spec_float :=
  if m =? 0 then S754_zero neg
  else if 0 <=? e then binary_normalize prec emax ((if neg then - m else m) * 10 ^ e) 0 neg
  else
    let '(mz, ez, lz) := SFdiv_core_binary prec emax m 0 (10 ^ (- e)) 0 in
    binary_round_aux prec emax neg mz ez lz.

Definition float_of_text (text : string) : result spec_float :=
  let t := rstrip (lstrip text) in
  let '(neg, u) :=
    match t with
    | String "+" u => (false, u)
    | String "-" u => (true, u)
    | _ => (false, t)
    end in
  let l := lowercase u in
  if String.eqb l "inf" || String.eqb l "infinity" then Ok (S754_infinity neg)
  else if String.eqb l "nan" then Ok S754_nan
  else
    match number u with
    | Some (ds, fs, r) =>
        match exponent r with
        | Some (e, EmptyString) =>
            Ok (decimal_to_float neg (digits_value (ds +:+ fs))
                  (e - Z.of_nat (String.length fs)))
        | _ => Raise ValueError
        end
    | None => Raise ValueError
    end.

(** ** Python objects passed as surface and zone selections

    The [surfaces] and [zones] arguments are used both as a list and as a
    scalar; this is the part of Python's universe of values they range
    over here: [None], an int, a float, a str, or a list of such values.
    Other containers (tuples, sets, ranges, arrays) are not embedded, so
    that no statement is made about them: where a statement is about a
    value that is no list, it names the kinds of value it is about, unless
    the code itself only tests [type(x) == list]. *)
#[warnings="-register-all"]
Inductive pyobj : Type :=
  | ONone
  | OInt (n : Z)
  | OFloat (f : spec_float)
  | OStr (s : string)
  | OList (l : list pyobj).

(** [type(o) == list]. *)
Definition is_list (o : pyobj) : bool :=
  match o with OList _ => true | _ => false end.

Definition float_eq_int (f : spec_float) (i : Z) : bool :=
  match f with
  | S754_nan => false
  | _ => negb (float_lt_int f i) && negb (int_lt_float i f)
  end.

(** [i == o] for an int [i]. *)
Definition py_eq_int (i : Z) (o : pyobj) : bool :=
  match o with
  | OInt n => n =? i
  | OFloat f => float_eq_int f i
  | _ => false
  end.

(** [i in o] for an int [i]: only a list can be searched. *)
Definition py_contains (o : pyobj) (i : Z) : result bool :=
  match o with
  | OList l => Ok (existsb (py_eq_int i) l)
  | _ => Raise TypeError
  end.

(** * The live session controller, class [tcsii] *)
Module Tcsii.

#[projections(primitive)]
Record tcsii : Type := Build_tcsii {
  baseline : Z;  (* degrees Celsius *)
  max_temp : Z;
  port : list string;  (* commands written to the serial port, oldest first *)
  port_rx : list string;  (* lines the device will answer, next first *)
  clock : nat -> spec_float;  (* the readings of [time.time()], in order *)
  ticks : nat;  (* how many readings were taken *)
  stim_set : bool;
  beep : bool;
  trigger_in : bool;
  stim_target_temp : option Z;
  stim_rise_rate : option Z;
  stim_return_rate : option Z;
  stim_trigger_code : option Z;
  stim_strigger_dur_ms : option Z;
  stim_rise_dur_ms : option Z;
  stim_return_dur_ms : option Z;
  stim_duration_ms : option (option Z);  (* [Some None] holds Python's [None] *)
  duration_mode : option string;
  surfaces : option pyobj;
  all_surfaces : option bool;
  stim_total_duration_ms : option PyNum;  (* read by the sampling loops *)
  tport : option (list string);  (* read when [beep] is set *)
  read_outs : option (list (list spec_float))
}.

Definition upd_port (v : list string) (s : tcsii) : tcsii :=
  Build_tcsii (baseline s) (max_temp s) v (port_rx s) (clock s) (ticks s) (stim_set s)
    (beep s) (trigger_in s) (stim_target_temp s) (stim_rise_rate s) (stim_return_rate s)
    (stim_trigger_code s) (stim_strigger_dur_ms s) (stim_rise_dur_ms s)
    (stim_return_dur_ms s) (stim_duration_ms s) (duration_mode s) (surfaces s)
    (all_surfaces s) (stim_total_duration_ms s) (tport s) (read_outs s).

Definition upd_port_rx (v : list string) (s : tcsii) : tcsii :=
  Build_tcsii (baseline s) (max_temp s) (port s) v (clock s) (ticks s) (stim_set s)
    (beep s) (trigger_in s) (stim_target_temp s) (stim_rise_rate s) (stim_return_rate s)
    (stim_trigger_code s) (stim_strigger_dur_ms s) (stim_rise_dur_ms s)
    (stim_return_dur_ms s) (stim_duration_ms s) (duration_mode s) (surfaces s)
    (all_surfaces s) (stim_total_duration_ms s) (tport s) (read_outs s).

Definition upd_ticks (v : nat) (s : tcsii) : tcsii :=
  Build_tcsii (baseline s) (max_temp s) (port s) (port_rx s) (clock s) v (stim_set s)
    (beep s) (trigger_in s) (stim_target_temp s) (stim_rise_rate s) (stim_return_rate s)
    (stim_trigger_code s) (stim_strigger_dur_ms s) (stim_rise_dur_ms s)
    (stim_return_dur_ms s) (stim_duration_ms s) (duration_mode s) (surfaces s)
    (all_surfaces s) (stim_total_duration_ms s) (tport s) (read_outs s).

Definition upd_stim_set (v : bool) (s : tcsii) : tcsii :=
  Build_tcsii (baseline s) (max_temp s) (port s) (port_rx s) (clock s) (ticks s) v
    (beep s) (trigger_in s) (stim_target_temp s) (stim_rise_rate s) (stim_return_rate s)
    (stim_trigger_code s) (stim_strigger_dur_ms s) (stim_rise_dur_ms s)
    (stim_return_dur_ms s) (stim_duration_ms s) (duration_mode s) (surfaces s)
    (all_surfaces s) (stim_total_duration_ms s) (tport s) (read_outs s).

Definition upd_stim_target_temp (v : option Z) (s : tcsii) : tcsii :=
  Build_tcsii (baseline s) (max_temp s) (port s) (port_rx s) (clock s) (ticks s)
    (stim_set s) (beep s) (trigger_in s) v (stim_rise_rate s) (stim_return_rate s)
    (stim_trigger_code s) (stim_strigger_dur_ms s) (stim_rise_dur_ms s)
    (stim_return_dur_ms s) (stim_duration_ms s) (duration_mode s) (surfaces s)
    (all_surfaces s) (stim_total_duration_ms s) (tport s) (read_outs s).

Definition upd_stim_rise_rate (v : option Z) (s : tcsii) : tcsii :=
  Build_tcsii (baseline s) (max_temp s) (port s) (port_rx s) (clock s) (ticks s)
    (stim_set s) (beep s) (trigger_in s) (stim_target_temp s) v (stim_return_rate s)
    (stim_trigger_code s) (stim_strigger_dur_ms s) (stim_rise_dur_ms s)
    (stim_return_dur_ms s) (stim_duration_ms s) (duration_mode s) (surfaces s)
    (all_surfaces s) (stim_total_duration_ms s) (tport s) (read_outs s).

Definition upd_stim_return_rate (v : option Z) (s : tcsii) : tcsii :=
  Build_tcsii (baseline s) (max_temp s) (port s) (port_rx s) (clock s) (ticks s)
    (stim_set s) (beep s) (trigger_in s) (stim_target_temp s) (stim_rise_rate s) v
    (stim_trigger_code s) (stim_strigger_dur_ms s) (stim_rise_dur_ms s)
    (stim_return_dur_ms s) (stim_duration_ms s) (duration_mode s) (surfaces s)
    (all_surfaces s) (stim_total_duration_ms s) (tport s) (read_outs s).

Definition upd_stim_trigger_code (v : option Z) (s : tcsii) : tcsii :=
  Build_tcsii (baseline s) (max_temp s) (port s) (port_rx s) (clock s) (ticks s)
    (stim_set s) (beep s) (trigger_in s) (stim_target_temp s) (stim_rise_rate s)
    (stim_return_rate s) v (stim_strigger_dur_ms s) (stim_rise_dur_ms s)
    (stim_return_dur_ms s) (stim_duration_ms s) (duration_mode s) (surfaces s)
    (all_surfaces s) (stim_total_duration_ms s) (tport s) (read_outs s).

Definition upd_stim_strigger_dur_ms (v : option Z) (s : tcsii) : tcsii :=
  Build_tcsii (baseline s) (max_temp s) (port s) (port_rx s) (clock s) (ticks s)
    (stim_set s) (beep s) (trigger_in s) (stim_target_temp s) (stim_rise_rate s)
    (stim_return_rate s) (stim_trigger_code s) v (stim_rise_dur_ms s)
    (stim_return_dur_ms s) (stim_duration_ms s) (duration_mode s) (surfaces s)
    (all_surfaces s) (stim_total_duration_ms s) (tport s) (read_outs s).

Definition upd_stim_rise_dur_ms (v : option Z) (s : tcsii) : tcsii :=
  Build_tcsii (baseline s) (max_temp s) (port s) (port_rx s) (clock s) (ticks s)
    (stim_set s) (beep s) (trigger_in s) (stim_target_temp s) (stim_rise_rate s)
    (stim_return_rate s) (stim_trigger_code s) (stim_strigger_dur_ms s) v
    (stim_return_dur_ms s) (stim_duration_ms s) (duration_mode s) (surfaces s)
    (all_surfaces s) (stim_total_duration_ms s) (tport s) (read_outs s).

Definition upd_stim_return_dur_ms (v : option Z) (s : tcsii) : tcsii :=
  Build_tcsii (baseline s) (max_temp s) (port s) (port_rx s) (clock s) (ticks s)
    (stim_set s) (beep s) (trigger_in s) (stim_target_temp s) (stim_rise_rate s)
    (stim_return_rate s) (stim_trigger_code s) (stim_strigger_dur_ms s)
    (stim_rise_dur_ms s) v (stim_duration_ms s) (duration_mode s) (surfaces s)
    (all_surfaces s) (stim_total_duration_ms s) (tport s) (read_outs s).

Definition upd_stim_duration_ms (v : option (option Z)) (s : tcsii) : tcsii :=
  Build_tcsii (baseline s) (max_temp s) (port s) (port_rx s) (clock s) (ticks s)
    (stim_set s) (beep s) (trigger_in s) (stim_target_temp s) (stim_rise_rate s)
    (stim_return_rate s) (stim_trigger_code s) (stim_strigger_dur_ms s)
    (stim_rise_dur_ms s) (stim_return_dur_ms s) v (duration_mode s) (surfaces s)
    (all_surfaces s) (stim_total_duration_ms s) (tport s) (read_outs s).

Definition upd_duration_mode (v : option string) (s : tcsii) : tcsii :=
  Build_tcsii (baseline s) (max_temp s) (port s) (port_rx s) (clock s) (ticks s)
    (stim_set s) (beep s) (trigger_in s) (stim_target_temp s) (stim_rise_rate s)
    (stim_return_rate s) (stim_trigger_code s) (stim_strigger_dur_ms s)
    (stim_rise_dur_ms s) (stim_return_dur_ms s) (stim_duration_ms s) v (surfaces s)
    (all_surfaces s) (stim_total_duration_ms s) (tport s) (read_outs s).

Definition upd_surfaces (v : option pyobj) (s : tcsii) : tcsii :=
  Build_tcsii (baseline s) (max_temp s) (port s) (port_rx s) (clock s) (ticks s)
    (stim_set s) (beep s) (trigger_in s) (stim_target_temp s) (stim_rise_rate s)
    (stim_return_rate s) (stim_trigger_code s) (stim_strigger_dur_ms s)
    (stim_rise_dur_ms s) (stim_return_dur_ms s) (stim_duration_ms s) (duration_mode s) v
    (all_surfaces s) (stim_total_duration_ms s) (tport s) (read_outs s).

Definition upd_all_surfaces (v : option bool) (s : tcsii) : tcsii :=
  Build_tcsii (baseline s) (max_temp s) (port s) (port_rx s) (clock s) (ticks s)
    (stim_set s) (beep s) (trigger_in s) (stim_target_temp s) (stim_rise_rate s)
    (stim_return_rate s) (stim_trigger_code s) (stim_strigger_dur_ms s)
    (stim_rise_dur_ms s) (stim_return_dur_ms s) (stim_duration_ms s) (duration_mode s)
    (surfaces s) v (stim_total_duration_ms s) (tport s) (read_outs s).

Definition upd_tport (v : option (list string)) (s : tcsii) : tcsii :=
  Build_tcsii (baseline s) (max_temp s) (port s) (port_rx s) (clock s) (ticks s)
    (stim_set s) (beep s) (trigger_in s) (stim_target_temp s) (stim_rise_rate s)
    (stim_return_rate s) (stim_trigger_code s) (stim_strigger_dur_ms s)
    (stim_rise_dur_ms s) (stim_return_dur_ms s) (stim_duration_ms s) (duration_mode s)
    (surfaces s) (all_surfaces s) (stim_total_duration_ms s) v (read_outs s).

Definition upd_read_outs (v : option (list (list spec_float))) (s : tcsii) : tcsii :=
  Build_tcsii (baseline s) (max_temp s) (port s) (port_rx s) (clock s) (ticks s)
    (stim_set s) (beep s) (trigger_in s) (stim_target_temp s) (stim_rise_rate s)
    (stim_return_rate s) (stim_trigger_code s) (stim_strigger_dur_ms s)
    (stim_rise_dur_ms s) (stim_return_dur_ms s) (stim_duration_ms s) (duration_mode s)
    (surfaces s) (all_surfaces s) (stim_total_duration_ms s) (tport s) v.

(** [self.port.write(cmd.encode())]. *)
Definition write (cmd : string) : M tcsii unit :=
  modify (fun s => upd_port (port s ++ [cmd]) s).

(** [self.tport.write(cmd.encode())]. *)
Definition tport_write (cmd : string) : M tcsii unit :=
  bind (getattr tport) (fun log => modify (upd_tport (Some (log ++ [cmd])))).

(** [self.port.readline().decode()]: the next line, or the empty string
    when the read times out. *)
Definition readline : M tcsii string :=
  fun s =>
    match port_rx s with
    | line :: rest => (Ok line, upd_port_rx rest s)
    | [] => (Ok "", s)
    end.

(** [time.time()]. *)
Definition time_time : M tcsii spec_float :=
  fun s => (Ok (clock s (ticks s)), upd_ticks (S (ticks s)) s).

(** [format_temp(temp, zero_fill_len)]. *)
Definition format_temp (temp : Z) (zero_fill_len : Z) : string :=
  zfill (str_Z (temp * 10)) zero_fill_len.

(** [str(ms)] where [ms] is an int or [None]. *)
Definition str_opt (ms : option Z) : string :=
  match ms with
  | Some n => str_Z n
  | None => "None"
  end.

(** [format_ms(ms, zero_fill_len)]. *)
Definition format_ms (ms : option Z) (zero_fill_len : Z) : string :=
  zfill (str_opt ms) zero_fill_len.

(** [__init__(port, baseline, surfaces, max_temp, beep, trigger_in)], on a
    port that answers [rx] and under the clock [clk]. The out-of-range test
    on [baseline] only builds a [Warning] object and has no effect. *)
Definition init (baseline max_temp : Z) (beep trigger_in : bool)
    (rx : list string) (clk : nat -> spec_float) : tcsii :=
  {| baseline := baseline;
     max_temp := max_temp;
     port := [ "N" +:+ format_temp baseline 3;
               "Om" +:+ format_temp max_temp 3;
               "F";
               if trigger_in then "Ose" else "Osd" ];
     port_rx := rx;
     clock := clk;
     ticks := 0%nat;
     stim_set := false;
     beep := beep;
     trigger_in := trigger_in;
     stim_target_temp := None;
     stim_rise_rate := None;
     stim_return_rate := None;
     stim_trigger_code := None;
     stim_strigger_dur_ms := None;
     stim_rise_dur_ms := None;
     stim_return_dur_ms := None;
     stim_duration_ms := None;
     duration_mode := None;
     surfaces := None;
     all_surfaces := None;
     stim_total_duration_ms := None;
     tport := None;
     read_outs := None |}.

Definition custom_command (command : string) : M tcsii unit := write command.

Definition reset : M tcsii unit := write "Oc".

Definition set_baseline (baseline : Z) : M tcsii unit :=
  write ("N" +:+ format_temp baseline 3).

(** [int((target - baseline) / rate * 1000)]. *)
Definition ramp_dur_ms (target baseline rate : Z) : result Z :=
  rbind (py_sub (PInt target) (PInt baseline)) (fun d =>
  rbind (py_truediv d (PInt rate)) (fun q =>
  rbind (py_mul q (PInt 1000)) py_int)).

(** The loop [for i in range(1, 6): surf_ls += '0' if i not in surfaces else '1']. *)
Fixpoint surf_loop (range : list Z) (surfaces : pyobj) (surf_ls : string) : result string :=
  match range with
  | [] => Ok surf_ls
  | i :: range' =>
      rbind (py_contains surfaces i) (fun member =>
      surf_loop range' surfaces (surf_ls +:+ (if negb member then "0" else "1")))
  end.

Local Open Scope py_scope.

(** [set_stim(target, rise_rate, return_rate, dur_ms, dur_mode, trigger_code,
    trigger_dur_ms, surfaces)]. *)
Definition set_stim (target rise_rate return_rate : Z) (dur_ms : option Z)
    (dur_mode : string) (trigger_code trigger_dur_ms : Z) (surfaces : pyobj)
    : M tcsii unit :=
  (* Store parameters *)
  modify (upd_stim_set true) >>
  modify (upd_stim_target_temp (Some target)) >>
  modify (upd_stim_rise_rate (Some rise_rate)) >>
  modify (upd_stim_return_rate (Some return_rate)) >>
  modify (upd_stim_trigger_code (Some trigger_code)) >>
  modify (upd_stim_strigger_dur_ms (Some trigger_dur_ms)) >>
  (* Duration for rise *)
  let* t := getattr stim_target_temp in
  let* b := get in
  let* r := getattr stim_rise_rate in
  let* rise := lift (ramp_dur_ms t (baseline b) r) in
  modify (upd_stim_rise_dur_ms (Some rise)) >>
  let* t := getattr stim_target_temp in
  let* b := get in
  let* r := getattr stim_return_rate in
  let* back := lift (ramp_dur_ms t (baseline b) r) in
  modify (upd_stim_return_dur_ms (Some back)) >>
  (* Total duration including plateau *)
  let* dur_ms :=
    (if String.eqb dur_mode "fixed_plateau" then
       let* rise := getattr stim_rise_dur_ms in
       match dur_ms with
       | Some d => ret (Some (d + rise))
       | None => raise TypeError
       end
     else ret dur_ms) in
  (if String.eqb dur_mode "fixed_total" then
     let* back := getattr stim_return_dur_ms in
     match dur_ms with
     | Some d => modify (upd_stim_duration_ms (Some (Some (d - back))))
     | None => raise TypeError
     end
   else ret tt) >>
  (if String.eqb dur_mode "fixed_stim" then
     modify (upd_stim_duration_ms (Some dur_ms))
   else ret tt) >>
  modify (upd_duration_mode (Some dur_mode)) >>
  (* Send parameters to TSCII *)
  let* t := getattr stim_target_temp in
  write ("C0" +:+ format_temp t 3) >>
  let* r := getattr stim_rise_rate in
  write ("V0" +:+ format_temp r 4) >>
  let* r := getattr stim_return_rate in
  write ("R0" +:+ format_temp r 4) >>
  let* d := getattr stim_duration_ms in
  write ("D0" +:+ format_ms d 5) >>
  (* Set surfaces *)
  modify (upd_surfaces (Some surfaces)) >>
  (if is_list surfaces then modify (upd_all_surfaces (Some false))
   else modify (upd_all_surfaces (Some true))) >>
  let* all := getattr all_surfaces in
  let* surf_ls :=
    (if all : bool then ret "11111"
     else lift (surf_loop (seqZ 1 5) surfaces "")) in
  write ("S" +:+ surf_ls).

(** [trigger()]. *)
Definition trigger : M tcsii unit :=
  write "L" >>
  let* s := get in
  if beep s then tport_write "Z010100" else ret tt.

(** Text of the answers: [replace('\r', '').replace('\n', '')] and
    [split('+')]. *)
Definition is_eol (c : ascii) : bool :=
  let n := nat_of_ascii c in (n =? 13)%nat || (n =? 10)%nat.

Fixpoint strip_eol (s : string) : string :=
  match s with
  | EmptyString => EmptyString
  | String c rest => if is_eol c then strip_eol rest else String c (strip_eol rest)
  end.

Fixpoint split_plus (s : string) (field : string) : list string :=
  match s with
  | EmptyString => [field]
  | String c rest =>
      if decide (c = "+"%char) then field :: split_plus rest ""
      else split_plus rest (field +:+ String c "")
  end.

(** [np.asarray(rows).astype(float) / 10]: the rows must have one length,
    and every field must read as a number. An entry of the array of text
    is the field without NUL characters at its end; it is read as [float]
    reads it and divided by ten. *)
Definition cell (field : string) : result spec_float :=
  rbind (float_of_text (rstrip_nul field)) (fun f =>
  Ok (SFdiv prec emax f (binary_normalize prec emax 10 0 false))).

Fixpoint cells (row : list string) : result (list spec_float) :=
  match row with
  | [] => Ok []
  | field :: row' =>
      rbind (cell field) (fun x => rbind (cells row') (fun xs => Ok (x :: xs)))
  end.

Fixpoint matrix (width : nat) (rows : list (list string))
    : result (list (list spec_float)) :=
  match rows with
  | [] => Ok []
  | row :: rows' =>
      if (length row =? width)%nat then
        rbind (cells row) (fun x => rbind (matrix width rows') (fun xs => Ok (x :: xs)))
      else Raise ValueError
  end.

Definition asarray_div10 (rows : list (list string)) : result (list (list spec_float)) :=
  match rows with
  | [] => Ok []
  | row :: _ => matrix (length row) rows
  end.

(** The loop [while elapsed < (self.stim_total_duration_ms/1000 + offset_s)]
    of the two sampling methods. Each round takes one reading of the clock;
    [fuel] bounds the number of rounds, and [None] is returned when the
    loop is still running after that many. *)
Fixpoint poll (fuel : nat) (now : spec_float) (offset_s : PyNum)
    (elapsed : PyNum) (all_outs : list string) : M tcsii (option (list string)) :=
  let* total := getattr stim_total_duration_ms in
  let* limit := lift (rbind (py_truediv total (PInt 1000)) (fun q => py_add q offset_s)) in
  if py_lt elapsed limit then
    match fuel with
    | O => ret None
    | S fuel' =>
        write "E" >>
        let* out := readline in
        let* t := time_time in
        let* elapsed' := lift (py_sub (PFloat t) (PFloat now)) in
        poll fuel' now offset_s elapsed' (all_outs ++ [out])
    end
  else ret (Some all_outs).

(** [trigger_and_save_temp(frequency, offset_s)]; [frequency] is not used
    by the code. *)
Definition trigger_and_save_temp (fuel : nat) (offset_s : PyNum)
    : M tcsii (option unit) :=
  let* s := get in
  (if beep s then tport_write "Z010100" else ret tt) >>
  write "L" >>
  let* now := time_time in
  let* polled := poll fuel now offset_s (PInt 0) [] in
  match polled with
  | None => ret None
  | Some all_outs =>
      let all_outs := map strip_eol all_outs in
      let* outs := lift (asarray_div10 (map (fun i => split_plus i "") all_outs)) in
      modify (upd_read_outs (Some outs)) >>
      ret (Some tt)
  end.

(** [print_temp()]: the temperatures are requested and the answer is
    printed; the text printed is the result here. [flush] only waits for
    the bytes already written. *)
Definition print_temp : M tcsii string :=
  write "E" >>
  readline.

End Tcsii.

(** * The protocol-file builder, class [tcsii_protocol_generator] *)
Module Generator.

#[projections(primitive)]
Record generator : Type := Build_generator {
  filename : string;
  n_steps : Z;
  recordTemperatures : Z;
  protocol : list string;        (* the lines of the document *)
  disk : gmap string string      (* the files written, by path *)
}.

Definition upd_n_steps (v : Z) (s : generator) : generator :=
  Build_generator (filename s) v (recordTemperatures s) (protocol s) (disk s).

Definition upd_protocol (v : list string) (s : generator) : generator :=
  Build_generator (filename s) (n_steps s) (recordTemperatures s) v (disk s).

Definition upd_disk (v : gmap string string) (s : generator) : generator :=
  Build_generator (filename s) (n_steps s) (recordTemperatures s) (protocol s) v.

(** [__init__(filename, recordTemperatures)], with the files already there. *)
Definition init (filename : string) (recordTemperatures : Z)
    (files : gmap string string) : generator :=
  {| filename := filename;
     n_steps := 0;
     recordTemperatures := recordTemperatures;
     protocol := ["[protocol]"; "stepsNumber=0";
                  "recordTemperatures=" +:+ str_Z recordTemperatures; ""];
     disk := files |}.

(** [self.protocol.append(line)]. *)
Definition append (line : string) : M generator unit :=
  modify (fun s => upd_protocol (protocol s ++ [line]) s).

Local Open Scope py_scope.

(** [self.n_steps += 1; curr_step = self.n_steps]. *)
Definition next_step : M generator Z :=
  modify (fun s => upd_n_steps (n_steps s + 1) s) >>
  let* s := get in
  ret (n_steps s).

(** The loop [for z in [1, 2, 3, 4, 5]] of [add_stimulation]. *)
Fixpoint stimulation_zones (range : list Z) (curr_step : Z) (zones : pyobj)
    (duration_smmm wait target_temp rise_rate return_rate : string)
    : M generator unit :=
  match range with
  | [] => ret tt
  | z :: range' =>
      append ("[step" +:+ str_Z curr_step +:+ "_zone" +:+ str_Z z +:+ "]") >>
      let* member := lift (py_contains zones z) in
      (if member : bool then append "enabled=1" else append "enabled=0") >>
      append ("duration=" +:+ duration_smmm) >>
      append ("wait=" +:+ wait) >>
      append ("temperature=" +:+ target_temp) >>
      append ("speed=" +:+ rise_rate) >>
      append ("return=" +:+ return_rate) >>
      append "pointToPointEnabled=0" >>
      append "nbrPts=1" >>
      append "sec1=1.000" >>
      append "deg1=30.000" >>
      append "" >>
      stimulation_zones range' curr_step zones
        duration_smmm wait target_temp rise_rate return_rate
  end.

(** [add_stimulation(target_temp, rise_rate, return_rate, duration_smmm,
    baseline, wait, zones, trig_out_val, trig_out_dur, duration_mode)]. *)
Definition add_stimulation (target_temp rise_rate return_rate duration_smmm
    baseline wait : PyNum) (zones : pyobj) (trig_out_val : Z)
    (trig_out_dur : PyNum) (duration_mode : string) : M generator unit :=
  let* rise_time :=
    lift (rbind (py_sub target_temp baseline) (fun d => py_truediv d rise_rate)) in
  let* return_time :=
    lift (rbind (py_sub target_temp baseline) (fun d => py_truediv d return_rate)) in
  let* duration_smmm :=
    (if String.eqb duration_mode "fixed_plateau"
     then lift (py_add duration_smmm rise_time) else ret duration_smmm) in
  let* duration_smmm :=
    (if String.eqb duration_mode "fixed_total"
     then lift (py_sub duration_smmm return_time) else ret duration_smmm) in
  let* duration_smmm :=
    (if String.eqb duration_mode "stim_only"
     then ret duration_smmm else ret duration_smmm) in
  (* Format number to strings with 3 decimals *)
  let* duration_smmm := lift (fmt3 duration_smmm) in
  let* target_temp := lift (fmt3 target_temp) in
  let* baseline := lift (fmt3 baseline) in
  let* wait := lift (fmt3 wait) in
  let* trig_out_dur := lift (fmt3 trig_out_dur) in
  let trig_out_val := str_Z trig_out_val in
  let* rise_rate := lift (fmt3 rise_rate) in
  let* return_rate := lift (fmt3 return_rate) in
  let* curr_step := next_step in
  append ("[step" +:+ str_Z curr_step +:+ "]") >>
  append "stepType=0" >>
  append "stepTypeText=STIMULATE" >>
  append "" >>
  append ("[step" +:+ str_Z curr_step +:+ "_stimulation]") >>
  append ("baseline=" +:+ baseline) >>
  append ("triggerVal=" +:+ trig_out_val) >>
  append ("triggerDur=" +:+ trig_out_dur) >>
  append "" >>
  stimulation_zones [1; 2; 3; 4; 5] curr_step zones
    duration_smmm wait target_temp rise_rate return_rate.

(** [add_wait_trigger_in()]. *)
Definition add_wait_trigger_in : M generator unit :=
  let* curr_step := next_step in
  append ("[step" +:+ str_Z curr_step +:+ "]") >>
  append "stepType=2" >>
  append "stepTypeText=WAIT" >>
  append "typeWait=3" >>
  append "typeWaitText=WAIT_TRIGGER" >>
  append "number=1" >>
  append "".

(** [set_baseline(baseline_temp, adjust_to_skin)]. *)
Definition set_baseline (baseline_temp : PyNum) (adjust_to_skin : Z)
    : M generator unit :=
  let* baseline_temp := lift (fmt3 baseline_temp) in
  let* curr_step := next_step in
  append ("[step" +:+ str_Z curr_step +:+ "]") >>
  append "stepType=6" >>
  append "stepTypeText=BASELINE" >>
  append ("baseline=" +:+ baseline_temp) >>
  append ("adjustToSkin=" +:+ str_Z adjust_to_skin) >>
  append "".

(** The loop [for z in range(1,6)] of [set_constant_temp]. *)
Fixpoint constant_zones (range : list Z) (zones : pyobj)
    (constant_temp speed duration_s : string) : M generator unit :=
  match range with
  | [] => ret tt
  | z :: range' =>
      append ("constTemp" +:+ str_Z z +:+ "=" +:+ constant_temp) >>
      append ("constTempSpeed=" +:+ str_Z z +:+ speed) >>
      let* member := lift (py_contains zones z) in
      (if member : bool then append ("enableConsTemp" +:+ str_Z z +:+ "=1")
       else append ("enableConsTemp" +:+ str_Z z +:+ "=0")) >>
      append ("ConstTempHold" +:+ str_Z z +:+ "=" +:+ duration_s) >>
      constant_zones range' zones constant_temp speed duration_s
  end.

(** [set_constant_temp(constant_temp, duration_s, speed, zones)]. *)
Definition set_constant_temp (constant_temp duration_s speed : PyNum)
    (zones : pyobj) : M generator unit :=
  let* constant_temp := lift (fmt3 constant_temp) in
  let* speed := lift (fmt3 speed) in
  let* duration_s := lift (fmt3 duration_s) in
  let* curr_step := next_step in
  append ("[step" +:+ str_Z curr_step +:+ "]") >>
  append "stepType=8" >>
  append "stepTypeText=SET_CONST_TEMP" >>
  constant_zones (seqZ 1 5) zones constant_temp speed duration_s >>
  append "".

Definition newline : string := String (ascii_of_nat 10) "".

(** What [for line in self.protocol: f.write(line + '\n')] leaves in the file. *)
Definition serialize (lines : list string) : string :=
  fold_right (fun line rest => line +:+ newline +:+ rest) "" lines.

(** [export_protocol()]. [opened] is what [open(..., 'w')] does in the
    environment of the call: it gives the file, emptied, or it raises (an
    [OSError] such as [FileNotFoundError] when the directory is missing,
    [ValueError] when the name holds a NUL). The header line is assigned
    before the file is opened. *)
Definition export_protocol (opened : result unit) : M generator unit :=
  let* s := get in
  (if (1 <? length (protocol s))%nat
   then modify (upd_protocol (<[1%nat := "stepsNumber=" +:+ str_Z (n_steps s)]> (protocol s)))
   else raise IndexError) >>
  lift opened >>
  let* s := get in
  modify (upd_disk (<[filename s +:+ ".protocol.ini" := serialize (protocol s)]> (disk s))).

(** An argument of [generate_from_lists] that is one value for all the
    trials, or a list with one value per trial. *)
Inductive bcast (A : Type) : Type :=
  | One (a : A)
  | Many (l : list A).
Arguments One {A} a.
Arguments Many {A} l.

(** [if type(x) is not list: x = [x] * n]. *)
Definition broadcast {A} (x : bcast A) (n : nat) : list A :=
  match x with
  | One a => replicate n a
  | Many l => l
  end.

(** [if type(zones[0]) is not list: zones = [zones] * n]. *)
Definition broadcast_zones (zones : pyobj) (n : nat) : result (list pyobj) :=
  match zones with
  | OList [] => Raise IndexError
  | OList (first :: rest) =>
      if is_list first then Ok (first :: rest) else Ok (replicate n zones)
  | OStr EmptyString => Raise IndexError
  | OStr _ => Ok (replicate n zones)
  | _ => Raise TypeError
  end.

(** The trials of [zip(temp_list, duration_smmm, rise_rate, return_rate,
    trig_out_val, zones)]: as many as the shortest list has. *)
Fixpoint zip6 (temps durations rises returns : list PyNum) (trigs : list Z)
    (zones : list pyobj) : list (PyNum * PyNum * PyNum * PyNum * Z * pyobj) :=
  match temps, durations, rises, returns, trigs, zones with
  | t :: temps', d :: durations', r :: rises', b :: returns', v :: trigs', z :: zones' =>
      (t, d, r, b, v, z) :: zip6 temps' durations' rises' returns' trigs' zones'
  | _, _, _, _, _, _ => []
  end.

(** The loop over the trials in [generate_from_lists]. *)
Fixpoint trials (l : list (PyNum * PyNum * PyNum * PyNum * Z * pyobj))
    (baseline wait trigger_out_dur : PyNum) (duration_mode : string)
    : M generator unit :=
  match l with
  | [] => ret tt
  | (target, duration, rise, retur_, trig_val, zone) :: l' =>
      add_wait_trigger_in >>
      add_stimulation target rise retur_ duration baseline wait zone trig_val
        trigger_out_dur duration_mode >>
      trials l' baseline wait trigger_out_dur duration_mode
  end.

(** [generate_from_lists(temp_list, duration_smmm, zones, rise_rate,
    return_rate, baseline, wait, trig_out_val, trigger_out_dur,
    duration_mode, n_trials)]. *)
Definition generate_from_lists (temp_list duration_smmm : bcast PyNum)
    (zones : pyobj) (rise_rate return_rate : bcast PyNum)
    (baseline wait : PyNum) (trig_out_val : bcast Z) (trigger_out_dur : PyNum)
    (duration_mode : string) (n_trials : option Z) : M generator unit :=
  let* temp_list :=
    match temp_list with
    | Many l => ret l
    | One t =>
        match n_trials with
        | None => raise AssertionError
        | Some n => if n =? 0 then raise AssertionError else ret (replicate (Z.to_nat n) t)
        end
    end in
  let n := length temp_list in
  let duration_smmm := broadcast duration_smmm n in
  let* zones := lift (broadcast_zones zones n) in
  let rise_rate := broadcast rise_rate n in
  let return_rate := broadcast return_rate n in
  let trig_out_val := broadcast trig_out_val n in
  trials (zip6 temp_list duration_smmm rise_rate return_rate trig_out_val zones)
    baseline wait trigger_out_dur duration_mode.

End Generator.

(** * Vocabulary of the statements *)

(** The digits of a non-negative integer. *)
Definition digits_of (n : Z) : Decimal.uint :=
  match n with
  | Z.pos p => Pos.to_uint p
  | _ => Decimal.D0 Decimal.Nil
  end.

(** The float nearest to [n / d], which is what Python reads in a decimal
    literal such as [0.3] ([dec 3 10]). *)
Definition dec (n d : Z) : PyNum :=
  match int_truediv n d with
  | Ok f => PFloat f
  | Raise _ => PFloat S754_nan
  end.

(** A clock that stands still, and a session just opened on a silent port
    with the defaults of [__init__]. *)
Definition still_clock : nat -> spec_float := fun _ => S754_zero false.

Definition fresh_session : Tcsii.tcsii :=
  Tcsii.init 30 50 false true [] still_clock.

(** The sessions that [__init__] and any number of [set_stim] calls can
    produce, whether the calls return or raise. *)
Inductive armed : Tcsii.tcsii -> Prop :=
  | armed_init baseline max_temp beep trigger_in rx clk :
      armed (Tcsii.init baseline max_temp beep trigger_in rx clk)
  | armed_set_stim s target rise_rate return_rate dur_ms dur_mode
      trigger_code trigger_dur_ms surfaces :
      armed s ->
      armed (snd (Tcsii.set_stim target rise_rate return_rate dur_ms dur_mode
                    trigger_code trigger_dur_ms surfaces s)).

(** Hoare triples for methods: from a state in [P] the method ends in [Q]
    when it returns and in [E] when it raises. *)
Definition hoare {St A} (P : St -> Prop) (m : M St A) (Q : A -> St -> Prop)
    (E : St -> Prop) : Prop :=
  forall s, P s ->
    match m s with
    | (Ok a, s') => Q a s'
    | (Raise _, s') => E s'
    end.

(** The step blocks of a document: every block has one [stepType=] line. *)
Definition step_blocks (doc : list string) : nat :=
  length (List.filter (String.prefix "stepType=") doc).

(** A builder for file [fn] whose document, after its two header lines,
    holds [blocks] step blocks, the counter being [pending] ahead of them (it
    is increased just before the block is written). *)
Definition doc_state (fn : string) (blocks : nat) (pending : Z)
    (s : Generator.generator) : Prop :=
  Generator.filename s = fn /\
  Generator.n_steps s = Z.of_nat blocks + pending /\
  exists h0 h1 body,
    Generator.protocol s = h0 :: h1 :: body /\
    step_blocks [h0; h1] = 0%nat /\
    step_blocks body = blocks.

Definition consistent (fn : string) (s : Generator.generator) : Prop :=
  exists blocks, doc_state fn blocks 0 s.

(** The calls a user makes on a builder. *)
Inductive call : Type :=
  | CallAddStimulation (target_temp rise_rate return_rate duration_smmm
      baseline wait : PyNum) (zones : pyobj) (trig_out_val : Z)
      (trig_out_dur : PyNum) (duration_mode : string)
  | CallAddWaitTriggerIn
  | CallSetBaseline (baseline_temp : PyNum) (adjust_to_skin : Z)
  | CallSetConstantTemp (constant_temp duration_s speed : PyNum) (zones : pyobj)
  | CallGenerateFromLists (temp_list duration_smmm : Generator.bcast PyNum)
      (zones : pyobj) (rise_rate return_rate : Generator.bcast PyNum)
      (baseline wait : PyNum) (trig_out_val : Generator.bcast Z)
      (trigger_out_dur : PyNum) (duration_mode : string) (n_trials : option Z)
  | CallExportProtocol (opened : result unit).

Definition perform (c : call) : M Generator.generator unit :=
  match c with
  | CallAddStimulation t rr rt d b w z tv td m =>
      Generator.add_stimulation t rr rt d b w z tv td m
  | CallAddWaitTriggerIn => Generator.add_wait_trigger_in
  | CallSetBaseline b a => Generator.set_baseline b a
  | CallSetConstantTemp t d sp z => Generator.set_constant_temp t d sp z
  | CallGenerateFromLists tl d z rr rt b w tv td m n =>
      Generator.generate_from_lists tl d z rr rt b w tv td m n
  | CallExportProtocol opened => Generator.export_protocol opened
  end.

(** A run of calls by a caller that goes on after an exception. *)
Fixpoint session (calls : list call) (s : Generator.generator)
    : Generator.generator :=
  match calls with
  | [] => s
  | c :: calls' => session calls' (snd (perform c s))
  end.

(** The sessions that the constructor and any sequence of calls of the
    methods above can produce, whether the calls return or raise. *)
Inductive reachable : Tcsii.tcsii -> Prop :=
  | reach_init baseline max_temp beep trigger_in rx clk :
      reachable (Tcsii.init baseline max_temp beep trigger_in rx clk)
  | reach_custom_command s command :
      reachable s -> reachable (snd (Tcsii.custom_command command s))
  | reach_reset s :
      reachable s -> reachable (snd (Tcsii.reset s))
  | reach_set_baseline s baseline :
      reachable s -> reachable (snd (Tcsii.set_baseline baseline s))
  | reach_print_temp s :
      reachable s -> reachable (snd (Tcsii.print_temp s))
  | reach_set_stim s target rise_rate return_rate dur_ms dur_mode
      trigger_code trigger_dur_ms surfaces :
      reachable s ->
      reachable (snd (Tcsii.set_stim target rise_rate return_rate dur_ms dur_mode
                        trigger_code trigger_dur_ms surfaces s))
  | reach_trigger s :
      reachable s -> reachable (snd (Tcsii.trigger s))
  | reach_trigger_and_save_temp s fuel offset_s :
      reachable s -> reachable (snd (Tcsii.trigger_and_save_temp fuel offset_s s)).

(** [session.stim_total_duration_ms = v], an assignment that only the
    caller can make: no method of the class has it. *)
Definition assign_stim_total_duration_ms (v : PyNum) (s : Tcsii.tcsii)
    : Tcsii.tcsii :=
  Tcsii.Build_tcsii (Tcsii.baseline s) (Tcsii.max_temp s) (Tcsii.port s)
    (Tcsii.port_rx s) (Tcsii.clock s) (Tcsii.ticks s) (Tcsii.stim_set s)
    (Tcsii.beep s) (Tcsii.trigger_in s) (Tcsii.stim_target_temp s)
    (Tcsii.stim_rise_rate s) (Tcsii.stim_return_rate s)
    (Tcsii.stim_trigger_code s) (Tcsii.stim_strigger_dur_ms s)
    (Tcsii.stim_rise_dur_ms s) (Tcsii.stim_return_dur_ms s)
    (Tcsii.stim_duration_ms s) (Tcsii.duration_mode s) (Tcsii.surfaces s)
    (Tcsii.all_surfaces s) (Some v) (Tcsii.tport s) (Tcsii.read_outs s).

(** The elapsed time the sampling loop tests before its round [i]: zero
    before the first, then the [i]-th reading of the clock after the
    reading [now] taken at tick [t0]. *)
Definition elapsed_at (clk : nat -> spec_float) (t0 : nat) (i : nat) : PyNum :=
  match i with
  | O => PInt 0
  | S _ => PFloat (SFsub prec emax (clk (t0 + i)%nat) (clk t0))
  end.

(** The four methods that add a step to the document. *)
Definition is_step_method (c : call) : bool :=
  match c with
  | CallAddStimulation _ _ _ _ _ _ _ _ _ _ | CallAddWaitTriggerIn
  | CallSetBaseline _ _ | CallSetConstantTemp _ _ _ _ => true
  | _ => false
  end.

(** Every call of the run returned. *)
Fixpoint all_return (calls : list call) (s : Generator.generator) : bool :=
  match calls with
  | [] => true
  | c :: calls' =>
      let '(r, s') := perform c s in
      is_ok r && all_return calls' s'
  end.

(** A clock that advances by one second from one reading to the next. *)
Definition ticking_clock : nat -> spec_float :=
  fun i => binary_normalize prec emax (Z.of_nat i) 0 false.

(** The titles of the step blocks of a document: the line before each
    [stepType=] line. *)
Fixpoint step_titles (doc : list string) : list string :=
  match doc with
  | [] => []
  | h :: rest =>
      match rest with
      | t :: _ =>
          if String.prefix "stepType=" t then h :: step_titles rest
          else step_titles rest
      | [] => []
      end
  end.

(** A builder whose document holds, after its two header lines, the step
    blocks titled [[step1]] to [[stepk]]. In phase 0 the counter is [k]; in
    phase 1 it has been increased for the next block; in phase 2 the title
    of that block is the last line. *)
Definition title_state (k : nat) (phase : nat) (s : Generator.generator) : Prop :=
  Generator.n_steps s = Z.of_nat k + (if (phase =? 0)%nat then 0 else 1) /\
  exists h0 h1 body,
    Generator.protocol s = h0 :: h1 :: body /\
    body <> [] /\
    String.prefix "stepType=" h1 = false /\
    String.prefix "stepType=" (hd "" body) = false /\
    step_titles body =
      map (fun i => "[step" +:+ str_Z (Z.of_nat i) +:+ "]") (seq 1 k) /\
    ((phase =? 2)%nat = true ->
     List.last body "" = "[step" +:+ str_Z (Z.of_nat k + 1) +:+ "]").

Definition titled (s : Generator.generator) : Prop :=
  exists k, title_state k 0 s.

(** * Properties *)

(** ** Decimal text of integers *)

Section DecimalText.

Local Open Scope nat_scope.

Lemma length_string_of_uint (u : Decimal.uint) :
  String.length (NilEmpty.string_of_uint u) = Decimal.nb_digits u.
Proof. induction u; cbn; congruence. Qed.

Lemma all_digits_string_of_uint (u : Decimal.uint) :
  all_digits (NilEmpty.string_of_uint u) = true.
Proof. induction u; cbn; auto. Qed.

Lemma length_zeros (k : nat) : String.length (zeros k) = k.
Proof. unfold zeros. induction k; cbn; congruence. Qed.

Lemma zeros_string_of_uint (k : nat) (u : Decimal.uint) :
  zeros k +:+ NilEmpty.string_of_uint u = NilEmpty.string_of_uint (Nat.iter k Decimal.D0 u).
Proof.
  unfold zeros. induction k as [|k IH]; [reflexivity|].
  change (String "0" (string_of_list_ascii (replicate k "0"%char) +:+
            NilEmpty.string_of_uint u) =
          String "0" (NilEmpty.string_of_uint (Nat.iter k Decimal.D0 u))).
  now rewrite IH.
Qed.

Lemma of_uint_iter_D0 (k : nat) (u : Decimal.uint) :
  Pos.of_uint (Nat.iter k Decimal.D0 u) = Pos.of_uint u.
Proof. induction k; cbn; auto. Qed.


Lemma length_append (a b : string) :
  String.length (a +:+ b) = String.length a + String.length b.
Proof. induction a as [|c a IH]; [reflexivity|]. simpl. now rewrite IH. Qed.

Lemma digits_of_nonnil (n : Z) : digits_of n <> Decimal.Nil.
Proof.
  destruct n; cbn; try discriminate. apply Unsigned.to_uint_nonnil.
Qed.

Lemma str_Z_nonneg (n : Z) :
  (0 <= n)%Z -> str_Z n = NilEmpty.string_of_uint (digits_of n).
Proof.
  intros Hn. unfold str_Z. destruct n as [|p|p]; [reflexivity| |lia].
  cbn. pose proof (Unsigned.to_uint_nonnil p).
  destruct (Pos.to_uint p); [congruence|reflexivity..].
Qed.

Lemma str_Z_neg (p : positive) :
  str_Z (Z.neg p) = String "-" (NilEmpty.string_of_uint (Pos.to_uint p)).
Proof.
  unfold str_Z. cbn. pose proof (Unsigned.to_uint_nonnil p).
  destruct (Pos.to_uint p); [congruence|reflexivity..].
Qed.

Lemma of_uint_digits_of (n : Z) : (0 <= n)%Z -> Z.of_uint (digits_of n) = n.
Proof.
  intros Hn. pose proof (DecimalZ.of_to n) as H.
  destruct n as [|p|p]; [reflexivity|exact H|lia].
Qed.

(** A digit string does not start with a sign. *)
Lemma string_of_uint_unsigned (u : Decimal.uint) :
  match NilEmpty.string_of_uint u with
  | String c _ => is_sign c = false /\ (c =? "-")%char = false
  | EmptyString => True
  end.
Proof. destruct u; cbn; auto. Qed.


Lemma append_empty_r (s : string) : s +:+ "" = s.
Proof.
  induction s as [|c s IH]; [reflexivity|].
  change (String c (s +:+ "") = String c s). now rewrite IH.
Qed.

Lemma zfill_wide (s : string) (w : Z) :
  (w <= Z.of_nat (String.length s))%Z -> zfill s w = s.
Proof. intros H. unfold zfill. apply Z.leb_le in H. now rewrite H. Qed.

Lemma zfill_digits (u : Decimal.uint) (w : Z) :
  (Z.of_nat (Decimal.nb_digits u) < w)%Z ->
  zfill (NilEmpty.string_of_uint u) w =
  NilEmpty.string_of_uint (Nat.iter (Z.to_nat w - Decimal.nb_digits u) Decimal.D0 u).
Proof.
  intros H. unfold zfill. rewrite length_string_of_uint.
  destruct (Z.leb_spec w (Z.of_nat (Decimal.nb_digits u))) as [Hle|_]; [lia|].
  replace (Z.to_nat (w - Z.of_nat (Decimal.nb_digits u)))
    with (Z.to_nat w - Decimal.nb_digits u) by lia.
  pose proof (string_of_uint_unsigned u) as Hc.
  destruct (NilEmpty.string_of_uint u) as [|c rest] eqn:E.
  - destruct u; try discriminate E. cbn [Decimal.nb_digits].
    rewrite <- (zeros_string_of_uint _ Decimal.Nil).
    symmetry. apply append_empty_r.
  - destruct Hc as [Hc _]. rewrite Hc, <- E. apply zeros_string_of_uint.
Qed.

Lemma zfill_minus (u : Decimal.uint) (w : Z) :
  (Z.of_nat (S (Decimal.nb_digits u)) < w)%Z ->
  zfill (String "-" (NilEmpty.string_of_uint u)) w =
  String "-" (NilEmpty.string_of_uint
                (Nat.iter (Z.to_nat w - S (Decimal.nb_digits u)) Decimal.D0 u)).
Proof.
  intros H. unfold zfill. cbn [String.length]. rewrite length_string_of_uint.
  destruct (Z.leb_spec w (Z.of_nat (S (Decimal.nb_digits u)))) as [Hle|_]; [lia|].
  replace (Z.to_nat (w - Z.of_nat (S (Decimal.nb_digits u))))
    with (Z.to_nat w - S (Decimal.nb_digits u)) by lia.
  cbn [is_sign]. rewrite zeros_string_of_uint. reflexivity.
Qed.

Lemma decode_digits (u : Decimal.uint) :
  u <> Decimal.Nil -> decode (NilEmpty.string_of_uint u) = Some (Z.of_uint u).
Proof.
  intros Hu. unfold decode, NilZero.int_of_string.
  pose proof (string_of_uint_unsigned u) as Hc. pose proof (NilEmpty.usu u) as Hs.
  destruct (NilEmpty.string_of_uint u) as [|c rest] eqn:E.
  - destruct u; try discriminate E. congruence.
  - destruct Hc as [_ Hc]. rewrite Hc. unfold NilZero.uint_of_string.
    rewrite Hs. reflexivity.
Qed.

Lemma decode_minus (u : Decimal.uint) :
  u <> Decimal.Nil ->
  decode (String "-" (NilEmpty.string_of_uint u)) = Some (- Z.of_uint u)%Z.
Proof.
  intros Hu. unfold decode, NilZero.int_of_string. cbn [Ascii.eqb Bool.eqb].
  pose proof (NilEmpty.usu u) as Hs. unfold NilZero.uint_of_string.
  destruct (NilEmpty.string_of_uint u) as [|c rest] eqn:E.
  - destruct u; try discriminate E. congruence.
  - rewrite Hs. reflexivity.
Qed.

Lemma iter_D0_nonnil (k : nat) (u : Decimal.uint) :
  u <> Decimal.Nil -> Nat.iter k Decimal.D0 u <> Decimal.Nil.
Proof. destruct k; cbn; [auto|discriminate]. Qed.

(** Reading back what [zfill] made of [str(n)] gives [n], whatever the width. *)
Lemma decode_zfill_str (n w : Z) : decode (zfill (str_Z n) w) = Some n.
Proof.
  destruct (Z.le_gt_cases 0 n) as [Hn|Hn].
  - rewrite (str_Z_nonneg n Hn). pose proof (digits_of_nonnil n) as Hu.
    destruct (Z.le_gt_cases w (Z.of_nat (Decimal.nb_digits (digits_of n)))) as [Hw|Hw].
    + rewrite zfill_wide by (rewrite length_string_of_uint; exact Hw).
      rewrite decode_digits by exact Hu. now rewrite of_uint_digits_of.
    + rewrite zfill_digits by lia.
      rewrite decode_digits by (apply iter_D0_nonnil; exact Hu).
      unfold Z.of_uint. rewrite of_uint_iter_D0.
      now rewrite <- (of_uint_digits_of n Hn) at 2.
  - destruct n as [|p|p]; try lia. rewrite str_Z_neg.
    pose proof (Unsigned.to_uint_nonnil p) as Hu.
    assert (Hv : (- Z.of_uint (Pos.to_uint p))%Z = Z.neg p).
    { pose proof (DecimalZ.of_to (Z.neg p)) as H. exact H. }
    destruct (Z.le_gt_cases w (Z.of_nat (S (Decimal.nb_digits (Pos.to_uint p))))) as [Hw|Hw].
    + rewrite zfill_wide by (cbn [String.length]; rewrite length_string_of_uint; exact Hw).
      rewrite decode_minus by exact Hu. now rewrite Hv.
    + rewrite zfill_minus by lia.
      rewrite decode_minus by (apply iter_D0_nonnil; exact Hu).
      unfold Z.of_uint in *. rewrite of_uint_iter_D0. now rewrite Hv.
Qed.


Local Open Scope Z_scope.

Lemma pow10_S (k : nat) : 10 ^ Z.of_nat (S k) = 10 * 10 ^ Z.of_nat k.
Proof. rewrite Nat2Z.inj_succ, Z.pow_succ_r by lia. reflexivity. Qed.

Lemma pow10_pos (k : nat) : 0 < 10 ^ Z.of_nat k.
Proof. apply Z.pow_pos_nonneg; lia. Qed.

Lemma of_uint_acc_bounds (d : Decimal.uint) (acc : positive) :
  Z.pos acc * 10 ^ Z.of_nat (Decimal.nb_digits d) <= Z.pos (Pos.of_uint_acc d acc)
  < (Z.pos acc + 1) * 10 ^ Z.of_nat (Decimal.nb_digits d).
Proof.
  revert acc. induction d as [|d IH|d IH|d IH|d IH|d IH|d IH|d IH|d IH|d IH|d IH];
    intros acc; cbn [Pos.of_uint_acc Decimal.nb_digits];
    [cbn; lia | ..];
    rewrite pow10_S; pose proof (pow10_pos (Decimal.nb_digits d));
    match goal with
    | |- context [Pos.of_uint_acc d ?a] => specialize (IH a)
    end; nia.
Qed.

Lemma of_uint_upper (d : Decimal.uint) :
  Z.of_N (Pos.of_uint d) < 10 ^ Z.of_nat (Decimal.nb_digits d).
Proof.
  induction d as [|d IH|d IH|d IH|d IH|d IH|d IH|d IH|d IH|d IH|d IH];
    cbn [Pos.of_uint Decimal.nb_digits]; [cbn; lia | ..];
    rewrite pow10_S; pose proof (pow10_pos (Decimal.nb_digits d));
    [lia | ..];
    match goal with
    | |- context [Pos.of_uint_acc d ?a] => pose proof (of_uint_acc_bounds d a)
    end; cbn [Z.of_N]; nia.
Qed.

(** The decimal text of a positive number does not start with [0]. *)
Lemma to_uint_head (p : positive) :
  match Pos.to_uint p with
  | Decimal.Nil | Decimal.D0 _ => False
  | _ => True
  end.
Proof.
  pose proof (Unsigned.to_uint_nonnil p) as Hnil.
  pose proof (Unsigned.to_uint_nonzero p) as Hzero.
  pose proof (DecimalN.Unsigned.to_of (Pos.to_uint p)) as Hn.
  unfold N.of_uint in Hn. rewrite Unsigned.of_to in Hn. cbn [N.to_uint] in Hn.
  destruct (Pos.to_uint p) as [|l| | | | | | | | |] eqn:E; auto.
  rewrite unorm_D0 in Hn.
  destruct l as [|? | | | | | | | | |] eqn:El; [congruence|..];
    match type of Hn with
    | _ = Decimal.unorm ?u =>
        assert (Hu : u <> Decimal.Nil) by discriminate;
        pose proof (nb_digits_unorm u Hu) as Hd;
        rewrite <- Hn in Hd; cbn [Decimal.nb_digits] in Hd; lia
    end.
Qed.

Lemma to_uint_bounds (p : positive) :
  10 ^ (Z.of_nat (Decimal.nb_digits (Pos.to_uint p)) - 1) <= Z.pos p
  < 10 ^ Z.of_nat (Decimal.nb_digits (Pos.to_uint p)).
Proof.
  pose proof (to_uint_head p) as Hh. pose proof (of_uint_upper (Pos.to_uint p)) as Hup.
  pose proof (Unsigned.of_to p) as Hof.
  rewrite Hof in Hup. cbn [Z.of_N] in Hup. split; [|exact Hup].
  destruct (Pos.to_uint p) as [|d|d|d|d|d|d|d|d|d|d]; try contradiction;
    cbn [Pos.of_uint] in Hof; injection Hof as Hof;
    cbn [Decimal.nb_digits];
    replace (Z.of_nat (S (Decimal.nb_digits d)) - 1) with (Z.of_nat (Decimal.nb_digits d)) by lia;
    match type of Hof with
    | Pos.of_uint_acc d ?a = _ => pose proof (of_uint_acc_bounds d a) as Hb
    end; rewrite Hof in Hb; pose proof (pow10_pos (Decimal.nb_digits d)); nia.
Qed.

(** A non-negative [n] has at most [w] decimal digits exactly when
    [n < 10 ^ w]. *)
Lemma str_Z_length_le (n w : Z) :
  0 <= n -> 0 < w ->
  (Z.of_nat (String.length (str_Z n)) <= w <-> n < 10 ^ w).
Proof.
  intros Hn Hw. rewrite (str_Z_nonneg n Hn), length_string_of_uint.
  destruct n as [|p|p]; [|clear Hn|lia].
  - cbn. split; intros _; [apply Z.pow_pos_nonneg; lia|lia].
  - cbn [digits_of]. pose proof (to_uint_bounds p) as [Hlo Hhi].
    set (L := Z.of_nat (Decimal.nb_digits (Pos.to_uint p))) in *.
    split; intros H.
    + eapply Z.lt_le_trans; [exact Hhi|]. apply Z.pow_le_mono_r; lia.
    + destruct (Z.le_gt_cases L w) as [|Hgt]; [assumption|exfalso].
      assert (10 ^ w <= 10 ^ (L - 1)) by (apply Z.pow_le_mono_r; lia). lia.
Qed.

End DecimalText.


(** ** The surface mask *)

Lemma surf_loop_list (range : list Z) (l : list pyobj) (acc : string) :
  Tcsii.surf_loop range (OList l) acc =
  Ok (fold_left (fun a i => a +:+ (if existsb (py_eq_int i) l then "1" else "0")) range acc).
Proof.
  revert acc. induction range as [|i range IH]; intros acc; cbn; [reflexivity|].
  rewrite IH. destruct (existsb (py_eq_int i) l); reflexivity.
Qed.

Import Tcsii.

(** Unfolding one method call down to its outcome and final state. *)
Ltac run :=
  unfold bind, modify, getattr, lift, ret, raise, get, write;
  cbn -[ramp_dur_ms format_temp format_ms surf_loop seqZ String.append].

(** The stored duration after the three mode tests of [set_stim]: assigned
    under ['fixed_total'] and ['fixed_stim'], left as it was otherwise. *)
Lemma set_stim_summary target rr rt dur mode tc td surf s rise back :
  ramp_dur_ms target (baseline s) rr = Ok rise ->
  ramp_dur_ms target (baseline s) rt = Ok back ->
  (mode = "fixed_plateau" \/ mode = "fixed_total" -> dur <> None) ->
  let stored :=
    if String.eqb mode "fixed_total" then Some ((fun d => d - back) <$> dur)
    else if String.eqb mode "fixed_stim" then Some dur
    else stim_duration_ms s in
  exists s' mask,
    (if is_list surf then surf_loop (seqZ 1 5) surf "" else Ok "11111") = Ok mask /\
    set_stim target rr rt dur mode tc td surf s =
      (match stored with Some _ => Ok tt | None => Raise AttributeError end, s') /\
    port s' =
      port s ++ ["C0" +:+ format_temp target 3; "V0" +:+ format_temp rr 4;
                 "R0" +:+ format_temp rt 4] ++
      match stored with
      | Some v => ["D0" +:+ format_ms v 5; "S" +:+ mask]
      | None => []
      end /\
    stim_duration_ms s' = stored /\
    stim_total_duration_ms s' = stim_total_duration_ms s /\
    tport s' = tport s /\ beep s' = beep s /\ baseline s' = baseline s.
Proof.
  intros Hr Hb Hdur stored.
  assert (Hmask : exists mask,
    (if is_list surf then surf_loop (seqZ 1 5) surf "" else Ok "11111") = Ok mask).
  { destruct surf as [| | | |l]; [eauto..|rewrite surf_loop_list; eauto]. }
  destruct Hmask as [mask Hmask].
  unfold set_stim. run. rewrite Hr. run. rewrite Hb. run.
  subst stored.
  destruct (String.eqb mode "fixed_plateau") eqn:E1;
  destruct (String.eqb mode "fixed_total") eqn:E2;
  destruct (String.eqb mode "fixed_stim") eqn:E3;
  try apply String.eqb_eq in E1; try apply String.eqb_eq in E2;
  try apply String.eqb_eq in E3; try congruence;
  destruct dur as [d|]; try (exfalso; apply Hdur; [solve [auto]|reflexivity]); run;
  try destruct (stim_duration_ms s) as [v|] eqn:Ev; run;
  (destruct (is_list surf) eqn:El; [|injection Hmask as <-]); run;
  (refine (ex_intro _ _ (ex_intro _ _ _)); split; [first [exact Hmask | reflexivity]|];
   rewrite ?Hmask; split; [reflexivity|];
   cbn -[format_temp format_ms String.append];
   rewrite <- ?app_assoc; repeat split; try reflexivity; try assumption).
Qed.

(** ** The fixed-width encoders [format_temp] and [format_ms] *)

Lemma zfill_str_fits (n w : Z) :
  0 <= n -> 0 < w -> n < 10 ^ w ->
  String.length (zfill (str_Z n) w) = Z.to_nat w /\
  all_digits (zfill (str_Z n) w) = true.
Proof.
  intros Hn Hw Hlt. apply (str_Z_length_le n w Hn Hw) in Hlt.
  rewrite (str_Z_nonneg n Hn) in *. rewrite length_string_of_uint in Hlt.
  destruct (Z.eq_dec (Z.of_nat (Decimal.nb_digits (digits_of n))) w) as [He|Hne].
  - rewrite zfill_wide by (rewrite length_string_of_uint; lia).
    rewrite length_string_of_uint, all_digits_string_of_uint. split; [lia|reflexivity].
  - rewrite zfill_digits by lia.
    rewrite length_string_of_uint, all_digits_string_of_uint, nb_digits_iter_D0.
    split; [lia|reflexivity].
Qed.

Lemma zfill_str_overflows (n w : Z) :
  0 <= n -> 0 < w -> 10 ^ w <= n ->
  zfill (str_Z n) w = str_Z n /\
  (Z.to_nat w < String.length (zfill (str_Z n) w))%nat.
Proof.
  intros Hn Hw Hge.
  assert (Hlen : w < Z.of_nat (String.length (str_Z n))).
  { destruct (Z.le_gt_cases (Z.of_nat (String.length (str_Z n))) w) as [H|H]; [|lia].
    apply (str_Z_length_le n w Hn Hw) in H. lia. }
  rewrite zfill_wide by lia. split; [reflexivity|lia].
Qed.

(** C5, as the code has it. For a non-negative value [v] and a width
    [w >= 1], [format_temp] (value scaled by ten) and [format_ms] return text
    that reads back as the scaled value; when the scaled value is below
    [10 ^ w] the text has exactly [w] characters, all of them digits; when
    it needs more than [w] digits the text is [str] of the scaled value,
    longer than [w], and no exception is raised. *)
Theorem encoder_fixed_width (v w : Z) :
  0 <= v -> 0 < w ->
  decode (format_temp v w) = Some (v * 10) /\
  decode (format_ms (Some v) w) = Some v /\
  (v * 10 < 10 ^ w ->
     String.length (format_temp v w) = Z.to_nat w /\
     all_digits (format_temp v w) = true) /\
  (10 ^ w <= v * 10 ->
     format_temp v w = str_Z (v * 10) /\
     (Z.to_nat w < String.length (format_temp v w))%nat) /\
  (v < 10 ^ w ->
     String.length (format_ms (Some v) w) = Z.to_nat w /\
     all_digits (format_ms (Some v) w) = true) /\
  (10 ^ w <= v ->
     format_ms (Some v) w = str_Z v /\
     (Z.to_nat w < String.length (format_ms (Some v) w))%nat).
Proof.
  intros Hv Hw. unfold format_temp, format_ms, str_opt.
  split; [apply decode_zfill_str|].
  split; [apply decode_zfill_str|].
  split; [intros H; apply zfill_str_fits; lia|].
  split; [intros H; apply zfill_str_overflows; lia|].
  split; [intros H; apply zfill_str_fits; lia|].
  intros H; apply zfill_str_overflows; lia.
Qed.

Lemma encoder_fixed_width_witness :
  decode (format_temp 40 3) = Some 400 /\
  String.length (format_ms (Some 1500) 5) = 5%nat.
Proof.
  pose proof (encoder_fixed_width 40 3 ltac:(lia) ltac:(lia)) as (Ht & _).
  pose proof (encoder_fixed_width 1500 5 ltac:(lia) ltac:(lia)) as (_ & _ & _ & _ & Hm & _).
  split; [exact Ht|]. apply Hm. reflexivity.
Defined.

(** C5 as stated fails: a value that needs more digits than the width is
    not refused, the wider text is returned. *)
Lemma encoder_overflow_counterexample :
  format_temp 100 3 = "1000" /\ format_ms (Some 123456) 5 = "123456".
Proof. split; reflexivity. Qed.

(** ** [set_stim]: what is stored and what is sent *)

(** Breaking every [match] of the goal on its scrutinee. *)
Ltac break_match :=
  repeat match goal with
  | |- context [match ?x with _ => _ end] =>
      lazymatch x with
      | context [match _ with _ => _ end] => fail
      | _ => destruct x eqn:?; run
      end
  end.

(** No call of [set_stim] assigns [stim_total_duration_ms] or [tport], or
    changes [beep]. *)
Lemma set_stim_frame target rr rt dur mode tc td surf s :
  let s' := snd (set_stim target rr rt dur mode tc td surf s) in
  stim_total_duration_ms s' = stim_total_duration_ms s /\
  tport s' = tport s /\ beep s' = beep s /\ read_outs s' = read_outs s.
Proof.
  unfold set_stim. run. break_match; cbn; auto.
Qed.


(** C8, as the code has it. On a session whose [stim_duration_ms] has not
    been assigned, a call of [set_stim] with [dur_mode = 'fixed_plateau'],
    a duration given ([dur_ms] not [None]) and both ramp durations
    computable (rates not zero) raises [AttributeError] after the target,
    rise-rate and return-rate commands and before the duration command: the
    port holds no [D0] command of this call and the stored duration is still
    missing. *)
Theorem set_stim_fixed_plateau_attribute_error
    target rr rt d tc td surf s rise back :
  stim_duration_ms s = None ->
  ramp_dur_ms target (baseline s) rr = Ok rise ->
  ramp_dur_ms target (baseline s) rt = Ok back ->
  exists s',
    set_stim target rr rt (Some d) "fixed_plateau" tc td surf s =
      (Raise AttributeError, s') /\
    port s' =
      port s ++ ["C0" +:+ format_temp target 3; "V0" +:+ format_temp rr 4;
                 "R0" +:+ format_temp rt 4] /\
    stim_duration_ms s' = None.
Proof.
  intros Hunset Hr Hb.
  destruct (set_stim_summary target rr rt (Some d) "fixed_plateau" tc td surf s
              rise back Hr Hb ltac:(discriminate))
    as (s' & mask & _ & Hrun & Hport & Hstored & _).
  cbn [String.eqb Ascii.eqb Bool.eqb] in Hrun, Hport, Hstored.
  rewrite Hunset in Hrun, Hport, Hstored.
  exists s'. rewrite app_nil_r in Hport. auto.
Qed.

Lemma set_stim_fixed_plateau_attribute_error_witness :
  exists s',
    set_stim 40 10 10 (Some 1000) "fixed_plateau" 255 10 (OInt 0) fresh_session =
      (Raise AttributeError, s') /\
    port s' =
      port fresh_session ++ ["C0" +:+ format_temp 40 3; "V0" +:+ format_temp 10 4;
                             "R0" +:+ format_temp 10 4] /\
    stim_duration_ms s' = None.
Proof.
  apply (set_stim_fixed_plateau_attribute_error 40 10 10 1000 255 10 (OInt 0)
           fresh_session 1000 1000); reflexivity.
Defined.

(** C8 as stated fails where the call cannot get as far as reading the
    stored duration. On a fresh session, where no duration is stored, the
    default [dur_ms = None] makes the ['fixed_plateau'] branch raise
    [TypeError] when it adds the rise time to [None], and a rise rate of
    zero raises [ZeroDivisionError] when the rise time is computed; in both
    cases nothing has been written to the port. *)
Lemma set_stim_fixed_plateau_other_errors_counterexample :
  stim_duration_ms fresh_session = None /\
  (let '(r, s) := set_stim 40 10 10 None "fixed_plateau" 255 10 (OInt 0)
                    fresh_session in
   (r, port s)) = (Raise TypeError, port fresh_session) /\
  (let '(r, s) := set_stim 40 0 10 (Some 1000) "fixed_plateau" 255 10 (OInt 0)
                    fresh_session in
   (r, port s)) = (Raise ZeroDivisionError, port fresh_session).
Proof. split; [reflexivity|]. split; vm_compute; reflexivity. Qed.

(** The characters of the mask built from a list. *)
Lemma surf_loop_bits (l : list pyobj) (mask : string) :
  surf_loop (seqZ 1 5) (OList l) "" = Ok mask ->
  String.length mask = 5%nat /\
  forall i, 1 <= i <= 5 ->
    String.get (Z.to_nat (i - 1)) mask =
    Some (if existsb (py_eq_int i) l then "1"%char else "0"%char).
Proof.
  rewrite surf_loop_list.
  set (range := seqZ 1 5). vm_compute in range. subst range.
  intros [= <-]. cbn [fold_left].
  split.
  - destruct (existsb (py_eq_int 1) l), (existsb (py_eq_int 2) l),
      (existsb (py_eq_int 3) l), (existsb (py_eq_int 4) l),
      (existsb (py_eq_int 5) l); reflexivity.
  - intros i Hi.
    assert (Hc : i = 1 \/ i = 2 \/ i = 3 \/ i = 4 \/ i = 5) by lia.
    destruct Hc as [-> | [-> | [-> | [-> | ->]]]];
      destruct (existsb (py_eq_int 1) l), (existsb (py_eq_int 2) l),
        (existsb (py_eq_int 3) l), (existsb (py_eq_int 4) l),
        (existsb (py_eq_int 5) l); reflexivity.
Qed.




(** Under ['fixed_plateau'] the stored duration is left as it was: a later
    transmission sends the value of an earlier call, whatever [dur_ms] is. *)
Lemma set_stim_fixed_plateau_stale target rr rt d tc td surf s rise back v :
  stim_duration_ms s = Some v ->
  ramp_dur_ms target (baseline s) rr = Ok rise ->
  ramp_dur_ms target (baseline s) rt = Ok back ->
  exists s' mask,
    set_stim target rr rt (Some d) "fixed_plateau" tc td surf s = (Ok tt, s') /\
    port s' =
      port s ++ ["C0" +:+ format_temp target 3; "V0" +:+ format_temp rr 4;
                 "R0" +:+ format_temp rt 4; "D0" +:+ format_ms v 5;
                 "S" +:+ mask] /\
    stim_duration_ms s' = Some v.
Proof.
  intros Hset Hr Hb.
  destruct (set_stim_summary target rr rt (Some d) "fixed_plateau" tc td surf s
              rise back Hr Hb ltac:(discriminate))
    as (s' & mask & _ & Hrun & Hport & Hstored & _).
  cbn [String.eqb Ascii.eqb Bool.eqb] in Hrun, Hport, Hstored.
  rewrite Hset in Hrun, Hport, Hstored. exists s', mask. auto.
Qed.

(** C2, the live controller at a failing input. With baseline 30, target
    40, rise rate 10 and [dur_ms = 1000] under ['fixed_plateau'] the claim
    asks for the duration command [D002000] (1000 ms of plateau and 1000 ms
    of rise). On a fresh session the call raises [AttributeError] and sends
    no duration command; after an earlier ['fixed_stim'] call with 500 ms it
    sends [D000500], the duration of that earlier call. *)
Theorem set_stim_fixed_plateau_evaluated :
  (let '(r, s) := set_stim 40 10 10 (Some 1000) "fixed_plateau" 255 10 (OInt 0)
                    fresh_session in
   (r, port s)) =
  (Raise AttributeError, ["N300"; "Om500"; "F"; "Ose"; "C0400"; "V00100"; "R00100"]) /\
  (let '(_, s1) := set_stim 40 10 10 (Some 500) "fixed_stim" 255 10 (OInt 0)
                     fresh_session in
   let '(r, s2) := set_stim 40 10 10 (Some 1000) "fixed_plateau" 255 10 (OInt 0) s1 in
   (r, drop 9 (port s2))) =
  (Ok tt, ["C0400"; "V00100"; "R00100"; "D000500"; "S11111"]).
Proof. split; vm_compute; reflexivity. Qed.

(** ** The sampling loop *)

(** Rewriting the attribute read at the head of the goal with [H]. *)
Ltac rewrite_attr H :=
  match type of H with
  | ?l = _ =>
      match goal with
      | |- context [match ?x with _ => _ end] =>
          unify x l; change x with l; rewrite H
      end
  end.

Lemma armed_unassigned (s : tcsii) :
  armed s ->
  stim_total_duration_ms s = None /\ tport s = None /\ read_outs s = None.
Proof.
  induction 1 as [|s target rr rt dur mode tc td surf _ IH]; [cbn; auto|].
  destruct (set_stim_frame target rr rt dur mode tc td surf s) as (H1 & H2 & _ & H4).
  destruct IH as (I1 & I2 & I4). rewrite H1, H2, H4. auto.
Qed.

(** Whatever [set_stim] calls came before, [trigger_and_save_temp] raises
    [AttributeError] when it first evaluates the condition of its loop (or,
    with [beep] set, when it reads [tport]): no temperature request is
    written, no line is read, and [read_outs] stays unassigned. *)
Lemma trigger_and_save_temp_armed (s : tcsii) (fuel : nat) (offset_s : PyNum) :
  armed s ->
  exists s',
    trigger_and_save_temp fuel offset_s s = (Raise AttributeError, s') /\
    port s' = port s ++ (if beep s then [] else ["L"]) /\
    port_rx s' = port_rx s /\ read_outs s' = None.
Proof.
  intros Ha. destruct (armed_unassigned s Ha) as (Ht & Hp & Hr).
  unfold trigger_and_save_temp, tport_write. run.
  destruct (beep s) eqn:Hbeep; run.
  - refine (ex_intro _ _ _). rewrite_attr Hp. run.
    split; [reflexivity|]. rewrite app_nil_r. repeat split; exact Hr.
  - refine (ex_intro _ _ _).
    destruct fuel; cbn [poll]; run; rewrite_attr Ht; run;
      (split; [reflexivity|]; repeat split; exact Hr).
Qed.

(** C3 at a failing input. A session is opened, armed by [set_stim] with
    1000 ms under ['fixed_stim'], and fired with [offset_s = 1]; the device would
    answer well-formed lines. However long the loop is allowed to run, the
    call raises [AttributeError] right after the trigger command [L]: the
    loop reads [stim_total_duration_ms], which no method assigns
    ([set_stim] stores [stim_duration_ms]). No sample is taken. *)
Theorem trigger_and_save_temp_evaluated (fuel : nat) :
  let s0 := init 30 50 false true
              ["300+300+300+300+300+300"; "301+305+305+305+305+305"] still_clock in
  let s1 := snd (set_stim 40 10 10 (Some 1000) "fixed_stim" 255 10 (OInt 0) s0) in
  exists s2,
    trigger_and_save_temp fuel (PInt 1) s1 = (Raise AttributeError, s2) /\
    port s2 = ["N300"; "Om500"; "F"; "Ose"; "C0400"; "V00100"; "R00100";
               "D001000"; "S11111"; "L"] /\
    port_rx s2 = ["300+300+300+300+300+300"; "301+305+305+305+305+305"] /\
    read_outs s2 = None.
Proof.
  intros s0 s1.
  assert (Ha : armed s1) by (apply armed_set_stim, armed_init).
  destruct (trigger_and_save_temp_armed s1 fuel (PInt 1) Ha) as (s2 & Hrun & Hport & Hrx & Hout).
  exists s2. split; [exact Hrun|]. split; [|split; [|exact Hout]].
  - rewrite Hport. vm_compute. reflexivity.
  - rewrite Hrx. vm_compute. reflexivity.
Qed.

(** ** Hoare rules *)

Section HoareRules.

Context {St : Type}.
Implicit Types (P E : St -> Prop).

Lemma hoare_bind {A B} P (m : M St A) (k : A -> M St B) R Q E :
  hoare P m R E -> (forall a, hoare (R a) (k a) Q E) -> hoare P (bind m k) Q E.
Proof.
  intros Hm Hk s Hs. unfold bind. specialize (Hm s Hs).
  destruct (m s) as [[a|e] s1]; [apply (Hk a s1 Hm)|exact Hm].
Qed.

Lemma hoare_ret {A} P (a : A) (Q : A -> St -> Prop) E :
  (forall s, P s -> Q a s) -> hoare P (ret a) Q E.
Proof. intros H s Hs. apply H, Hs. Qed.

Lemma hoare_raise {A} P e (Q : A -> St -> Prop) E :
  (forall s, P s -> E s) -> hoare P (raise e) Q E.
Proof. intros H s Hs. apply H, Hs. Qed.

Lemma hoare_lift {A} P (r : result A) (Q : A -> St -> Prop) E :
  (forall s a, P s -> r = Ok a -> Q a s) -> (forall s, P s -> E s) ->
  hoare P (lift r) Q E.
Proof. intros HQ HE s Hs. unfold lift. destruct r; [eapply HQ|apply HE]; eauto. Qed.

Lemma hoare_modify P (f : St -> St) (Q : unit -> St -> Prop) E :
  (forall s, P s -> Q tt (f s)) -> hoare P (modify f) Q E.
Proof. intros H s Hs. apply H, Hs. Qed.

Lemma hoare_get P (Q : St -> St -> Prop) E :
  (forall s, P s -> Q s s) -> hoare P get Q E.
Proof. intros H s Hs. apply H, Hs. Qed.

Lemma hoare_if {A} P (b : bool) (m1 m2 : M St A) Q E :
  hoare P m1 Q E -> hoare P m2 Q E -> hoare P (if b then m1 else m2) Q E.
Proof. destruct b; auto. Qed.

Lemma hoare_conseq {A} P P' (m : M St A) (Q Q' : A -> St -> Prop) E E' :
  hoare P' m Q' E' ->
  (forall s, P s -> P' s) -> (forall a s, Q' a s -> Q a s) ->
  (forall s, E' s -> E s) -> hoare P m Q E.
Proof.
  intros H HP HQ HE s Hs. specialize (H s (HP s Hs)).
  destruct (m s) as [[a|e] s1]; auto.
Qed.

End HoareRules.

(** ** The builder: what the loops over the zones write *)

Section ZoneLoops.

Import Generator.

Lemma stimulation_zones_list (range : list Z) (c : Z) (l : list pyobj)
    (d w t rr rt : string) (s : generator) :
  stimulation_zones range c (OList l) d w t rr rt s =
  (Ok tt,
   upd_protocol (protocol s ++
     flat_map (fun z =>
       ["[step" +:+ str_Z c +:+ "_zone" +:+ str_Z z +:+ "]";
        if existsb (py_eq_int z) l then "enabled=1" else "enabled=0";
        "duration=" +:+ d; "wait=" +:+ w; "temperature=" +:+ t;
        "speed=" +:+ rr; "return=" +:+ rt; "pointToPointEnabled=0";
        "nbrPts=1"; "sec1=1.000"; "deg1=30.000"; ""]) range) s).
Proof.
  revert s. induction range as [|z range IH]; intros s.
  - cbn [stimulation_zones flat_map]. rewrite app_nil_r. reflexivity.
  - cbn [stimulation_zones flat_map].
    unfold bind, append, modify, lift, py_contains.
    destruct (existsb (py_eq_int z) l); rewrite IH;
      cbn -[String.append str_Z flat_map];
      rewrite <- !app_assoc; reflexivity.
Qed.

Lemma constant_zones_list (range : list Z) (l : list pyobj)
    (t sp d : string) (s : generator) :
  constant_zones range (OList l) t sp d s =
  (Ok tt,
   upd_protocol (protocol s ++
     flat_map (fun z =>
       ["constTemp" +:+ str_Z z +:+ "=" +:+ t;
        "constTempSpeed=" +:+ str_Z z +:+ sp;
        if existsb (py_eq_int z) l then "enableConsTemp" +:+ str_Z z +:+ "=1"
        else "enableConsTemp" +:+ str_Z z +:+ "=0";
        "ConstTempHold" +:+ str_Z z +:+ "=" +:+ d]) range) s).
Proof.
  revert s. induction range as [|z range IH]; intros s.
  - cbn [constant_zones flat_map]. rewrite app_nil_r. reflexivity.
  - cbn [constant_zones flat_map].
    unfold bind, append, modify, lift, py_contains.
    destruct (existsb (py_eq_int z) l); rewrite IH;
      cbn -[String.append str_Z flat_map];
      rewrite <- !app_assoc; reflexivity.
Qed.

End ZoneLoops.

(** ** The builder: [add_stimulation] with a list of zones *)

Section AddStimulation.

Import Generator.

Lemma bind_lift_ok {St A B} (r : result A) (a : A) (k : A -> M St B) (s : St) :
  r = Ok a -> bind (lift r) k s = k a s.
Proof. intros ->. reflexivity. Qed.

Lemma bind_lift_if {St A B} (b : bool) (r : result A) (a a' : A)
    (k : A -> M St B) (s : St) :
  (if b then r else Ok a) = Ok a' ->
  bind (if b then lift r else ret a) k s = k a' s.
Proof. destruct b; [intros ->|intros [= ->]]; reflexivity. Qed.

Lemma bind_if_same {St A B} (b : bool) (a : A) (k : A -> M St B) (s : St) :
  bind (if b then ret a else ret a) k s = k a s.
Proof. destruct b; reflexivity. Qed.

Lemma add_stimulation_summary T Rr Rt D B W l tv td mode s
    rise back d1 E dtxt ttxt btxt wtxt tdtxt rrtxt rttxt :
  rbind (py_sub T B) (fun d => py_truediv d Rr) = Ok rise ->
  rbind (py_sub T B) (fun d => py_truediv d Rt) = Ok back ->
  (if String.eqb mode "fixed_plateau" then py_add D rise else Ok D) = Ok d1 ->
  (if String.eqb mode "fixed_total" then py_sub d1 back else Ok d1) = Ok E ->
  fmt3 E = Ok dtxt -> fmt3 T = Ok ttxt -> fmt3 B = Ok btxt ->
  fmt3 W = Ok wtxt -> fmt3 td = Ok tdtxt ->
  fmt3 Rr = Ok rrtxt -> fmt3 Rt = Ok rttxt ->
  add_stimulation T Rr Rt D B W (OList l) tv td mode s =
  (Ok tt,
   upd_protocol (protocol s ++
     ["[step" +:+ str_Z (n_steps s + 1) +:+ "]"; "stepType=0";
      "stepTypeText=STIMULATE"; "";
      "[step" +:+ str_Z (n_steps s + 1) +:+ "_stimulation]";
      "baseline=" +:+ btxt; "triggerVal=" +:+ str_Z tv;
      "triggerDur=" +:+ tdtxt; ""] ++
     flat_map (fun z =>
       ["[step" +:+ str_Z (n_steps s + 1) +:+ "_zone" +:+ str_Z z +:+ "]";
        if existsb (py_eq_int z) l then "enabled=1" else "enabled=0";
        "duration=" +:+ dtxt; "wait=" +:+ wtxt; "temperature=" +:+ ttxt;
        "speed=" +:+ rrtxt; "return=" +:+ rttxt; "pointToPointEnabled=0";
        "nbrPts=1"; "sec1=1.000"; "deg1=30.000"; ""]) [1; 2; 3; 4; 5])
     (upd_n_steps (n_steps s + 1) s)).
Proof.
  intros Hrise Hback Hd1 HE Hd Ht Hb Hw Htd Hrr Hrt.
  unfold add_stimulation.
  rewrite (bind_lift_ok _ _ _ _ Hrise), (bind_lift_ok _ _ _ _ Hback).
  rewrite (bind_lift_if _ _ _ _ _ _ Hd1), (bind_lift_if _ _ _ _ _ _ HE).
  rewrite bind_if_same.
  rewrite (bind_lift_ok _ _ _ _ Hd), (bind_lift_ok _ _ _ _ Ht),
    (bind_lift_ok _ _ _ _ Hb), (bind_lift_ok _ _ _ _ Hw),
    (bind_lift_ok _ _ _ _ Htd), (bind_lift_ok _ _ _ _ Hrr),
    (bind_lift_ok _ _ _ _ Hrt).
  unfold next_step, bind, append, modify, get, ret.
  cbn -[String.append str_Z stimulation_zones].
  rewrite stimulation_zones_list.
  cbn -[String.append str_Z flat_map].
  rewrite <- !app_assoc. reflexivity.
Qed.

End AddStimulation.

(** ** The duration written by [add_stimulation] *)

Section Durations.

Import Generator.

Lemma filter_flat_map {A B} (P : B -> bool) (f : A -> list B) (l : list A) :
  List.filter P (flat_map f l) = flat_map (fun x => List.filter P (f x)) l.
Proof.
  induction l as [|x l IH]; [reflexivity|].
  cbn [flat_map]. rewrite List.filter_app, IH. reflexivity.
Qed.

Lemma flat_map_const {A B} (f : A -> list B) (v : list B) (l : list A) :
  (forall x, f x = v) -> flat_map f l = flat_map (fun _ => v) l.
Proof. intros H. induction l as [|x l IH]; cbn; [|rewrite H, IH]; reflexivity. Qed.

Lemma is_ok_inv {A} (r : result A) : is_ok r = true -> exists a, r = Ok a.
Proof. destruct r; [eauto|discriminate]. Qed.

Lemma py_truediv_float (x y r : PyNum) :
  py_truediv x y = Ok r -> exists f, r = PFloat f.
Proof.
  unfold py_truediv, rbind.
  destruct x as [a|fx], y as [b|fy]; cbn [to_float];
    repeat match goal with
    | |- context [match ?e with _ => _ end] => destruct e
    end; intros [= <-] || discriminate; eauto.
Qed.

Lemma py_sub_float (x r : PyNum) (f : spec_float) :
  py_sub x (PFloat f) = Ok r -> exists e, r = PFloat e.
Proof.
  unfold py_sub, rbind. destruct x as [a|fx]; cbn [to_float];
    repeat match goal with
    | |- context [match ?e with _ => _ end] => destruct e
    end; intros [= <-] || discriminate; eauto.
Qed.

(** A successful call appends one step block whose five zone sections all
    carry the resolved duration. *)
Lemma add_stimulation_lines T Rr Rt D B W l tv td mode s rise back d1 E dtxt :
  rbind (py_sub T B) (fun d => py_truediv d Rr) = Ok rise ->
  rbind (py_sub T B) (fun d => py_truediv d Rt) = Ok back ->
  (if String.eqb mode "fixed_plateau" then py_add D rise else Ok D) = Ok d1 ->
  (if String.eqb mode "fixed_total" then py_sub d1 back else Ok d1) = Ok E ->
  fmt3 E = Ok dtxt ->
  is_ok (fmt3 T) = true -> is_ok (fmt3 B) = true -> is_ok (fmt3 W) = true ->
  is_ok (fmt3 td) = true -> is_ok (fmt3 Rr) = true -> is_ok (fmt3 Rt) = true ->
  exists new,
    add_stimulation T Rr Rt D B W (OList l) tv td mode s =
      (Ok tt, upd_protocol (protocol s ++ new) (upd_n_steps (n_steps s + 1) s)) /\
    List.filter (String.prefix "duration=") new =
      replicate 5 ("duration=" +:+ dtxt) /\
    step_blocks new = 1%nat.
Proof.
  intros Hrise Hback Hd1 HE Hd Ht Hb Hw Htd Hrr Hrt.
  apply is_ok_inv in Ht, Hb, Hw, Htd, Hrr, Hrt.
  destruct Ht as [ttxt Ht], Hb as [btxt Hb], Hw as [wtxt Hw],
    Htd as [tdtxt Htd], Hrr as [rrtxt Hrr], Hrt as [rttxt Hrt].
  refine (ex_intro _ _ _). split.
  - exact (add_stimulation_summary T Rr Rt D B W l tv td mode s rise back d1 E
             dtxt ttxt btxt wtxt tdtxt rrtxt rttxt
             Hrise Hback Hd1 HE Hd Ht Hb Hw Htd Hrr Hrt).
  - unfold step_blocks. rewrite !List.filter_app, !filter_flat_map. split.
    + rewrite (flat_map_const _ ["duration=" +:+ dtxt]); [reflexivity|].
      intros z. destruct (existsb (py_eq_int z) l), dtxt; reflexivity.
    + rewrite (flat_map_const _ []); [reflexivity|].
      intros z. destruct (existsb (py_eq_int z) l); reflexivity.
Qed.

End Durations.

(** ** The duration modes *)

Section DurationModes.

Import Generator.

(** C1, as the code has it. Under ['fixed_total'] both resolvers emit the
    difference between the raw duration and the return time whatever its
    sign, and no error is reported. [set_stim] (return time
    [back = int((T - B) / Rt * 1000)] ms) stores [D - back], transmits it in
    the duration command [D0] and returns normally; [add_stimulation]
    (return time [back = (T - B) / Rt] s, all numbers convertible to float)
    returns normally and writes [D - back] with three decimals as the
    duration of each of the five zone sections of the new step. *)
Theorem fixed_total_emits_difference
    (target rr rt dur_ms tc tdur : Z) (surf : pyobj) (s : tcsii)
    (rise_ms back_ms : Z)
    (T Rr Rt D B W : PyNum) (l : list pyobj) (tv : Z) (td : PyNum)
    (g : generator) (rise back E : PyNum) :
  ramp_dur_ms target (baseline s) rr = Ok rise_ms ->
  ramp_dur_ms target (baseline s) rt = Ok back_ms ->
  rbind (py_sub T B) (fun d => py_truediv d Rr) = Ok rise ->
  rbind (py_sub T B) (fun d => py_truediv d Rt) = Ok back ->
  py_sub D back = Ok E ->
  is_ok (fmt3 T) = true -> is_ok (fmt3 B) = true -> is_ok (fmt3 W) = true ->
  is_ok (fmt3 td) = true -> is_ok (fmt3 Rr) = true -> is_ok (fmt3 Rt) = true ->
  (exists s' mask,
     set_stim target rr rt (Some dur_ms) "fixed_total" tc tdur surf s = (Ok tt, s') /\
     port s' =
       port s ++ ["C0" +:+ format_temp target 3; "V0" +:+ format_temp rr 4;
                  "R0" +:+ format_temp rt 4;
                  "D0" +:+ format_ms (Some (dur_ms - back_ms)) 5;
                  "S" +:+ mask] /\
     stim_duration_ms s' = Some (Some (dur_ms - back_ms))) /\
  (exists g' new dtxt,
     add_stimulation T Rr Rt D B W (OList l) tv td "fixed_total" g = (Ok tt, g') /\
     fmt3 E = Ok dtxt /\
     protocol g' = protocol g ++ new /\
     List.filter (String.prefix "duration=") new =
       replicate 5 ("duration=" +:+ dtxt)).
Proof.
  intros Hr Hb Hrise Hback HE Ht HB Hw Htd Hrr Hrt. split.
  - destruct (set_stim_summary target rr rt (Some dur_ms) "fixed_total" tc tdur
                surf s rise_ms back_ms Hr Hb ltac:(discriminate))
      as (s' & mask & _ & Hrun & Hport & Hstored & _).
    cbn [String.eqb Ascii.eqb Bool.eqb fmap option_fmap option_map] in Hrun, Hport, Hstored.
    exists s', mask. auto.
  - assert (Hfl : exists e, E = PFloat e).
    { unfold rbind in Hback. destruct (py_sub T B) as [d|]; [|discriminate].
      destruct (py_truediv_float _ _ _ Hback) as [f ->].
      exact (py_sub_float _ _ _ HE). }
    destruct Hfl as [e ->].
    destruct (add_stimulation_lines T Rr Rt D B W l tv td "fixed_total" g
                rise back D (PFloat e) (float_fmt3 e) Hrise Hback eq_refl HE
                eq_refl Ht HB Hw Htd Hrr Hrt) as (new & Hrun & Hdur & _).
    refine (ex_intro _ _ (ex_intro _ new (ex_intro _ _ _))).
    split; [exact Hrun|]. split; [reflexivity|]. split; [reflexivity|exact Hdur].
Qed.

Lemma fixed_total_emits_difference_witness :
  (exists s' mask,
     set_stim 40 10 10 (Some 3000) "fixed_total" 255 10 (OInt 0) fresh_session =
       (Ok tt, s') /\
     port s' =
       port fresh_session ++
         ["C0" +:+ format_temp 40 3; "V0" +:+ format_temp 10 4;
          "R0" +:+ format_temp 10 4;
          "D0" +:+ format_ms (Some (3000 - 1000)) 5; "S" +:+ mask] /\
     stim_duration_ms s' = Some (Some (3000 - 1000))) /\
  (exists g' new dtxt,
     add_stimulation (dec 40 1) (dec 10 1) (dec 10 1) (dec 3 1) (dec 30 1)
       (dec 0 1) (OList [OInt 1]) 255 (dec 1 10) "fixed_total"
       (init "exp" 1 ∅) = (Ok tt, g') /\
     fmt3 (dec 2 1) = Ok dtxt /\
     protocol g' = protocol (init "exp" 1 ∅) ++ new /\
     List.filter (String.prefix "duration=") new =
       replicate 5 ("duration=" +:+ dtxt)).
Proof.
  apply (fixed_total_emits_difference 40 10 10 3000 255 10 (OInt 0) fresh_session
           1000 1000 (dec 40 1) (dec 10 1) (dec 10 1) (dec 3 1) (dec 30 1)
           (dec 0 1) [OInt 1] 255 (dec 1 10) (init "exp" 1 ∅)
           (dec 1 1) (dec 1 1) (dec 2 1)); vm_compute; reflexivity.
Defined.

(** C1 fails where the return time is not shorter than the raw duration
    (target 40, baseline 30, return rate 1: ten seconds of return against a
    duration of five): [set_stim] returns normally having transmitted
    [D0-5000], and [add_stimulation] returns normally having written
    [duration=-5.000] in the five zone sections. *)
Lemma fixed_total_negative_counterexample :
  (let '(r, s) := set_stim 40 10 1 (Some 5000) "fixed_total" 255 10 (OInt 0)
                    fresh_session in
   (r, drop 4 (port s))) =
  (Ok tt, ["C0400"; "V00100"; "R00010"; "D0-5000"; "S11111"]) /\
  (let '(r, g) := add_stimulation (dec 40 1) (dec 10 1) (dec 1 1) (dec 5 1)
                    (dec 30 1) (dec 0 1) (OList [OInt 1]) 255 (dec 1 10)
                    "fixed_total" (init "exp" 1 ∅) in
   (r, List.filter (String.prefix "duration=") (protocol g), n_steps g)) =
  (Ok tt, replicate 5 "duration=-5.000", 1).
Proof. split; vm_compute; reflexivity. Qed.

(** C4, as the code has it. A mode string that is none of ['fixed_stim'],
    ['fixed_plateau'], ['fixed_total'] is not rejected. [set_stim] transmits
    the target, rise-rate and return-rate commands and then reads the stored
    duration, which no branch has assigned: it sends the duration left by an
    earlier call and returns normally, or raises [AttributeError] when there
    is none. [add_stimulation] returns normally and appends one step block
    whose zone sections carry the raw duration. *)
Theorem unknown_mode_is_not_rejected
    (mode : string)
    (target rr rt : Z) (dur_ms : option Z) (tc tdur : Z) (surf : pyobj)
    (s : tcsii) (rise_ms back_ms : Z)
    (T Rr Rt D B W : PyNum) (l : list pyobj) (tv : Z) (td : PyNum)
    (g : generator) :
  mode <> "fixed_stim" -> mode <> "fixed_plateau" -> mode <> "fixed_total" ->
  ramp_dur_ms target (baseline s) rr = Ok rise_ms ->
  ramp_dur_ms target (baseline s) rt = Ok back_ms ->
  is_ok (rbind (py_sub T B) (fun d => py_truediv d Rr)) = true ->
  is_ok (rbind (py_sub T B) (fun d => py_truediv d Rt)) = true ->
  is_ok (fmt3 D) = true ->
  is_ok (fmt3 T) = true -> is_ok (fmt3 B) = true -> is_ok (fmt3 W) = true ->
  is_ok (fmt3 td) = true -> is_ok (fmt3 Rr) = true -> is_ok (fmt3 Rt) = true ->
  (exists s' mask,
     set_stim target rr rt dur_ms mode tc tdur surf s =
       (match stim_duration_ms s with
        | Some _ => Ok tt
        | None => Raise AttributeError
        end, s') /\
     port s' =
       port s ++ ["C0" +:+ format_temp target 3; "V0" +:+ format_temp rr 4;
                  "R0" +:+ format_temp rt 4] ++
       match stim_duration_ms s with
       | Some v => ["D0" +:+ format_ms v 5; "S" +:+ mask]
       | None => []
       end /\
     stim_duration_ms s' = stim_duration_ms s) /\
  (exists g' new dtxt,
     add_stimulation T Rr Rt D B W (OList l) tv td mode g = (Ok tt, g') /\
     fmt3 D = Ok dtxt /\
     protocol g' = protocol g ++ new /\
     n_steps g' = n_steps g + 1 /\
     step_blocks new = 1%nat /\
     List.filter (String.prefix "duration=") new =
       replicate 5 ("duration=" +:+ dtxt)).
Proof.
  intros Hs Hp Ht Hr Hb Hrise Hback HD HT HB HW Htd Hrr Hrt.
  apply String.eqb_neq in Hs, Hp, Ht. split.
  - destruct (set_stim_summary target rr rt dur_ms mode tc tdur surf s
                rise_ms back_ms Hr Hb) as (s' & mask & _ & Hrun & Hport & Hstored & _).
    { apply String.eqb_neq in Hp, Ht. intros [?|?]; congruence. }
    rewrite Ht, Hs in Hrun, Hport, Hstored. exists s', mask. auto.
  - apply is_ok_inv in Hrise, Hback, HD.
    destruct Hrise as [rise Hrise], Hback as [back Hback], HD as [dtxt HD].
    destruct (add_stimulation_lines T Rr Rt D B W l tv td mode g
                rise back D D dtxt Hrise Hback) as (new & Hrun & Hdur & Hblk);
      try assumption; try (rewrite ?Hp, ?Ht; reflexivity).
    refine (ex_intro _ _ (ex_intro _ new (ex_intro _ dtxt _))).
    split; [exact Hrun|]. repeat split; assumption.
Qed.

Lemma unknown_mode_is_not_rejected_witness :
  (exists s' mask,
     set_stim 40 10 10 (Some 1000) "fixed" 255 10 (OInt 0) fresh_session =
       (match stim_duration_ms fresh_session with
        | Some _ => Ok tt
        | None => Raise AttributeError
        end, s') /\
     port s' =
       port fresh_session ++
         ["C0" +:+ format_temp 40 3; "V0" +:+ format_temp 10 4;
          "R0" +:+ format_temp 10 4] ++
       match stim_duration_ms fresh_session with
       | Some v => ["D0" +:+ format_ms v 5; "S" +:+ mask]
       | None => []
       end /\
     stim_duration_ms s' = stim_duration_ms fresh_session) /\
  (exists g' new dtxt,
     add_stimulation (dec 40 1) (dec 10 1) (dec 10 1) (dec 2 1) (dec 30 1)
       (dec 0 1) (OList [OInt 1]) 255 (dec 1 10) "fixed" (init "exp" 1 ∅) =
       (Ok tt, g') /\
     fmt3 (dec 2 1) = Ok dtxt /\
     protocol g' = protocol (init "exp" 1 ∅) ++ new /\
     n_steps g' = n_steps (init "exp" 1 ∅) + 1 /\
     step_blocks new = 1%nat /\
     List.filter (String.prefix "duration=") new =
       replicate 5 ("duration=" +:+ dtxt)).
Proof.
  apply (unknown_mode_is_not_rejected "fixed" 40 10 10 (Some 1000) 255 10 (OInt 0)
           fresh_session 1000 1000 (dec 40 1) (dec 10 1) (dec 10 1) (dec 2 1)
           (dec 30 1) (dec 0 1) [OInt 1] 255 (dec 1 10) (init "exp" 1 ∅));
    first [discriminate | vm_compute; reflexivity].
Defined.

(** C4 fails on the mode ['fixed'] (a typing slip for ['fixed_stim']): on a
    fresh session [set_stim] has transmitted three parameter commands when
    it raises [AttributeError], and [add_stimulation] returns normally with
    a step appended. *)
Lemma unknown_mode_counterexample :
  (let '(r, s) := set_stim 40 10 10 (Some 1000) "fixed" 255 10 (OInt 0)
                    fresh_session in
   (r, drop 4 (port s))) =
  (Raise AttributeError, ["C0400"; "V00100"; "R00100"]) /\
  (let '(r, g) := add_stimulation (dec 40 1) (dec 10 1) (dec 10 1) (dec 2 1)
                    (dec 30 1) (dec 0 1) (OList [OInt 1]) 255 (dec 1 10)
                    "fixed" (init "exp" 1 ∅) in
   (r, List.filter (String.prefix "duration=") (protocol g), n_steps g,
    length (protocol g))) =
  (Ok tt, replicate 5 "duration=2.000", 1, 73%nat).
Proof. split; vm_compute; reflexivity. Qed.

End DurationModes.

(** ** The step counter and the step blocks of the document *)

Section StepCounter.

Import Generator.

Variable fn : string.

Lemma doc_state_consistent (k : nat) (s : generator) :
  doc_state fn k 0 s -> consistent fn s.
Proof. intros H. exists k. exact H. Qed.

Lemma doc_append_plain (k : nat) (d : Z) (line : string) E :
  String.prefix "stepType=" line = false ->
  hoare (doc_state fn k d) (append line) (fun _ => doc_state fn k d) E.
Proof.
  intros Hl s (Hf & Hn & h0 & h1 & body & Hp & Hh & Hb).
  unfold append, modify.
  split; [exact Hf|]. split; [exact Hn|]. exists h0, h1, (body ++ [line]).
  split; [|split; [exact Hh|]].
  - change (protocol s ++ [line] = h0 :: h1 :: body ++ [line]).
    rewrite Hp. reflexivity.
  - unfold step_blocks in *. rewrite List.filter_app, length_app.
    cbn [List.filter]. rewrite Hl. cbn [length]. lia.
Qed.

Lemma doc_append_type (k : nat) (line : string) E :
  String.prefix "stepType=" line = true ->
  hoare (doc_state fn k 1) (append line) (fun _ => doc_state fn (S k) 0) E.
Proof.
  intros Hl s (Hf & Hn & h0 & h1 & body & Hp & Hh & Hb).
  unfold append, modify.
  split; [exact Hf|]. split; [|exists h0, h1, (body ++ [line]);
                               split; [|split; [exact Hh|]]].
  - change (n_steps s = Z.of_nat (S k) + 0). rewrite Hn. lia.
  - change (protocol s ++ [line] = h0 :: h1 :: body ++ [line]).
    rewrite Hp. reflexivity.
  - unfold step_blocks in *. rewrite List.filter_app, length_app.
    cbn [List.filter]. rewrite Hl. cbn [length]. lia.
Qed.

Lemma doc_next_step (k : nat) E :
  hoare (doc_state fn k 0) next_step (fun _ => doc_state fn k 1) E.
Proof.
  intros s (Hf & Hn & Hp). unfold next_step, bind, modify, get, ret.
  split; [exact Hf|]. split; [|exact Hp].
  change (n_steps s + 1 = Z.of_nat k + 1). rewrite Hn. lia.
Qed.

Lemma doc_lift {A} (k : nat) (r : result A) :
  hoare (doc_state fn k 0) (lift r) (fun _ => doc_state fn k 0) (consistent fn).
Proof. apply hoare_lift; [auto|apply doc_state_consistent]. Qed.

Lemma doc_ret {A} (k : nat) (d : Z) (a : A) E :
  hoare (doc_state fn k d) (ret a) (fun _ => doc_state fn k d) E.
Proof. apply hoare_ret. auto. Qed.

(** One statement of a method body, by the rule that fits it. *)
Ltac doc_rule :=
  first
    [ apply doc_append_type; reflexivity
    | apply doc_append_plain; reflexivity
    | apply doc_next_step
    | apply doc_lift
    | apply doc_ret
    | apply hoare_if; doc_rule ].

Ltac doc_steps :=
  repeat (eapply hoare_bind; [doc_rule|intros ?; cbv beta]);
  try doc_rule.

Lemma stimulation_zones_doc (k : nat) (range : list Z) (c : Z) (zones : pyobj)
    (d w t rr rt : string) :
  hoare (doc_state fn k 0) (stimulation_zones range c zones d w t rr rt)
    (fun _ => doc_state fn k 0) (consistent fn).
Proof.
  induction range as [|z range IH]; cbn [stimulation_zones]; [apply doc_ret|].
  doc_steps. exact IH.
Qed.

Lemma constant_zones_doc (k : nat) (range : list Z) (zones : pyobj)
    (t sp d : string) :
  hoare (doc_state fn k 0) (constant_zones range zones t sp d)
    (fun _ => doc_state fn k 0) (consistent fn).
Proof.
  induction range as [|z range IH]; cbn [constant_zones]; [apply doc_ret|].
  doc_steps. exact IH.
Qed.

(** Each of the four step methods, when it returns, has added one step
    block and one to the counter; when it raises, counter and blocks still
    agree. *)
Lemma add_stimulation_doc (k : nat) T Rr Rt D B W zones tv td mode :
  hoare (doc_state fn k 0) (add_stimulation T Rr Rt D B W zones tv td mode)
    (fun _ => doc_state fn (S k) 0) (consistent fn).
Proof.
  unfold add_stimulation. doc_steps.
Qed.

Lemma add_wait_trigger_in_doc (k : nat) :
  hoare (doc_state fn k 0) add_wait_trigger_in
    (fun _ => doc_state fn (S k) 0) (consistent fn).
Proof. unfold add_wait_trigger_in. doc_steps. Qed.

Lemma set_baseline_doc (k : nat) b a :
  hoare (doc_state fn k 0) (set_baseline b a)
    (fun _ => doc_state fn (S k) 0) (consistent fn).
Proof. unfold set_baseline. doc_steps. Qed.

Lemma set_constant_temp_doc (k : nat) t d sp zones :
  hoare (doc_state fn k 0) (set_constant_temp t d sp zones)
    (fun _ => doc_state fn (S k) 0) (consistent fn).
Proof.
  unfold set_constant_temp. doc_steps.
  eapply hoare_bind; [apply constant_zones_doc|intros ?; cbv beta]. doc_steps.
Qed.

Lemma consistent_step {A} (m : M generator A) :
  (forall k, hoare (doc_state fn k 0) m (fun _ => doc_state fn (S k) 0)
               (consistent fn)) ->
  hoare (consistent fn) m (fun _ => consistent fn) (consistent fn).
Proof.
  intros H s [k Hk]. specialize (H k s Hk).
  destruct (m s) as [[a|e] s']; [exists (S k)|]; exact H.
Qed.

Lemma trials_consistent l B W td mode :
  hoare (consistent fn) (trials l B W td mode) (fun _ => consistent fn)
    (consistent fn).
Proof.
  induction l as [|[[[[[t d] r] b] v] z] l IH]; cbn [trials].
  - apply hoare_ret. auto.
  - eapply hoare_bind;
      [apply consistent_step; intros k; apply add_wait_trigger_in_doc|intros ?; cbv beta].
    eapply hoare_bind;
      [apply consistent_step; intros k; apply add_stimulation_doc|intros ?; cbv beta].
    exact IH.
Qed.

Lemma generate_from_lists_consistent tl d zones rr rt B W tv td mode n :
  hoare (consistent fn) (generate_from_lists tl d zones rr rt B W tv td mode n)
    (fun _ => consistent fn) (consistent fn).
Proof.
  unfold generate_from_lists.
  eapply hoare_bind with (R := fun _ => consistent fn).
  - destruct tl as [t|l]; [|apply hoare_ret; auto].
    destruct n as [n|]; [|apply hoare_raise; auto].
    destruct (n =? 0); [apply hoare_raise|apply hoare_ret]; auto.
  - intros temps.
    eapply hoare_bind with (R := fun _ => consistent fn);
      [apply hoare_lift; auto|intros zs]. apply trials_consistent.
Qed.

Lemma export_protocol_run (opened : result unit) (s : generator)
    (h0 h1 : string) (body : list string) :
  protocol s = h0 :: h1 :: body ->
  export_protocol opened s =
    match opened with
    | Ok _ =>
        (Ok tt,
         upd_disk (<[filename s +:+ ".protocol.ini" :=
                     serialize (h0 :: ("stepsNumber=" +:+ str_Z (n_steps s)) :: body)]>
                     (disk s))
           (upd_protocol (h0 :: ("stepsNumber=" +:+ str_Z (n_steps s)) :: body) s))
    | Raise e =>
        (Raise e,
         upd_protocol (h0 :: ("stepsNumber=" +:+ str_Z (n_steps s)) :: body) s)
    end.
Proof.
  intros Hp. unfold export_protocol, bind, get, modify, raise, lift.
  rewrite Hp. destruct opened; reflexivity.
Qed.

Lemma step_blocks_header (h0 h1 : string) (n : Z) :
  step_blocks [h0; h1] = 0%nat ->
  step_blocks [h0; "stepsNumber=" +:+ str_Z n] = 0%nat.
Proof.
  unfold step_blocks. cbn [List.filter].
  destruct (String.prefix "stepType=" h0); [|reflexivity].
  destruct (String.prefix "stepType=" h1); discriminate.
Qed.

Lemma step_blocks_cons2 (h0 h1 : string) (body : list string) :
  step_blocks (h0 :: h1 :: body) = (step_blocks [h0; h1] + step_blocks body)%nat.
Proof.
  unfold step_blocks. change (h0 :: h1 :: body) with ([h0; h1] ++ body).
  rewrite List.filter_app, length_app. reflexivity.
Qed.

Lemma export_protocol_consistent (opened : result unit) :
  hoare (consistent fn) (export_protocol opened) (fun _ => consistent fn)
    (consistent fn).
Proof.
  intros s (k & Hf & Hn & h0 & h1 & body & Hp & Hh & Hb).
  rewrite (export_protocol_run opened s h0 h1 body Hp).
  destruct opened;
    (exists k; split; [exact Hf|]; split; [exact Hn|];
     exists h0, ("stepsNumber=" +:+ str_Z (n_steps s)), body;
     split; [reflexivity|]; split; [exact (step_blocks_header h0 h1 _ Hh)|exact Hb]).
Qed.

Lemma perform_consistent (c : call) :
  hoare (consistent fn) (perform c) (fun _ => consistent fn) (consistent fn).
Proof.
  destruct c; cbn [perform].
  - apply consistent_step. intros k. apply add_stimulation_doc.
  - apply consistent_step. intros k. apply add_wait_trigger_in_doc.
  - apply consistent_step. intros k. apply set_baseline_doc.
  - apply consistent_step. intros k. apply set_constant_temp_doc.
  - apply generate_from_lists_consistent.
  - apply export_protocol_consistent.
Qed.

Lemma session_consistent (calls : list call) (s : generator) :
  consistent fn s -> consistent fn (session calls s).
Proof.
  revert s. induction calls as [|c calls IH]; intros s Hs; [exact Hs|].
  cbn [session]. apply IH. pose proof (perform_consistent c s Hs) as H.
  destruct (perform c s) as [[a|e] s']; exact H.
Qed.

Lemma init_consistent (rt : Z) (files : gmap string string) :
  consistent fn (init fn rt files).
Proof.
  exists 0%nat. split; [reflexivity|]. split; [reflexivity|].
  exists "[protocol]", "stepsNumber=0", ["recordTemperatures=" +:+ str_Z rt; ""].
  repeat split.
Qed.

End StepCounter.

(** ** What every call keeps *)

Section Preserved.

Import Generator.

(** A property of the builder that appending a line, setting the counter,
    assigning the second line and writing a file all keep. *)
Variable P : generator -> Prop.
Hypothesis P_append :
  forall s line, P s -> P (upd_protocol (protocol s ++ [line]) s).
Hypothesis P_n_steps : forall s n, P s -> P (upd_n_steps n s).
Hypothesis P_header :
  forall s v, P s -> P (upd_protocol (<[1%nat := v]> (protocol s)) s).
Hypothesis P_disk : forall s d, P s -> P (upd_disk d s).

Lemma kept_append (line : string) : hoare P (append line) (fun _ => P) P.
Proof. intros s Hs. apply P_append, Hs. Qed.

Lemma kept_next_step : hoare P next_step (fun _ => P) P.
Proof. intros s Hs. apply P_n_steps, Hs. Qed.

Lemma kept_lift {A} (r : result A) : hoare P (lift r) (fun _ => P) P.
Proof. apply hoare_lift; auto. Qed.

Lemma kept_ret {A} (a : A) : hoare P (ret a) (fun _ => P) P.
Proof. apply hoare_ret; auto. Qed.

Lemma kept_raise {A} (e : exc) : hoare P (@raise generator A e) (fun _ => P) P.
Proof. apply hoare_raise; auto. Qed.

Ltac kept_rule :=
  lazymatch goal with
  | |- hoare _ (append _) _ _ => apply kept_append
  | |- hoare _ next_step _ _ => apply kept_next_step
  | |- hoare _ (lift _) _ _ => apply kept_lift
  | |- hoare _ (ret _) _ _ => apply kept_ret
  | |- hoare _ (raise _) _ _ => apply kept_raise
  | |- hoare _ (if _ then _ else _) _ _ => apply hoare_if; kept_rule
  end.

Ltac kept_steps :=
  repeat lazymatch goal with
         | |- hoare _ (bind _ _) _ _ =>
             eapply hoare_bind with (R := fun _ => P);
             [kept_rule|intros ?; cbv beta]
         end;
  try kept_rule.

Lemma kept_constant_zones (range : list Z) (zones : pyobj) (t sp d : string) :
  hoare P (constant_zones range zones t sp d) (fun _ => P) P.
Proof.
  induction range as [|z range IH]; cbn [constant_zones]; [apply kept_ret|].
  kept_steps. exact IH.
Qed.

Lemma kept_stimulation_zones (range : list Z) (c : Z) (zones : pyobj)
    (d w t rr rt : string) :
  hoare P (stimulation_zones range c zones d w t rr rt) (fun _ => P) P.
Proof.
  induction range as [|z range IH]; cbn [stimulation_zones]; [apply kept_ret|].
  kept_steps. exact IH.
Qed.

Lemma kept_add_stimulation T Rr Rt D B W zones tv td mode :
  hoare P (add_stimulation T Rr Rt D B W zones tv td mode) (fun _ => P) P.
Proof. unfold add_stimulation. kept_steps. apply kept_stimulation_zones. Qed.

Lemma kept_add_wait_trigger_in : hoare P add_wait_trigger_in (fun _ => P) P.
Proof. unfold add_wait_trigger_in. kept_steps. Qed.

Lemma kept_trials l B W td mode :
  hoare P (trials l B W td mode) (fun _ => P) P.
Proof.
  induction l as [|[[[[[t d] r] b] v] z] l IH]; cbn [trials]; [apply kept_ret|].
  eapply hoare_bind; [apply kept_add_wait_trigger_in|intros ?; cbv beta].
  eapply hoare_bind; [apply kept_add_stimulation|intros ?; cbv beta].
  exact IH.
Qed.

Lemma kept_perform (c : call) : hoare P (perform c) (fun _ => P) P.
Proof.
  destruct c; cbn [perform].
  - apply kept_add_stimulation.
  - apply kept_add_wait_trigger_in.
  - unfold set_baseline. kept_steps.
  - unfold set_constant_temp. kept_steps.
    eapply hoare_bind; [apply kept_constant_zones|intros ?; cbv beta]. kept_steps.
  - unfold generate_from_lists.
    eapply hoare_bind with (R := fun _ => P).
    + destruct temp_list as [t|l]; [|apply kept_ret].
      destruct n_trials as [n|]; [|apply kept_raise].
      destruct (n =? 0); [apply kept_raise|apply kept_ret].
    + intros temps. eapply hoare_bind; [apply kept_lift|intros zs; cbv beta].
      apply kept_trials.
  - intros s Hs. unfold export_protocol, bind, get, modify, raise, lift.
    destruct (1 <? length (protocol s))%nat; [|exact Hs].
    destruct opened; [apply P_disk|]; apply P_header, Hs.
Qed.

Lemma kept_session (calls : list call) (s : generator) :
  P s -> P (session calls s).
Proof.
  revert s. induction calls as [|c calls IH]; intros s Hs; [exact Hs|].
  cbn [session]. apply IH. pose proof (kept_perform c s Hs) as H.
  destruct (perform c s) as [[a|e] s']; exact H.
Qed.

End Preserved.

(** ** Export *)

Section ExportProtocol.

Import Generator.

(** The first line of the document is never touched. *)
Lemma session_first_line (fn : string) (rt : Z) (files : gmap string string)
    (calls : list call) :
  exists rest, protocol (session calls (init fn rt files)) = "[protocol]" :: rest.
Proof.
  apply (kept_session (fun s => exists rest, protocol s = "[protocol]" :: rest)).
  - intros s line [rest H]. exists (rest ++ [line]). cbn. rewrite H. reflexivity.
  - intros s n H. exact H.
  - intros s v [rest H]. exists (<[0%nat := v]> rest). cbn. rewrite H. reflexivity.
  - intros s d H. exact H.
  - eexists. reflexivity.
Qed.

(** C6. Whatever calls were made on a builder, in whatever order and
    whether they returned or raised, the document begins with [[protocol]]
    and a second line, and [export_protocol] assigns
    [stepsNumber=] followed by the number of step blocks of the document to
    that second line. When the file can be opened the call returns and the
    file holds exactly the lines of the document, each followed by a line
    feed: [[protocol]], the [stepsNumber=] line with the number of step
    blocks, then the other lines; a second export right after the first
    leaves the builder and the file exactly as the first did. When the file
    cannot be opened the call raises what [open] raised and no file is
    written. *)
Theorem export_protocol_idempotent_step_count
    (fn : string) (rt : Z) (files : gmap string string) (calls : list call) :
  let s := session calls (init fn rt files) in
  exists old body,
    protocol s = "[protocol]" :: old :: body /\
    let header := "stepsNumber=" +:+ str_Z (Z.of_nat (step_blocks (protocol s))) in
    let lines := "[protocol]" :: header :: body in
    let text :=
      "[protocol]" +:+ newline +:+ header +:+ newline +:+
      fold_right (fun line rest => line +:+ newline +:+ rest) "" body in
    step_blocks lines = step_blocks (protocol s) /\
    (exists s1,
       export_protocol (Ok tt) s = (Ok tt, s1) /\
       protocol s1 = lines /\
       disk s1 = <[fn +:+ ".protocol.ini" := text]> (disk s) /\
       export_protocol (Ok tt) s1 = (Ok tt, s1)) /\
    (forall e, exists s1,
       export_protocol (Raise e) s = (Raise e, s1) /\
       protocol s1 = lines /\ disk s1 = disk s).
Proof.
  intros s.
  destruct (session_consistent fn calls (init fn rt files) (init_consistent fn rt files))
    as (k & Hf & Hn & h0 & h1 & body & Hp & Hh & Hb).
  destruct (session_first_line fn rt files calls) as [rest Hfirst].
  fold s in Hf, Hn, Hp, Hfirst.
  assert (h0 = "[protocol]") as -> by congruence. clear rest Hfirst.
  assert (Hk : step_blocks (protocol s) = k).
  { rewrite Hp, step_blocks_cons2, Hh, Hb. reflexivity. }
  assert (Hnk : n_steps s = Z.of_nat (step_blocks (protocol s))) by (rewrite Hk; lia).
  pose proof (step_blocks_header "[protocol]" h1 (n_steps s) Hh) as Hh'.
  exists h1, body. split; [exact Hp|]. cbv zeta. rewrite <- Hnk.
  split; [rewrite Hk, step_blocks_cons2, Hh', Hb; reflexivity|].
  split.
  - set (lines := "[protocol]" :: ("stepsNumber=" +:+ str_Z (n_steps s)) :: body).
    set (s1 := upd_disk (<[filename s +:+ ".protocol.ini" := serialize lines]> (disk s))
                 (upd_protocol lines s)).
    exists s1.
    split; [exact (export_protocol_run (Ok tt) s _ h1 body Hp)|].
    split; [reflexivity|]. split; [cbn [disk upd_disk s1]; rewrite Hf; reflexivity|].
    rewrite (export_protocol_run (Ok tt) s1 "[protocol]"
               ("stepsNumber=" +:+ str_Z (n_steps s)) body eq_refl).
    unfold s1, upd_disk, upd_protocol. cbn -[String.append str_Z serialize].
    rewrite insert_insert_eq. reflexivity.
  - intros e. refine (ex_intro _ _ _).
    split; [exact (export_protocol_run (Raise e) s _ h1 body Hp)|].
    split; reflexivity.
Qed.

End ExportProtocol.

(** ** Constant temperature steps and generated trials *)

Section ConstantTemp.

Import Generator.

(** C7, what the code writes. With the three numbers formatted as [ttxt],
    [sptxt] and [dtxt] and a list of zones, [set_constant_temp] returns
    normally and appends the step header, four lines for each zone [z] of
    1..5 and an empty line. The temperature, enable and hold lines have the
    zone number in their key ([constTemp<z>], [enableConsTemp<z>],
    [ConstTempHold<z>]) and the enable flag is 1 exactly for the members of
    the list. The speed line is ['constTempSpeed=' + str(z) + speed]: its
    key is [constTempSpeed] for all five zones and the zone number is the
    first digit of its value. *)
Theorem set_constant_temp_lines (t d sp : PyNum) (l : list pyobj)
    (s : generator) (ttxt sptxt dtxt : string) :
  fmt3 t = Ok ttxt -> fmt3 sp = Ok sptxt -> fmt3 d = Ok dtxt ->
  set_constant_temp t d sp (OList l) s =
  (Ok tt,
   upd_protocol (protocol s ++
     ["[step" +:+ str_Z (n_steps s + 1) +:+ "]"; "stepType=8";
      "stepTypeText=SET_CONST_TEMP"] ++
     flat_map (fun z =>
       ["constTemp" +:+ str_Z z +:+ "=" +:+ ttxt;
        "constTempSpeed=" +:+ str_Z z +:+ sptxt;
        if existsb (py_eq_int z) l then "enableConsTemp" +:+ str_Z z +:+ "=1"
        else "enableConsTemp" +:+ str_Z z +:+ "=0";
        "ConstTempHold" +:+ str_Z z +:+ "=" +:+ dtxt]) [1; 2; 3; 4; 5] ++
     [""])
     (upd_n_steps (n_steps s + 1) s)).
Proof.
  intros Ht Hsp Hd. unfold set_constant_temp.
  rewrite (bind_lift_ok _ _ _ _ Ht), (bind_lift_ok _ _ _ _ Hsp),
    (bind_lift_ok _ _ _ _ Hd).
  set (range := seqZ 1 5). vm_compute in range. subst range.
  unfold next_step, bind, append, modify, get, ret.
  cbn -[String.append str_Z constant_zones].
  rewrite constant_zones_list.
  cbn -[String.append str_Z flat_map].
  rewrite <- !app_assoc. reflexivity.
Qed.

Lemma set_constant_temp_lines_witness :
  set_constant_temp (PInt 40) (dec 5 1) (dec 1 1) (OList [OInt 1; OInt 3])
    (init "exp" 1 ∅) =
  (Ok tt,
   upd_protocol
     ["[protocol]"; "stepsNumber=0"; "recordTemperatures=1"; "";
      "[step1]"; "stepType=8"; "stepTypeText=SET_CONST_TEMP";
      "constTemp1=40.000"; "constTempSpeed=11.000"; "enableConsTemp1=1";
      "ConstTempHold1=5.000";
      "constTemp2=40.000"; "constTempSpeed=21.000"; "enableConsTemp2=0";
      "ConstTempHold2=5.000";
      "constTemp3=40.000"; "constTempSpeed=31.000"; "enableConsTemp3=1";
      "ConstTempHold3=5.000";
      "constTemp4=40.000"; "constTempSpeed=41.000"; "enableConsTemp4=0";
      "ConstTempHold4=5.000";
      "constTemp5=40.000"; "constTempSpeed=51.000"; "enableConsTemp5=0";
      "ConstTempHold5=5.000"; ""]
     (upd_n_steps 1 (init "exp" 1 ∅))).
Proof.
  assert (Ht : fmt3 (PInt 40) = Ok "40.000") by (vm_compute; reflexivity).
  assert (Hsp : fmt3 (dec 1 1) = Ok "1.000") by (vm_compute; reflexivity).
  assert (Hd : fmt3 (dec 5 1) = Ok "5.000") by (vm_compute; reflexivity).
  rewrite (set_constant_temp_lines (PInt 40) (dec 5 1) (dec 1 1)
             [OInt 1; OInt 3] (init "exp" 1 ∅) "40.000" "1.000" "5.000" Ht Hsp Hd).
  vm_compute. reflexivity.
Defined.

(** C10, as the code has it. With the empty list as [zones],
    [generate_from_lists] raises and leaves the builder as it was: nothing
    is appended and the step counter is not changed. The exception is
    [IndexError], from [zones[0]], when [temp_list] is a list or [n_trials]
    is a number other than zero; it is [AssertionError] when [temp_list] is
    a single value and [n_trials] is missing or zero, because the assertion
    on [n_trials] comes before [zones[0]]. *)
Theorem generate_from_lists_empty_zones
    (temp_list duration_smmm rise_rate return_rate : bcast PyNum)
    (baseline wait : PyNum) (trig_out_val : bcast Z) (trigger_out_dur : PyNum)
    (duration_mode : string) (n_trials : option Z) (s : generator) :
  generate_from_lists temp_list duration_smmm (OList []) rise_rate return_rate
    baseline wait trig_out_val trigger_out_dur duration_mode n_trials s =
  (Raise (match temp_list, n_trials with
          | Many _, _ => IndexError
          | One _, Some n => if n =? 0 then AssertionError else IndexError
          | One _, None => AssertionError
          end), s).
Proof.
  unfold generate_from_lists, bind, lift, ret, raise.
  destruct temp_list as [t|l]; [|reflexivity].
  destruct n_trials as [n|]; [|reflexivity].
  destruct (n =? 0); reflexivity.
Qed.

(** C10 as stated fails for a single temperature without [n_trials]: the
    call raises [AssertionError], not [IndexError] (the builder is
    unchanged all the same). *)
Lemma generate_from_lists_assertion_counterexample :
  generate_from_lists (One (dec 40 1)) (One (dec 2 1)) (OList [])
    (One (dec 10 1)) (One (dec 10 1)) (dec 30 1) (dec 0 1) (One 255) (dec 1 10)
    "fixed_plateau" None (init "exp" 1 ∅) =
  (Raise AssertionError, init "exp" 1 ∅).
Proof. reflexivity. Qed.

End ConstantTemp.

(** ** The builder under ['fixed_plateau'] *)

Section FixedPlateau.

Import Generator.

(** In the builder the plateau mode does add the rise time: the duration
    written in the zone sections is [D + (T - B) / Rr]. *)
Lemma add_stimulation_fixed_plateau T Rr Rt D B W l tv td g rise E :
  rbind (py_sub T B) (fun d => py_truediv d Rr) = Ok rise ->
  is_ok (rbind (py_sub T B) (fun d => py_truediv d Rt)) = true ->
  py_add D rise = Ok E ->
  is_ok (fmt3 E) = true ->
  is_ok (fmt3 T) = true -> is_ok (fmt3 B) = true -> is_ok (fmt3 W) = true ->
  is_ok (fmt3 td) = true -> is_ok (fmt3 Rr) = true -> is_ok (fmt3 Rt) = true ->
  exists g' new dtxt,
    add_stimulation T Rr Rt D B W (OList l) tv td "fixed_plateau" g = (Ok tt, g') /\
    fmt3 E = Ok dtxt /\
    protocol g' = protocol g ++ new /\
    List.filter (String.prefix "duration=") new =
      replicate 5 ("duration=" +:+ dtxt).
Proof.
  intros Hrise Hback HE Hd Ht HB Hw Htd Hrr Hrt.
  apply is_ok_inv in Hback, Hd.
  destruct Hback as [back Hback], Hd as [dtxt Hd].
  destruct (add_stimulation_lines T Rr Rt D B W l tv td "fixed_plateau" g
              rise back E E dtxt Hrise Hback HE eq_refl Hd Ht HB Hw Htd Hrr Hrt)
    as (new & Hrun & Hdur & _).
  refine (ex_intro _ _ (ex_intro _ new (ex_intro _ dtxt _))).
  split; [exact Hrun|]. split; [exact Hd|]. split; [reflexivity|exact Hdur].
Qed.

End FixedPlateau.

(** * Further properties of the session controller *)

(** ** [set_stim]: arguments it cannot use *)

Lemma ramp_dur_ms_zero_rate (target baseline : Z) :
  ramp_dur_ms target baseline 0 = Raise ZeroDivisionError.
Proof. reflexivity. Qed.

(** X1. A rate of zero. The rise time is computed first, then the return time;
    with either rate zero the call raises [ZeroDivisionError] before
    anything is written to the port. The parameters were stored before the
    division: [stim_set] is true although no stimulation was set on the
    device. *)
Theorem set_stim_zero_rate target rr rt dur mode tc td surf s :
  rr = 0 \/ (rt = 0 /\ is_ok (ramp_dur_ms target (baseline s) rr) = true) ->
  exists s',
    set_stim target rr rt dur mode tc td surf s = (Raise ZeroDivisionError, s') /\
    port s' = port s /\
    stim_set s' = true /\
    stim_target_temp s' = Some target /\
    stim_duration_ms s' = stim_duration_ms s.
Proof.
  intros H. unfold set_stim. run. destruct H as [->|[-> Hok]].
  - rewrite ramp_dur_ms_zero_rate. run. eexists. repeat split.
  - destruct (ramp_dur_ms target (baseline s) rr) as [rise|]; [|discriminate].
    run. rewrite ramp_dur_ms_zero_rate. run. eexists. repeat split.
Qed.

Lemma set_stim_zero_rate_witness :
  exists s',
    set_stim 40 10 0 (Some 1000) "fixed_stim" 255 10 (OInt 0) fresh_session =
      (Raise ZeroDivisionError, s') /\
    port s' = port fresh_session /\
    stim_set s' = true /\
    stim_target_temp s' = Some 40 /\
    stim_duration_ms s' = stim_duration_ms fresh_session.
Proof.
  apply (set_stim_zero_rate 40 10 0 (Some 1000) "fixed_stim" 255 10 (OInt 0)
           fresh_session).
  right. split; [reflexivity|vm_compute; reflexivity].
Defined.

(** X2. The default [dur_ms = None] under the default mode ['fixed_stim']:
    [None] is stored as the duration and formatted like a number, so that the
    duration command sent is [D00None]; the call returns normally. *)
Theorem set_stim_missing_duration_sent target rr rt tc td surf s rise back :
  ramp_dur_ms target (baseline s) rr = Ok rise ->
  ramp_dur_ms target (baseline s) rt = Ok back ->
  exists s' mask,
    set_stim target rr rt None "fixed_stim" tc td surf s = (Ok tt, s') /\
    port s' =
      port s ++ ["C0" +:+ format_temp target 3; "V0" +:+ format_temp rr 4;
                 "R0" +:+ format_temp rt 4; "D00None"; "S" +:+ mask] /\
    stim_duration_ms s' = Some None.
Proof.
  intros Hr Hb.
  destruct (set_stim_summary target rr rt None "fixed_stim" tc td surf s
              rise back Hr Hb) as (s' & mask & _ & Hrun & Hport & Hstored & _).
  { intros [?|?]; discriminate. }
  cbn [String.eqb Ascii.eqb Bool.eqb fmap option_fmap option_map] in Hrun, Hport, Hstored.
  exists s', mask. auto.
Qed.

Lemma set_stim_missing_duration_sent_witness :
  exists s' mask,
    set_stim 40 10 10 None "fixed_stim" 255 10 (OInt 0) fresh_session = (Ok tt, s') /\
    port s' =
      port fresh_session ++
        ["C0" +:+ format_temp 40 3; "V0" +:+ format_temp 10 4;
         "R0" +:+ format_temp 10 4; "D00None"; "S" +:+ mask] /\
    stim_duration_ms s' = Some None.
Proof.
  apply (set_stim_missing_duration_sent 40 10 10 255 10 (OInt 0) fresh_session
           1000 1000); reflexivity.
Defined.

(** X3. [dur_ms = None] under ['fixed_plateau'] or ['fixed_total']: the
    arithmetic on [None] raises [TypeError] before anything is written to
    the port, and the stored duration is left as it was. *)
Theorem set_stim_missing_duration_type_error target rr rt mode tc td surf s :
  mode = "fixed_plateau" \/ mode = "fixed_total" ->
  is_ok (ramp_dur_ms target (baseline s) rr) = true ->
  is_ok (ramp_dur_ms target (baseline s) rt) = true ->
  exists s',
    set_stim target rr rt None mode tc td surf s = (Raise TypeError, s') /\
    port s' = port s /\
    stim_duration_ms s' = stim_duration_ms s.
Proof.
  intros Hm Hr Hb. unfold set_stim. run.
  destruct (ramp_dur_ms target (baseline s) rr) as [rise|]; [|discriminate]. run.
  destruct (ramp_dur_ms target (baseline s) rt) as [back|]; [|discriminate]. run.
  destruct Hm as [->| ->]; run; eexists; repeat split.
Qed.

Lemma set_stim_missing_duration_type_error_witness :
  exists s',
    set_stim 40 10 10 None "fixed_total" 255 10 (OInt 0) fresh_session =
      (Raise TypeError, s') /\
    port s' = port fresh_session /\
    stim_duration_ms s' = stim_duration_ms fresh_session.
Proof.
  apply (set_stim_missing_duration_type_error 40 10 10 "fixed_total" 255 10
           (OInt 0) fresh_session); [right; reflexivity|reflexivity|reflexivity].
Defined.

(** X4. Whatever its arguments and its outcome, [set_stim] only adds to what
    was written to the port, at most five commands; it reads nothing from
    the port and leaves the baseline and the maximal temperature of the
    session as they were. *)
Theorem set_stim_port_grows target rr rt dur mode tc td surf s :
  let s' := snd (set_stim target rr rt dur mode tc td surf s) in
  exists sent,
    port s' = port s ++ sent /\ (length sent <= 5)%nat /\
    port_rx s' = port_rx s /\ ticks s' = ticks s /\
    baseline s' = baseline s /\ max_temp s' = max_temp s.
Proof.
  unfold set_stim. run. break_match;
    cbn -[format_temp format_ms String.append]; rewrite <- ?app_assoc;
    first
      [ exists []; rewrite app_nil_r; repeat split; cbn; lia
      | refine (ex_intro _ _ _); split; [reflexivity|]; repeat split; cbn; lia ].
Qed.

(** ** [set_stim]: the commands of a call within the ranges of the device *)

(** X5. With a target below 100 degrees, rates below 1000 degrees per second and
    a duration below 100000 ms, a ['fixed_stim'] call sends the five commands
    in the fixed widths of the command table: [C0xxx], [V0xxxx], [R0xxxx],
    [D0xxxxx] and [Sxxxxx], whose digits read back as ten times the target,
    ten times each rate, and the duration. *)
Theorem set_stim_commands_fixed_width target rr rt d tc td surf s rise back :
  0 <= target < 100 -> 0 <= rr < 1000 -> 0 <= rt < 1000 -> 0 <= d < 100000 ->
  ramp_dur_ms target (baseline s) rr = Ok rise ->
  ramp_dur_ms target (baseline s) rt = Ok back ->
  exists s' c v r t mask,
    set_stim target rr rt (Some d) "fixed_stim" tc td surf s = (Ok tt, s') /\
    port s' = port s ++ ["C0" +:+ c; "V0" +:+ v; "R0" +:+ r; "D0" +:+ t; "S" +:+ mask] /\
    (String.length c = 3%nat /\ all_digits c = true /\ decode c = Some (target * 10)) /\
    (String.length v = 4%nat /\ all_digits v = true /\ decode v = Some (rr * 10)) /\
    (String.length r = 4%nat /\ all_digits r = true /\ decode r = Some (rt * 10)) /\
    (String.length t = 5%nat /\ all_digits t = true /\ decode t = Some d) /\
    String.length mask = 5%nat.
Proof.
  intros Ht Hrr Hrt Hd Hr Hb.
  destruct (set_stim_summary target rr rt (Some d) "fixed_stim" tc td surf s
              rise back Hr Hb) as (s' & mask & Hmask & Hrun & Hport & _).
  { intros [?|?]; discriminate. }
  cbn [String.eqb Ascii.eqb Bool.eqb fmap option_fmap option_map] in Hrun, Hport.
  exists s', (format_temp target 3), (format_temp rr 4), (format_temp rt 4),
    (format_ms (Some d) 5), mask.
  split; [exact Hrun|]. split; [exact Hport|].
  unfold format_temp, format_ms, str_opt.
  destruct (zfill_str_fits (target * 10) 3) as [? ?]; [lia..|].
  destruct (zfill_str_fits (rr * 10) 4) as [? ?]; [lia..|].
  destruct (zfill_str_fits (rt * 10) 4) as [? ?]; [lia..|].
  destruct (zfill_str_fits d 5) as [? ?]; [lia..|].
  rewrite !decode_zfill_str. repeat split; try assumption.
  destruct surf as [| | | |l]; cbn [is_list] in Hmask;
    try (injection Hmask as <-; reflexivity).
  apply (surf_loop_bits l mask Hmask).
Qed.

Lemma set_stim_commands_fixed_width_witness :
  exists s' c v r t mask,
    set_stim 40 10 10 (Some 1000) "fixed_stim" 255 10 (OList [OInt 2]) fresh_session =
      (Ok tt, s') /\
    port s' =
      port fresh_session ++
        ["C0" +:+ c; "V0" +:+ v; "R0" +:+ r; "D0" +:+ t; "S" +:+ mask] /\
    (String.length c = 3%nat /\ all_digits c = true /\ decode c = Some (40 * 10)) /\
    (String.length v = 4%nat /\ all_digits v = true /\ decode v = Some (10 * 10)) /\
    (String.length r = 4%nat /\ all_digits r = true /\ decode r = Some (10 * 10)) /\
    (String.length t = 5%nat /\ all_digits t = true /\ decode t = Some 1000) /\
    String.length mask = 5%nat.
Proof.
  apply (set_stim_commands_fixed_width 40 10 10 1000 255 10 (OList [OInt 2])
           fresh_session 1000 1000); first [lia | reflexivity].
Defined.

(** ** The encoders on any integer *)

Lemma zfill_length (s : string) (w : Z) :
  String.length (zfill s w) = Nat.max (String.length s) (Z.to_nat w).
Proof.
  unfold zfill.
  destruct (Z.leb_spec w (Z.of_nat (String.length s))) as [Hle|Hgt]; [lia|].
  destruct s as [|c rest].
  - cbn [String.length] in *. rewrite length_zeros. lia.
  - destruct (is_sign c); cbn [String.length] in *;
      rewrite length_append, length_zeros; cbn [String.length]; lia.
Qed.

(** X6. For every integer and every width, negative ones included, the
    encoders never cut a digit: the text reads back as the scaled value, and
    its length is the larger of the width and the length of [str] of the
    scaled value. *)
Theorem encoder_any_integer (v w : Z) :
  decode (format_temp v w) = Some (v * 10) /\
  decode (format_ms (Some v) w) = Some v /\
  String.length (format_temp v w) =
    Nat.max (String.length (str_Z (v * 10))) (Z.to_nat w) /\
  String.length (format_ms (Some v) w) =
    Nat.max (String.length (str_Z v)) (Z.to_nat w).
Proof.
  unfold format_temp, format_ms, str_opt.
  rewrite !decode_zfill_str, !zfill_length. repeat split.
Qed.

(** X7. A negative temperature gives a text that begins with the sign, the
    zeros being put after it: the command built from it is no sequence of
    digits. *)
Theorem format_temp_negative (v w : Z) :
  v < 0 ->
  exists digits,
    format_temp v w = String "-" digits /\ all_digits digits = true.
Proof.
  intros Hv. unfold format_temp.
  destruct (v * 10) as [|p|p] eqn:E; try lia.
  rewrite str_Z_neg.
  destruct (Z.le_gt_cases w (Z.of_nat (S (Decimal.nb_digits (Pos.to_uint p)))))
    as [Hle|Hgt].
  - rewrite zfill_wide by (cbn [String.length]; rewrite length_string_of_uint; lia).
    eexists. split; [reflexivity|apply all_digits_string_of_uint].
  - rewrite zfill_minus by lia.
    eexists. split; [reflexivity|apply all_digits_string_of_uint].
Qed.

Lemma format_temp_negative_witness :
  exists digits,
    format_temp (-5) 4 = String "-" digits /\ all_digits digits = true.
Proof. apply (format_temp_negative (-5) 4). lia. Defined.

(** ** What no method assigns *)

Lemma trigger_and_save_temp_unassigned (s : tcsii) (fuel : nat) (offset_s : PyNum) :
  stim_total_duration_ms s = None -> tport s = None -> read_outs s = None ->
  exists s',
    trigger_and_save_temp fuel offset_s s = (Raise AttributeError, s') /\
    port s' = port s ++ (if beep s then [] else ["L"]) /\
    port_rx s' = port_rx s /\
    stim_total_duration_ms s' = None /\ tport s' = None /\ read_outs s' = None.
Proof.
  intros Ht Hp Hr.
  unfold trigger_and_save_temp, tport_write. run.
  destruct (beep s) eqn:Hbeep; run.
  - refine (ex_intro _ _ _). rewrite_attr Hp. run.
    split; [reflexivity|]. rewrite app_nil_r. repeat split; assumption.
  - refine (ex_intro _ _ _).
    destruct fuel; cbn [poll]; run; rewrite_attr Ht; run;
      (split; [reflexivity|]; repeat split; assumption).
Qed.

Lemma trigger_unassigned (s : tcsii) :
  tport s = None ->
  exists s',
    trigger s = (if beep s then Raise AttributeError else Ok tt, s') /\
    port s' = port s ++ ["L"] /\
    stim_total_duration_ms s' = stim_total_duration_ms s /\
    tport s' = None /\ read_outs s' = read_outs s.
Proof.
  intros Hp. unfold trigger, tport_write. run.
  destruct (beep s) eqn:Hbeep; run.
  - refine (ex_intro _ _ _). rewrite_attr Hp. run. repeat split; assumption.
  - refine (ex_intro _ _ _). repeat split; assumption.
Qed.

Lemma reachable_unassigned (s : tcsii) :
  reachable s ->
  stim_total_duration_ms s = None /\ tport s = None /\ read_outs s = None.
Proof.
  induction 1 as [| s c _ IH | s _ IH | s b _ IH | s _ IH
                  | s target rr rt dur mode tc td surf _ IH | s _ IH
                  | s fuel off _ IH];
    try destruct IH as (I1 & I2 & I3).
  - cbn. auto.
  - exact (conj I1 (conj I2 I3)).
  - exact (conj I1 (conj I2 I3)).
  - exact (conj I1 (conj I2 I3)).
  - unfold print_temp, readline. run. destruct (port_rx s); cbn; auto.
  - destruct (set_stim_frame target rr rt dur mode tc td surf s) as (H1 & H2 & _ & H4).
    rewrite H1, H2, H4. auto.
  - destruct (trigger_unassigned s I2) as (s' & Hrun & _ & H1 & H2 & H3).
    rewrite Hrun. cbn [snd]. rewrite H1, H3. auto.
  - destruct (trigger_and_save_temp_unassigned s fuel off I1 I2 I3)
      as (s' & Hrun & _ & _ & H1 & H2 & H3).
    rewrite Hrun. cbn [snd]. auto.
Qed.

(** X8. Whatever methods were called on a session since it was opened
    (any of the class but [trigger_and_plot_temp], which is not embedded
    here) and however they ended, [trigger_and_save_temp] raises
    [AttributeError]: none of them assigns the attributes
    [stim_total_duration_ms] and [tport] that it reads. With [beep] set it fails before the trigger command, otherwise
    right after it; no answer is read and [read_outs] is never assigned. *)
Theorem trigger_and_save_temp_reachable (s : tcsii) (fuel : nat) (offset_s : PyNum) :
  reachable s ->
  exists s',
    trigger_and_save_temp fuel offset_s s = (Raise AttributeError, s') /\
    port s' = port s ++ (if beep s then [] else ["L"]) /\
    port_rx s' = port_rx s /\ read_outs s' = None.
Proof.
  intros Hs. destruct (reachable_unassigned s Hs) as (H1 & H2 & H3).
  destruct (trigger_and_save_temp_unassigned s fuel offset_s H1 H2 H3)
    as (s' & Hrun & Hport & Hrx & _ & _ & Hout).
  exists s'. auto.
Qed.

Lemma trigger_and_save_temp_reachable_witness :
  let s := snd (trigger (snd (set_stim 40 10 10 (Some 1000) "fixed_stim" 255 10
                                (OInt 0) (snd (reset fresh_session))))) in
  exists s',
    trigger_and_save_temp 100 (PInt 1) s = (Raise AttributeError, s') /\
    port s' = port s ++ (if beep s then [] else ["L"]) /\
    port_rx s' = port_rx s /\ read_outs s' = None.
Proof.
  intros s.
  apply (trigger_and_save_temp_reachable s 100 (PInt 1)).
  apply reach_trigger, reach_set_stim, reach_reset, reach_init.
Defined.

(** X9. [trigger()] after any sequence of calls: the trigger command [L] is
    written, and the call returns normally exactly when [beep] is off. With
    [beep] set it raises [AttributeError] after the stimulation was
    started, because the beep is written to the attribute [tport] that no
    method assigns. *)
Theorem trigger_reachable (s : tcsii) :
  reachable s ->
  exists s',
    trigger s = (if beep s then Raise AttributeError else Ok tt, s') /\
    port s' = port s ++ ["L"].
Proof.
  intros Hs. destruct (reachable_unassigned s Hs) as (_ & H2 & _).
  destruct (trigger_unassigned s H2) as (s' & Hrun & Hport & _).
  exists s'. auto.
Qed.

Lemma trigger_reachable_witness :
  let s := init 30 50 true true [] still_clock in
  exists s',
    trigger s = (if beep s then Raise AttributeError else Ok tt, s') /\
    port s' = port s ++ ["L"].
Proof. intros s. apply (trigger_reachable s). apply reach_init. Defined.

(** X10. [set_baseline] sends the new baseline to the device and does not store
    it: a later [set_stim] that returns has computed the rise and return
    durations from the baseline given to the constructor. *)
Theorem set_baseline_not_stored b target rr rt dur mode tc td surf s s' :
  set_stim target rr rt dur mode tc td surf (snd (set_baseline b s)) = (Ok tt, s') ->
  exists rise back sent,
    ramp_dur_ms target (baseline s) rr = Ok rise /\
    ramp_dur_ms target (baseline s) rt = Ok back /\
    stim_rise_dur_ms s' = Some rise /\ stim_return_dur_ms s' = Some back /\
    baseline s' = baseline s /\
    port s' = port s ++ ("N" +:+ format_temp b 3) :: sent.
Proof.
  unfold set_baseline, set_stim. run. break_match; intros H; try discriminate H;
    injection H as <-;
    (refine (ex_intro _ _ (ex_intro _ _ (ex_intro _ _ _)));
     split; [reflexivity|]; split; [reflexivity|];
     split; [reflexivity|]; split; [reflexivity|]; split; [reflexivity|];
     cbn -[format_temp format_ms String.append]; rewrite <- ?app_assoc; reflexivity).
Qed.

Lemma set_baseline_not_stored_witness :
  exists rise back sent,
    ramp_dur_ms 40 (baseline fresh_session) 10 = Ok rise /\
    ramp_dur_ms 40 (baseline fresh_session) 10 = Ok back /\
    stim_rise_dur_ms
      (snd (set_stim 40 10 10 (Some 1000) "fixed_stim" 255 10 (OInt 0)
              (snd (set_baseline 35 fresh_session)))) = Some rise /\
    stim_return_dur_ms
      (snd (set_stim 40 10 10 (Some 1000) "fixed_stim" 255 10 (OInt 0)
              (snd (set_baseline 35 fresh_session)))) = Some back /\
    baseline
      (snd (set_stim 40 10 10 (Some 1000) "fixed_stim" 255 10 (OInt 0)
              (snd (set_baseline 35 fresh_session)))) = baseline fresh_session /\
    port
      (snd (set_stim 40 10 10 (Some 1000) "fixed_stim" 255 10 (OInt 0)
              (snd (set_baseline 35 fresh_session)))) =
      port fresh_session ++ ("N" +:+ format_temp 35 3) :: sent.
Proof.
  apply (set_baseline_not_stored 35 40 10 10 (Some 1000) "fixed_stim" 255 10
           (OInt 0) fresh_session).
  vm_compute. reflexivity.
Defined.

(** ** The sampling loop when the caller has assigned its duration *)

Ltac prun :=
  unfold bind, modify, getattr, lift, ret, raise, get, write, readline, time_time;
  cbn -[py_truediv py_add py_sub py_lt rbind elapsed_at String.append poll
        asarray_div10 replicate take drop].

Lemma py_sub_floats (a b : spec_float) :
  py_sub (PFloat a) (PFloat b) = Ok (PFloat (SFsub prec emax a b)).
Proof. reflexivity. Qed.

Lemma take_padded {A} (n : nat) (l : list A) (x : A) :
  take n (l ++ replicate (S n) x) = take n (l ++ replicate n x).
Proof.
  rewrite replicate_S_end, app_assoc.
  apply take_app_le. rewrite length_app, length_replicate. lia.
Qed.

Lemma poll_rounds (clk : nat -> spec_float) (t0 : nat) (total off limit : PyNum) (n : nat) :
  rbind (py_truediv total (PInt 1000)) (fun q => py_add q off) = Ok limit ->
  forall (fuel j : nat) (outs : list string) (s : tcsii),
    (n <= fuel)%nat ->
    stim_total_duration_ms s = Some total -> clock s = clk ->
    ticks s = (t0 + 1 + j)%nat ->
    (forall i, (j <= i < j + n)%nat -> py_lt (elapsed_at clk t0 i) limit = true) ->
    py_lt (elapsed_at clk t0 (j + n)) limit = false ->
    exists s',
      poll fuel (clk t0) off (elapsed_at clk t0 j) outs s =
        (Ok (Some (outs ++ take n (port_rx s ++ replicate n ""))), s') /\
      port s' = port s ++ replicate n "E" /\
      port_rx s' = drop n (port_rx s) /\
      ticks s' = (ticks s + n)%nat /\
      read_outs s' = read_outs s.
Proof.
  intros Hlim. induction n as [|n IH]; intros fuel j outs s Hfuel Htot Hclk Hticks Hlt Hge.
  - rewrite Nat.add_0_r in Hge.
    exists s. split.
    + destruct fuel; cbn [poll]; prun; rewrite_attr Htot; prun; rewrite Hlim; prun;
        rewrite Hge; cbn [take]; rewrite app_nil_r; reflexivity.
    + cbn [replicate drop]. rewrite app_nil_r, Nat.add_0_r. auto.
  - destruct fuel as [|fuel]; [lia|].
    cbn [poll]. prun. rewrite_attr Htot. prun. rewrite Hlim. prun.
    rewrite (Hlt j) by lia.
    assert (He : PFloat (SFsub prec emax (clock s (ticks s)) (clk t0)) =
                 elapsed_at clk t0 (S j)).
    { rewrite Hclk, Hticks. cbn [elapsed_at].
      replace (t0 + 1 + j)%nat with (t0 + S j)%nat by lia. reflexivity. }
    destruct (port_rx s) as [|line rest] eqn:Erx; prun; rewrite py_sub_floats, He.
    + destruct (IH fuel (S j) (outs ++ [""])
                  (upd_ticks (S (ticks s)) (upd_port (port s ++ ["E"]) s)))
        as (s' & Hrun & Hp & Hrx & Ht & Ho);
        [lia|exact Htot|exact Hclk|cbn; rewrite Hticks; lia
        |intros i Hi; apply Hlt; lia
        |replace (S j + n)%nat with (j + S n)%nat by lia; exact Hge|].
      exists s'. cbn in Hp, Hrx, Ht, Ho. rewrite Erx in Hrx.
      split; [etransitivity; [exact Hrun|]; cbn -[elapsed_at]; rewrite Erx;
              cbn; rewrite <- app_assoc; reflexivity|].
      split; [rewrite Hp, <- app_assoc; reflexivity|].
      split; [rewrite Hrx, drop_nil; reflexivity|].
      split; [lia|exact Ho].
    + destruct (IH fuel (S j) (outs ++ [line])
                  (upd_ticks (S (ticks s))
                     (upd_port_rx rest (upd_port (port s ++ ["E"]) s))))
        as (s' & Hrun & Hp & Hrx & Ht & Ho);
        [lia|exact Htot|exact Hclk|cbn; rewrite Hticks; lia
        |intros i Hi; apply Hlt; lia
        |replace (S j + n)%nat with (j + S n)%nat by lia; exact Hge|].
      exists s'. cbn in Hp, Hrx, Ht, Ho.
      split; [etransitivity; [exact Hrun|]; cbn -[replicate];
              rewrite take_padded, <- app_assoc; reflexivity|].
      split; [rewrite Hp, <- app_assoc; reflexivity|].
      split; [exact Hrx|]. split; [lia|exact Ho].
Qed.

Lemma matrix_shape (w : nat) (rows : list (list string)) (m : list (list spec_float)) :
  matrix w rows = Ok m ->
  length m = length rows /\ Forall (fun row => length row = w) m.
Proof.
  revert m. induction rows as [|row rows IH]; intros m; cbn [matrix].
  - intros [= <-]. split; [reflexivity|constructor].
  - destruct (Nat.eqb_spec (length row) w) as [Hw|]; [|discriminate].
    unfold rbind.
    destruct (cells row) as [x|] eqn:Hx; [|discriminate].
    destruct (matrix w rows) as [xs|]; [|discriminate].
    intros [= <-]. destruct (IH xs eq_refl) as [Hl Hf].
    split; [cbn; lia|]. constructor; [|exact Hf].
    clear -Hx Hw. subst w. revert x Hx.
    induction row as [|c row IHr]; intros x; cbn [cells].
    + intros [= <-]. reflexivity.
    + unfold rbind. destruct (cell c); [|discriminate].
      destruct (cells row) as [ys|]; [|discriminate].
      intros [= <-]. cbn. rewrite (IHr ys eq_refl). reflexivity.
Qed.

Lemma asarray_div10_shape (rows : list (list string)) (m : list (list spec_float)) :
  asarray_div10 rows = Ok m ->
  length m = length rows /\
  exists w, Forall (fun row => length row = w) m.
Proof.
  destruct rows as [|row rows]; cbn [asarray_div10].
  - intros [= <-]. split; [reflexivity|]. exists 0%nat. constructor.
  - intros H. destruct (matrix_shape _ _ _ H) as [Hl Hf]. eauto.
Qed.

Lemma trigger_and_save_temp_assigned (s : tcsii) (total off limit : PyNum)
    (n fuel : nat) :
  beep s = false ->
  stim_total_duration_ms s = Some total ->
  rbind (py_truediv total (PInt 1000)) (fun q => py_add q off) = Ok limit ->
  (forall i, (i < n)%nat -> py_lt (elapsed_at (clock s) (ticks s) i) limit = true) ->
  py_lt (elapsed_at (clock s) (ticks s) n) limit = false ->
  (n <= fuel)%nat ->
  let lines := take n (port_rx s ++ replicate n "") in
  let table := asarray_div10 (map (fun i => split_plus i "") (map strip_eol lines)) in
  exists s',
    trigger_and_save_temp fuel off s =
      (match table with Ok _ => Ok (Some tt) | Raise e => Raise e end, s') /\
    port s' = port s ++ "L" :: replicate n "E" /\
    port_rx s' = drop n (port_rx s) /\
    ticks s' = (ticks s + 1 + n)%nat /\
    read_outs s' = match table with Ok m => Some m | Raise _ => read_outs s end.
Proof.
  intros Hbeep Htot Hlim Hlt Hge Hfuel lines table.
  destruct (poll_rounds (clock s) (ticks s) total off limit n Hlim fuel 0 []
              (upd_ticks (S (ticks s)) (upd_port (port s ++ ["L"]) s)))
    as (s1 & Hrun & Hp & Hrx & Ht & Ho);
    [exact Hfuel|exact Htot|reflexivity|cbn; lia|intros i Hi; apply Hlt; lia
    |exact Hge|].
  cbn in Hp, Hrx, Ht, Ho.
  unfold trigger_and_save_temp. prun. rewrite Hbeep. prun.
  change (PInt 0) with (elapsed_at (clock s) (ticks s) 0).
  rewrite Hrun. cbn -[asarray_div10 replicate take drop].
  fold lines. fold table.
  destruct table as [m|e].
  - refine (ex_intro _ _ _). split; [reflexivity|].
    cbn. rewrite Hp, Hrx, Ht, <- app_assoc. repeat split. lia.
  - exists s1. split; [reflexivity|].
    rewrite Hp, Hrx, Ht, Ho, <- app_assoc. repeat split. lia.
Qed.

Lemma matrix_entries (w : nat) (rows : list (list string)) (m : list (list spec_float)) :
  matrix w rows = Ok m ->
  Forall2 (Forall2 (fun field x => cell field = Ok x)) rows m.
Proof.
  revert m. induction rows as [|row rows IH]; intros m; cbn [matrix].
  - intros [= <-]. constructor.
  - destruct (length row =? w)%nat; [|discriminate].
    unfold rbind.
    destruct (cells row) as [x|] eqn:Hx; [|discriminate].
    destruct (matrix w rows) as [xs|]; [|discriminate].
    intros [= <-]. constructor; [|apply IH; reflexivity].
    clear -Hx. revert x Hx.
    induction row as [|c row IHr]; intros x; cbn [cells].
    + intros [= <-]. constructor.
    + unfold rbind. destruct (cell c) as [y|] eqn:Hy; [|discriminate].
      destruct (cells row) as [ys|]; [|discriminate].
      intros [= <-]. constructor; [exact Hy|apply IHr; reflexivity].
Qed.

Lemma asarray_div10_entries (rows : list (list string)) (m : list (list spec_float)) :
  asarray_div10 rows = Ok m ->
  Forall2 (Forall2 (fun field x => cell field = Ok x)) rows m.
Proof.
  destruct rows as [|row rows]; cbn [asarray_div10].
  - intros [= <-]. constructor.
  - apply matrix_entries.
Qed.

Lemma Forall2_map_left {A B C} (P : B -> C -> Prop) (f : A -> B)
    (l : list A) (k : list C) :
  Forall2 P (map f l) k -> Forall2 (fun a c => P (f a) c) l k.
Proof.
  revert k. induction l as [|a l IH]; intros k H; inversion H; subst; constructor; auto.
Qed.

(** *** The text of an integer read as a float *)

Lemma digit_not_space (c : ascii) :
  is_digit c = true -> is_space c = false /\ (nat_of_ascii c =? 0)%nat = false.
Proof.
  unfold is_digit, is_space. intros H.
  apply andb_true_iff in H as [H1 H2]. apply Nat.leb_le in H1, H2.
  repeat match goal with
         | |- context [(?a <=? ?b)%nat] => destruct (Nat.leb_spec a b)
         | |- context [(?a =? ?b)%nat] => destruct (Nat.eqb_spec a b)
         end; try lia; split; reflexivity.
Qed.

Lemma digit_cases (c : ascii) :
  is_digit c = true ->
  In c ["0"; "1"; "2"; "3"; "4"; "5"; "6"; "7"; "8"; "9"]%char.
Proof.
  destruct c as [[] [] [] [] [] [] [] []]; intros H;
    first [discriminate H | cbn; auto 12].
Qed.

Lemma lstrip_digits (d : string) : all_digits d = true -> lstrip d = d.
Proof.
  destruct d as [|c d]; [reflexivity|]. cbn [all_digits lstrip].
  intros H. apply andb_true_iff in H as [Hc _].
  destruct (digit_not_space c Hc) as [-> _]. reflexivity.
Qed.

Lemma rstrip_digits (d : string) : all_digits d = true -> rstrip d = d.
Proof.
  induction d as [|c d IH]; [reflexivity|]. cbn [all_digits rstrip].
  intros H. apply andb_true_iff in H as [Hc Hd].
  rewrite (IH Hd). destruct (digit_not_space c Hc) as [-> _].
  destruct d; reflexivity.
Qed.

Lemma rstrip_nul_digits (d : string) : all_digits d = true -> rstrip_nul d = d.
Proof.
  induction d as [|c d IH]; [reflexivity|]. cbn [all_digits rstrip_nul].
  intros H. apply andb_true_iff in H as [Hc Hd].
  rewrite (IH Hd). destruct (digit_not_space c Hc) as [_ ->].
  destruct d; reflexivity.
Qed.

Lemma digitpart_tail_digits (d : string) :
  all_digits d = true -> digitpart_tail d = (d, "").
Proof.
  induction d as [|c d IH]; [reflexivity|]. cbn [all_digits digitpart_tail].
  intros H. apply andb_true_iff in H as [Hc Hd].
  rewrite Hc, (IH Hd). reflexivity.
Qed.

Lemma unsigned_number (d : string) (neg : bool) :
  all_digits d = true -> d <> "" ->
  (let l := lowercase d in
   if String.eqb l "inf" || String.eqb l "infinity" then Ok (S754_infinity neg)
   else if String.eqb l "nan" then Ok S754_nan
   else
     match number d with
     | Some (ds, fs, r) =>
         match exponent r with
         | Some (e, EmptyString) =>
             Ok (decimal_to_float neg (digits_value (ds +:+ fs))
                   (e - Z.of_nat (String.length fs)))
         | _ => Raise ValueError
         end
     | None => Raise ValueError
     end) = Ok (decimal_to_float neg (digits_value d) 0).
Proof.
  intros Hd Hne. destruct d as [|c d]; [congruence|].
  cbn [all_digits] in Hd. apply andb_true_iff in Hd as [Hc Hd].
  assert (Hnum : number (String c d) = Some (String c d, "", "")).
  { unfold number, digitpart. rewrite Hc, (digitpart_tail_digits d Hd). reflexivity. }
  rewrite Hnum. cbn [exponent String.length]. rewrite append_empty_r.
  cbv zeta. cbn [lowercase].
  assert (Hlow : lower c = c /\
                 Ascii.eqb c "i" = false /\ Ascii.eqb c "n" = false).
  { pose proof (digit_cases c Hc) as Hin. cbn [In] in Hin.
    repeat (destruct Hin as [<-|Hin]; [repeat split; reflexivity|]).
    destruct Hin. }
  destruct Hlow as (-> & Hi & Hn).
  cbn [String.eqb]. rewrite Hi, Hn. reflexivity.
Qed.

Lemma float_of_text_digits (u : Decimal.uint) :
  u <> Decimal.Nil ->
  float_of_text (NilEmpty.string_of_uint u) =
  Ok (decimal_to_float false (Z.of_uint u) 0).
Proof.
  intros Hu. pose proof (all_digits_string_of_uint u) as Hd.
  assert (Hne : NilEmpty.string_of_uint u <> "") by (destruct u; [congruence|discriminate..]).
  unfold float_of_text.
  rewrite (lstrip_digits _ Hd), (rstrip_digits _ Hd).
  assert (Hsign :
    match NilEmpty.string_of_uint u with
    | String "+" r => (false, r)
    | String "-" r => (true, r)
    | _ => (false, NilEmpty.string_of_uint u)
    end = (false, NilEmpty.string_of_uint u)).
  { destruct u; [congruence|reflexivity..]. }
  rewrite Hsign.
  etransitivity; [exact (unsigned_number _ false Hd Hne)|].
  unfold digits_value. rewrite NilEmpty.usu. reflexivity.
Qed.

Lemma float_of_text_minus_digits (u : Decimal.uint) :
  u <> Decimal.Nil ->
  float_of_text (String "-" (NilEmpty.string_of_uint u)) =
  Ok (decimal_to_float true (Z.of_uint u) 0).
Proof.
  intros Hu. pose proof (all_digits_string_of_uint u) as Hd.
  assert (Hne : NilEmpty.string_of_uint u <> "") by (destruct u; [congruence|discriminate..]).
  unfold float_of_text.
  change (lstrip (String "-" (NilEmpty.string_of_uint u)))
    with (String "-" (NilEmpty.string_of_uint u)).
  assert (Hr : rstrip (String "-" (NilEmpty.string_of_uint u)) =
               String "-" (NilEmpty.string_of_uint u)).
  { cbn [rstrip]. rewrite (rstrip_digits _ Hd).
    destruct (NilEmpty.string_of_uint u); reflexivity. }
  rewrite Hr.
  etransitivity; [exact (unsigned_number _ true Hd Hne)|].
  unfold digits_value. rewrite NilEmpty.usu. reflexivity.
Qed.

(** [float(str(v))] is [v] rounded to the nearest float. *)
Lemma float_of_text_str_Z (v : Z) :
  float_of_text (str_Z v) = Ok (binary_normalize prec emax v 0 false) /\
  rstrip_nul (str_Z v) = str_Z v.
Proof.
  destruct v as [|p|p].
  - split; vm_compute; reflexivity.
  - rewrite (str_Z_nonneg (Z.pos p)) by lia.
    rewrite (float_of_text_digits _ (digits_of_nonnil _)).
    rewrite (of_uint_digits_of (Z.pos p)) by lia.
    split; [|apply rstrip_nul_digits, all_digits_string_of_uint].
    unfold decimal_to_float. cbn [Z.eqb Z.leb Z.compare].
    rewrite Z.pow_0_r, Z.mul_1_r. reflexivity.
  - rewrite str_Z_neg.
    rewrite (float_of_text_minus_digits _ (Unsigned.to_uint_nonnil p)).
    change (Pos.to_uint p) with (digits_of (Z.pos p)) at 1.
    rewrite (of_uint_digits_of (Z.pos p)) by lia.
    split.
    + unfold decimal_to_float. cbn [Z.eqb Z.leb Z.compare].
      rewrite Z.pow_0_r, Z.mul_1_r. reflexivity.
    + cbn [rstrip_nul].
      rewrite (rstrip_nul_digits _ (all_digits_string_of_uint _)).
      destruct (NilEmpty.string_of_uint (Pos.to_uint p)); reflexivity.
Qed.

Lemma cell_inv (field : string) (x : spec_float) :
  cell field = Ok x ->
  exists f,
    float_of_text (rstrip_nul field) = Ok f /\
    x = SFdiv prec emax f (binary_normalize prec emax 10 0 false) /\
    (forall v, field = str_Z v -> f = binary_normalize prec emax v 0 false).
Proof.
  unfold cell, rbind.
  destruct (float_of_text (rstrip_nul field)) as [f|] eqn:Hf; [|discriminate].
  intros [= <-]. exists f. split; [reflexivity|]. split; [reflexivity|].
  intros v ->. destruct (float_of_text_str_Z v) as [Hv Hnul].
  rewrite Hnul, Hv in Hf. congruence.
Qed.

(** X11. The sampling loop on a session whose [stim_total_duration_ms] the
    caller has assigned ([beep] off). Let [n] be the first round before
    which the elapsed time is not below the total duration in seconds plus
    [offset_s]. Then the call writes the trigger command and [n] temperature
    requests, takes [n] answers from the port and [n + 1] readings of the
    clock, and either returns with [n] rows of one length in [read_outs] or
    raises with [read_outs] left as it was; it does not run on. *)
Theorem sampling_loop_rounds (s : tcsii) (total off limit : PyNum) (n fuel : nat) :
  beep s = false ->
  stim_total_duration_ms s = Some total ->
  rbind (py_truediv total (PInt 1000)) (fun q => py_add q off) = Ok limit ->
  (forall i, (i < n)%nat -> py_lt (elapsed_at (clock s) (ticks s) i) limit = true) ->
  py_lt (elapsed_at (clock s) (ticks s) n) limit = false ->
  (n <= fuel)%nat ->
  exists r s',
    trigger_and_save_temp fuel off s = (r, s') /\
    port s' = port s ++ "L" :: replicate n "E" /\
    port_rx s' = drop n (port_rx s) /\
    ticks s' = (ticks s + 1 + n)%nat /\
    ((r = Ok (Some tt) /\
      exists m w, read_outs s' = Some m /\ length m = n /\
                  Forall (fun row => length row = w) m) \/
     ((exists e, r = Raise e) /\ read_outs s' = read_outs s)).
Proof.
  intros Hbeep Htot Hlim Hlt Hge Hfuel.
  destruct (trigger_and_save_temp_assigned s total off limit n fuel
              Hbeep Htot Hlim Hlt Hge Hfuel) as (s' & Hrun & Hp & Hrx & Ht & Ho).
  destruct (asarray_div10 _) as [m|e] eqn:Htable in Hrun, Ho.
  - exists (Ok (Some tt)), s'. repeat (split; [assumption|]). left.
    split; [reflexivity|].
    destruct (asarray_div10_shape _ _ Htable) as [Hlen [w Hw]].
    exists m, w. split; [exact Ho|]. split; [|exact Hw].
    rewrite Hlen, !length_map, length_take, length_app, length_replicate. lia.
  - exists (Raise e), s'. repeat (split; [assumption|]). right.
    split; [eauto|exact Ho].
Qed.

Lemma sampling_loop_rounds_witness :
  let s := assign_stim_total_duration_ms (PInt 2000)
             (init 30 50 false true
                ["300+300+300+300+300+300"; "301+305+305+305+305+305";
                 "302+310+310+311+310+310"; "303+315+315+315+315+315"]
                ticking_clock) in
  exists r s',
    trigger_and_save_temp 10 (PInt 1) s = (r, s') /\
    port s' = port s ++ "L" :: replicate 3 "E" /\
    port_rx s' = drop 3 (port_rx s) /\
    ticks s' = (ticks s + 1 + 3)%nat /\
    ((r = Ok (Some tt) /\
      exists m w, read_outs s' = Some m /\ length m = 3%nat /\
                  Forall (fun row => length row = w) m) \/
     ((exists e, r = Raise e) /\ read_outs s' = read_outs s)).
Proof.
  intros s.
  apply (sampling_loop_rounds s (PInt 2000) (PInt 1) (dec 3 1) 3 10).
  - reflexivity.
  - reflexivity.
  - vm_compute. reflexivity.
  - intros i Hi. destruct i as [|[|[|i]]]; [vm_compute; reflexivity..|lia].
  - vm_compute. reflexivity.
  - lia.
Defined.

(** X12. When the sampling returns, row [i] of [read_outs] has one entry for
    each [+]-separated field of the [i]-th answer (line ends removed): the
    field, without NUL characters at its end, read as [float] reads a text,
    divided by ten. For a field that is the decimal text of an integer [v],
    as the device sends them, the number read is [v] rounded to the nearest
    float. *)
Theorem sampling_entries (s s' : tcsii) (total off limit : PyNum) (n fuel : nat) :
  beep s = false ->
  stim_total_duration_ms s = Some total ->
  rbind (py_truediv total (PInt 1000)) (fun q => py_add q off) = Ok limit ->
  (forall i, (i < n)%nat -> py_lt (elapsed_at (clock s) (ticks s) i) limit = true) ->
  py_lt (elapsed_at (clock s) (ticks s) n) limit = false ->
  (n <= fuel)%nat ->
  trigger_and_save_temp fuel off s = (Ok (Some tt), s') ->
  exists m,
    read_outs s' = Some m /\
    Forall2
      (fun line row =>
         Forall2
           (fun field x =>
              exists f,
                float_of_text (rstrip_nul field) = Ok f /\
                x = SFdiv prec emax f (binary_normalize prec emax 10 0 false) /\
                (forall v, field = str_Z v ->
                           f = binary_normalize prec emax v 0 false))
           (split_plus (strip_eol line) "") row)
      (take n (port_rx s ++ replicate n "")) m.
Proof.
  intros Hbeep Htot Hlim Hlt Hge Hfuel Hok.
  destruct (trigger_and_save_temp_assigned s total off limit n fuel
              Hbeep Htot Hlim Hlt Hge Hfuel) as (s1 & Hrun & _ & _ & _ & Ho).
  rewrite Hok in Hrun.
  destruct (asarray_div10 _) as [m|e] eqn:Htable in Hrun, Ho; [|discriminate].
  injection Hrun as <-. exists m. split; [exact Ho|].
  apply asarray_div10_entries in Htable.
  rewrite map_map in Htable. apply Forall2_map_left in Htable.
  eapply Forall2_impl; [exact Htable|].
  intros line row Hrow. cbv beta in Hrow.
  eapply Forall2_impl; [exact Hrow|].
  intros field x Hx. exact (cell_inv field x Hx).
Qed.

Lemma sampling_entries_witness :
  let s := assign_stim_total_duration_ms (PInt 2000)
             (init 30 50 false true
                ["300+300+300+300+300+300"; "301+305+305+305+305+305";
                 "302+310+310+311+310+310"; "303+315+315+315+315+315"]
                ticking_clock) in
  exists m,
    read_outs (snd (trigger_and_save_temp 10 (PInt 1) s)) = Some m /\
    Forall2
      (fun line row =>
         Forall2
           (fun field x =>
              exists f,
                float_of_text (rstrip_nul field) = Ok f /\
                x = SFdiv prec emax f (binary_normalize prec emax 10 0 false) /\
                (forall v, field = str_Z v ->
                           f = binary_normalize prec emax v 0 false))
           (split_plus (strip_eol line) "") row)
      (take 3 (port_rx s ++ replicate 3 "")) m.
Proof.
  intros s.
  apply (sampling_entries s (snd (trigger_and_save_temp 10 (PInt 1) s))
           (PInt 2000) (PInt 1) (dec 3 1) 3 10).
  - reflexivity.
  - reflexivity.
  - vm_compute. reflexivity.
  - intros i Hi. destruct i as [|[|[|i]]]; [vm_compute; reflexivity..|lia].
  - vm_compute. reflexivity.
  - lia.
  - vm_compute. reflexivity.
Defined.

(** * Further properties of the protocol builder *)

(** ** Steps and the step counter *)

Section StepMethods.

Import Generator.

Lemma doc_state_blocks (fn : string) (k : nat) (s : generator) :
  doc_state fn k 0 s ->
  step_blocks (protocol s) = k /\ n_steps s = Z.of_nat k.
Proof.
  intros (_ & Hn & h0 & h1 & body & Hp & Hh & Hb).
  rewrite Hp, step_blocks_cons2, Hh, Hb, Hn. split; [reflexivity|lia].
Qed.

Lemma step_method_doc (fn : string) (k : nat) (c : call) :
  is_step_method c = true ->
  hoare (doc_state fn k 0) (perform c) (fun _ => doc_state fn (S k) 0)
    (consistent fn).
Proof.
  destruct c; try discriminate; intros _; cbn [perform].
  - apply add_stimulation_doc.
  - apply add_wait_trigger_in_doc.
  - apply set_baseline_doc.
  - apply set_constant_temp_doc.
Qed.

(** X14. On a builder, after any calls, each of [add_stimulation],
    [add_wait_trigger_in], [set_baseline] and [set_constant_temp] that
    returns has added exactly one step block to the document and one to the
    step counter, and the counter is the number of blocks. *)
Theorem step_method_adds_one_block (fn : string) (rt : Z)
    (files : gmap string string) (calls : list call) (c : call)
    (s' : generator) :
  let s := session calls (init fn rt files) in
  is_step_method c = true ->
  perform c s = (Ok tt, s') ->
  step_blocks (protocol s') = S (step_blocks (protocol s)) /\
  n_steps s' = n_steps s + 1 /\
  n_steps s' = Z.of_nat (step_blocks (protocol s')).
Proof.
  intros s Hc Hrun.
  destruct (session_consistent fn calls (init fn rt files) (init_consistent fn rt files))
    as [k Hk].
  fold s in Hk. pose proof (step_method_doc fn k c Hc s Hk) as H.
  rewrite Hrun in H.
  destruct (doc_state_blocks fn k s Hk) as [Hb Hn].
  destruct (doc_state_blocks fn (S k) s' H) as [Hb' Hn'].
  rewrite Hb, Hb', Hn, Hn'. repeat split; lia.
Qed.

Lemma step_method_adds_one_block_witness :
  let s := session [CallAddWaitTriggerIn] (init "exp" 1 ∅) in
  let s' := snd (perform (CallSetBaseline (dec 32 1) 0) s) in
  step_blocks (protocol s') = S (step_blocks (protocol s)) /\
  n_steps s' = n_steps s + 1 /\
  n_steps s' = Z.of_nat (step_blocks (protocol s')).
Proof.
  intros s s'.
  apply (step_method_adds_one_block "exp" 1 ∅ [CallAddWaitTriggerIn]
           (CallSetBaseline (dec 32 1) 0) s').
  - reflexivity.
  - vm_compute. reflexivity.
Defined.

Lemma session_all_return (fn : string) (calls : list call) :
  forall (k : nat) (s : generator),
    forallb is_step_method calls = true ->
    all_return calls s = true ->
    doc_state fn k 0 s ->
    doc_state fn (k + length calls) 0 (session calls s).
Proof.
  induction calls as [|c calls IH]; intros k s Hm Hr Hk.
  - cbn. rewrite Nat.add_0_r. exact Hk.
  - cbn [forallb] in Hm. apply andb_true_iff in Hm as [Hc Hm].
    cbn [all_return session] in *.
    pose proof (step_method_doc fn k c Hc s Hk) as H.
    destruct (perform c s) as [[[]|e] s1]; [|discriminate].
    cbn [is_ok andb snd] in *.
    replace (k + length (c :: calls))%nat with (S k + length calls)%nat
      by (cbn [length]; lia).
    apply IH; assumption.
Qed.

(** X15. When only the four step methods were called on a new builder and every
    call returned, the step counter and the number of step blocks are the
    number of calls; and an [export_protocol] for which the file can be
    opened returns, assigns [stepsNumber=] with that number to the second
    line of the document, and writes a file that begins with the lines
    [[protocol]] and [stepsNumber=<number of calls>], followed by the other
    lines of the document, each with a line feed. *)
Theorem returned_calls_counted (fn : string) (rt : Z)
    (files : gmap string string) (calls : list call) :
  forallb is_step_method calls = true ->
  all_return calls (init fn rt files) = true ->
  let s := session calls (init fn rt files) in
  n_steps s = Z.of_nat (length calls) /\
  step_blocks (protocol s) = length calls /\
  exists old body s1,
    protocol s = "[protocol]" :: old :: body /\
    export_protocol (Ok tt) s = (Ok tt, s1) /\
    protocol s1 !! 1%nat =
      Some ("stepsNumber=" +:+ str_Z (Z.of_nat (length calls))) /\
    disk s1 !! (fn +:+ ".protocol.ini") =
      Some ("[protocol]" +:+ newline +:+
            ("stepsNumber=" +:+ str_Z (Z.of_nat (length calls))) +:+ newline +:+
            fold_right (fun line rest => line +:+ newline +:+ rest) "" body).
Proof.
  intros Hm Hr s.
  destruct (init_consistent fn rt files) as [k0 Hk0].
  assert (k0 = 0%nat) as ->.
  { destruct (doc_state_blocks fn k0 _ Hk0) as [_ Hn]. cbn in Hn. lia. }
  pose proof (session_all_return fn calls 0 _ Hm Hr Hk0) as Hk.
  fold s in Hk. cbn [Nat.add] in Hk.
  destruct (doc_state_blocks fn _ s Hk) as [Hb Hn].
  split; [exact Hn|]. split; [exact Hb|].
  destruct Hk as (Hf & _ & h0 & h1 & body & Hp & _).
  destruct (session_first_line fn rt files calls) as [rest Hfirst].
  fold s in Hfirst. assert (h0 = "[protocol]") as -> by congruence.
  exists h1, body. refine (ex_intro _ _ _). split; [exact Hp|].
  split; [exact (export_protocol_run (Ok tt) s _ h1 body Hp)|].
  rewrite <- Hn. split; [reflexivity|].
  cbn [disk upd_disk]. rewrite Hf. apply lookup_insert_eq.
Qed.

Lemma returned_calls_counted_witness :
  let calls := [CallSetBaseline (dec 32 1) 0; CallAddWaitTriggerIn;
                CallSetConstantTemp (PInt 40) (dec 5 1) (dec 1 1) (OList [OInt 1])] in
  let s := session calls (init "exp" 1 ∅) in
  n_steps s = Z.of_nat (length calls) /\
  step_blocks (protocol s) = length calls /\
  exists old body s1,
    protocol s = "[protocol]" :: old :: body /\
    export_protocol (Ok tt) s = (Ok tt, s1) /\
    protocol s1 !! 1%nat =
      Some ("stepsNumber=" +:+ str_Z (Z.of_nat (length calls))) /\
    disk s1 !! ("exp" +:+ ".protocol.ini") =
      Some ("[protocol]" +:+ newline +:+
            ("stepsNumber=" +:+ str_Z (Z.of_nat (length calls))) +:+ newline +:+
            fold_right (fun line rest => line +:+ newline +:+ rest) "" body).
Proof.
  intros calls.
  apply (returned_calls_counted "exp" 1 ∅ calls); vm_compute; reflexivity.
Defined.

End StepMethods.

(** ** [add_stimulation]: failures *)

Section AddStimulationFailures.

Import Generator.

Lemma to_float_raise (x : PyNum) (e : exc) :
  to_float x = Raise e -> e = OverflowError.
Proof.
  destruct x as [n|f]; cbn [to_float]; [|discriminate].
  unfold float_of_Z. destruct (is_infinity _); [|discriminate].
  intros [= <-]. reflexivity.
Qed.

Lemma float_pair_raise {A} (x y : PyNum) (k : spec_float -> spec_float -> result A)
    (e : exc) :
  (forall fx fy, k fx fy = Raise e -> e = ZeroDivisionError \/ e = OverflowError) ->
  rbind (to_float x) (fun fx => rbind (to_float y) (fun fy => k fx fy)) = Raise e ->
  e = ZeroDivisionError \/ e = OverflowError.
Proof.
  intros Hk. unfold rbind.
  destruct (to_float x) as [fx|ex] eqn:Ex.
  - destruct (to_float y) as [fy|ey] eqn:Ey; [apply Hk|].
    intros [= <-]. right. exact (to_float_raise _ _ Ey).
  - intros [= <-]. right. exact (to_float_raise _ _ Ex).
Qed.

Lemma py_sub_raise (x y : PyNum) (e : exc) :
  py_sub x y = Raise e -> e = ZeroDivisionError \/ e = OverflowError.
Proof.
  destruct x as [a|fx], y as [b|fy]; cbn [py_sub]; try discriminate;
    apply float_pair_raise; discriminate.
Qed.

Lemma py_add_raise (x y : PyNum) (e : exc) :
  py_add x y = Raise e -> e = ZeroDivisionError \/ e = OverflowError.
Proof.
  destruct x as [a|fx], y as [b|fy]; cbn [py_add]; try discriminate;
    apply float_pair_raise; discriminate.
Qed.

Lemma py_truediv_raise (x y : PyNum) (e : exc) :
  py_truediv x y = Raise e -> e = ZeroDivisionError \/ e = OverflowError.
Proof.
  destruct x as [a|fx], y as [b|fy]; cbn [py_truediv];
    try (apply float_pair_raise; intros ? fy';
         destruct (is_fzero fy'); [intros [= <-]; auto|discriminate]).
  unfold rbind, int_truediv.
  destruct (b =? 0); [intros [= <-]; auto|].
  destruct a; try discriminate;
    destruct (SFdiv_core_binary _ _ _ _ _ _) as [[mz ez] lz];
    destruct (is_infinity _); try discriminate; intros [= <-]; auto.
Qed.

Lemma ramp_raise (T B R : PyNum) (e : exc) :
  rbind (py_sub T B) (fun d => py_truediv d R) = Raise e ->
  e = ZeroDivisionError \/ e = OverflowError.
Proof.
  unfold rbind. destruct (py_sub T B) as [d|e1] eqn:E1.
  - apply py_truediv_raise.
  - intros [= <-]. exact (py_sub_raise _ _ _ E1).
Qed.

Lemma fmt3_raise (x : PyNum) (e : exc) :
  fmt3 x = Raise e -> e = ZeroDivisionError \/ e = OverflowError.
Proof.
  unfold fmt3, rbind. destruct (to_float x) as [f|e1] eqn:E1; [discriminate|].
  intros [= <-]. right. exact (to_float_raise _ _ E1).
Qed.

Lemma bind_lift_raise {St A B} (r : result A) (e : exc) (k : A -> M St B) (s : St) :
  r = Raise e -> bind (lift r) k s = (Raise e, s).
Proof. intros ->. reflexivity. Qed.

Lemma bind_lift_if_raise {St A B} (b : bool) (r : result A) (a : A) (e : exc)
    (k : A -> M St B) (s : St) :
  (if b then r else Ok a) = Raise e ->
  bind (if b then lift r else ret a) k s = (Raise e, s).
Proof. destruct b; [intros ->; reflexivity|discriminate]. Qed.

(** One conversion of [add_stimulation]: it succeeds and the call goes on,
    or it fails and the builder is returned as it was. *)
Ltac lift_step x :=
  match goal with
  | |- bind (lift ?r) _ _ = _ -> _ =>
      let E := fresh "E" in
      destruct r as [x|] eqn:E;
      [ rewrite (bind_lift_ok _ _ _ _ eq_refl)
      | rewrite (bind_lift_raise _ _ _ _ eq_refl);
        intros [= <- <-]; split; [reflexivity|eauto using ramp_raise, fmt3_raise] ]
  end.

(** X16. With a list of zones [add_stimulation] is all or nothing: when it
    raises, the exception is [ZeroDivisionError] (a rate of zero) or
    [OverflowError] (an int too large for a float), and the builder is
    exactly as before the call: nothing was appended and the step counter
    was not increased. *)
Theorem add_stimulation_all_or_nothing T Rr Rt D B W l tv td mode s e s' :
  add_stimulation T Rr Rt D B W (OList l) tv td mode s = (Raise e, s') ->
  s' = s /\ (e = ZeroDivisionError \/ e = OverflowError).
Proof.
  unfold add_stimulation.
  lift_step rise. lift_step back.
  destruct (if String.eqb mode "fixed_plateau" then py_add D rise else Ok D)
    as [d1|e1] eqn:Hd1;
    [rewrite (bind_lift_if _ _ _ _ _ _ Hd1)
    |rewrite (bind_lift_if_raise _ _ _ _ _ _ Hd1); intros [= <- <-];
     split; [reflexivity|];
     destruct (String.eqb mode "fixed_plateau"); [|discriminate];
     exact (py_add_raise _ _ _ Hd1)].
  destruct (if String.eqb mode "fixed_total" then py_sub d1 back else Ok d1)
    as [d2|e2] eqn:Hd2;
    [rewrite (bind_lift_if _ _ _ _ _ _ Hd2)
    |rewrite (bind_lift_if_raise _ _ _ _ _ _ Hd2); intros [= <- <-];
     split; [reflexivity|];
     destruct (String.eqb mode "fixed_total"); [|discriminate];
     exact (py_sub_raise _ _ _ Hd2)].
  rewrite bind_if_same.
  lift_step dtxt. lift_step ttxt. lift_step btxt. lift_step wtxt.
  lift_step tdtxt. lift_step rrtxt. lift_step rttxt.
  unfold next_step, bind, append, modify, get, ret.
  cbn -[String.append str_Z stimulation_zones].
  rewrite stimulation_zones_list. discriminate.
Qed.

Lemma add_stimulation_all_or_nothing_witness :
  let s := init "exp" 1 ∅ in
  snd (add_stimulation (dec 40 1) (dec 0 1) (dec 10 1) (dec 2 1) (dec 30 1)
         (dec 0 1) (OList [OInt 1]) 255 (dec 1 10) "fixed_plateau" s) = s /\
  (ZeroDivisionError = ZeroDivisionError \/ ZeroDivisionError = OverflowError).
Proof.
  intros s.
  apply (add_stimulation_all_or_nothing (dec 40 1) (dec 0 1) (dec 10 1) (dec 2 1)
           (dec 30 1) (dec 0 1) [OInt 1] 255 (dec 1 10) "fixed_plateau" s).
  vm_compute. reflexivity.
Defined.

End AddStimulationFailures.

(** ** [add_stimulation]: zones *)

Section AddStimulationZones.

Import Generator.

(** [z in zones] for a value that has no membership test ([None], a
    number) or only one between texts (a str). *)
Lemma py_contains_not_list (zones : pyobj) (z : Z) :
  is_list zones = false -> py_contains zones z = Raise TypeError.
Proof. destruct zones; [reflexivity..|discriminate]. Qed.

(** X17. A [zones] argument that is [None], an int, a float or a str (the
    [0] that [set_stim] takes for all surfaces, say). All the numbers being
    usable, the step counter is increased, the header of the step and the
    title of its first zone section are appended, and then the membership
    test [z in zones] raises [TypeError]: the document is left with a step
    that has no zone settings. *)
Theorem add_stimulation_scalar_zones T Rr Rt D B W zones tv td mode s
    rise back d1 E btxt tdtxt :
  zones = ONone \/ (exists n, zones = OInt n) \/ (exists f, zones = OFloat f) \/
    (exists t, zones = OStr t) ->
  rbind (py_sub T B) (fun d => py_truediv d Rr) = Ok rise ->
  rbind (py_sub T B) (fun d => py_truediv d Rt) = Ok back ->
  (if String.eqb mode "fixed_plateau" then py_add D rise else Ok D) = Ok d1 ->
  (if String.eqb mode "fixed_total" then py_sub d1 back else Ok d1) = Ok E ->
  fmt3 B = Ok btxt -> fmt3 td = Ok tdtxt ->
  is_ok (fmt3 E) = true -> is_ok (fmt3 T) = true -> is_ok (fmt3 W) = true ->
  is_ok (fmt3 Rr) = true -> is_ok (fmt3 Rt) = true ->
  add_stimulation T Rr Rt D B W zones tv td mode s =
  (Raise TypeError,
   upd_protocol (protocol s ++
     ["[step" +:+ str_Z (n_steps s + 1) +:+ "]"; "stepType=0";
      "stepTypeText=STIMULATE"; "";
      "[step" +:+ str_Z (n_steps s + 1) +:+ "_stimulation]";
      "baseline=" +:+ btxt; "triggerVal=" +:+ str_Z tv;
      "triggerDur=" +:+ tdtxt; "";
      "[step" +:+ str_Z (n_steps s + 1) +:+ "_zone1]"])
     (upd_n_steps (n_steps s + 1) s)).
Proof.
  intros Hkind Hrise Hback Hd1 HE Hb Htd Hd Ht Hw Hrr Hrt.
  assert (Hz : is_list zones = false).
  { destruct Hkind as [->|[[? ->]|[[? ->]|[? ->]]]]; reflexivity. }
  apply is_ok_inv in Hd, Ht, Hw, Hrr, Hrt.
  destruct Hd as [dtxt Hd], Ht as [ttxt Ht], Hw as [wtxt Hw],
    Hrr as [rrtxt Hrr], Hrt as [rttxt Hrt].
  unfold add_stimulation.
  rewrite (bind_lift_ok _ _ _ _ Hrise), (bind_lift_ok _ _ _ _ Hback).
  rewrite (bind_lift_if _ _ _ _ _ _ Hd1), (bind_lift_if _ _ _ _ _ _ HE).
  rewrite bind_if_same.
  rewrite (bind_lift_ok _ _ _ _ Hd), (bind_lift_ok _ _ _ _ Ht),
    (bind_lift_ok _ _ _ _ Hb), (bind_lift_ok _ _ _ _ Hw),
    (bind_lift_ok _ _ _ _ Htd), (bind_lift_ok _ _ _ _ Hrr),
    (bind_lift_ok _ _ _ _ Hrt).
  cbn [stimulation_zones].
  unfold next_step, bind, append, modify, get, ret, lift.
  rewrite (py_contains_not_list zones 1 Hz).
  cbn -[String.append str_Z].
  rewrite <- !app_assoc. reflexivity.
Qed.

Lemma add_stimulation_scalar_zones_witness :
  let s := init "exp" 1 ∅ in
  add_stimulation (dec 40 1) (dec 10 1) (dec 10 1) (dec 2 1) (dec 30 1)
    (dec 0 1) (OInt 0) 255 (dec 1 10) "fixed_plateau" s =
  (Raise TypeError,
   upd_protocol (protocol s ++
     ["[step" +:+ str_Z (n_steps s + 1) +:+ "]"; "stepType=0";
      "stepTypeText=STIMULATE"; "";
      "[step" +:+ str_Z (n_steps s + 1) +:+ "_stimulation]";
      "baseline=" +:+ "30.000"; "triggerVal=" +:+ str_Z 255;
      "triggerDur=" +:+ "0.100"; "";
      "[step" +:+ str_Z (n_steps s + 1) +:+ "_zone1]"])
     (upd_n_steps (n_steps s + 1) s)).
Proof.
  intros s.
  apply (add_stimulation_scalar_zones (dec 40 1) (dec 10 1) (dec 10 1) (dec 2 1)
           (dec 30 1) (dec 0 1) (OInt 0) 255 (dec 1 10) "fixed_plateau" s
           (dec 1 1) (dec 1 1) (dec 3 1) (dec 3 1) "30.000" "0.100");
    first [ right; left; exists 0; reflexivity | vm_compute; reflexivity ].
Defined.

Lemma prefix_append (p x : string) : String.prefix p (p +:+ x) = true.
Proof.
  induction p as [|c p IH]; [destruct x; reflexivity|].
  change (String c p +:+ x) with (String c (p +:+ x)).
  cbn [String.prefix]. destruct (ascii_dec c c); [exact IH|congruence].
Qed.

Lemma flat_map_eq {A B} (f g : A -> list B) (l : list A) :
  (forall x, f x = g x) -> flat_map f l = flat_map g l.
Proof. intros H. induction l as [|x l IH]; cbn; [|rewrite H, IH]; reflexivity. Qed.

Lemma flat_map_singleton {A B} (f : A -> B) (l : list A) :
  flat_map (fun x => [f x]) l = map f l.
Proof. induction l as [|x l IH]; cbn; [|rewrite IH]; reflexivity. Qed.

(** The lines of a zone section that begin with a given key. *)
Ltac zone_filter l :=
  rewrite !List.filter_app, filter_flat_map;
  erewrite flat_map_eq;
    [ rewrite flat_map_singleton; cbn [List.filter]; rewrite ?prefix_append;
      reflexivity
    | intros z; cbn [List.filter]; rewrite ?prefix_append;
      destruct (existsb (py_eq_int z) l); reflexivity ].

(** X18. The zone sections of a step that was added (a list of zones, all the
    numbers usable): the new lines are 69, nine of header and twelve for
    each of the zones 1 to 5 in this order; zone [z] is enabled exactly when
    [z] is in the list, and every zone carries the formatted wait, target
    temperature, rise rate and return rate of the call. *)
Theorem add_stimulation_zone_sections T Rr Rt D B W l tv td mode s
    rise back d1 E ttxt wtxt rrtxt rttxt :
  rbind (py_sub T B) (fun d => py_truediv d Rr) = Ok rise ->
  rbind (py_sub T B) (fun d => py_truediv d Rt) = Ok back ->
  (if String.eqb mode "fixed_plateau" then py_add D rise else Ok D) = Ok d1 ->
  (if String.eqb mode "fixed_total" then py_sub d1 back else Ok d1) = Ok E ->
  fmt3 T = Ok ttxt -> fmt3 W = Ok wtxt -> fmt3 Rr = Ok rrtxt -> fmt3 Rt = Ok rttxt ->
  is_ok (fmt3 E) = true -> is_ok (fmt3 B) = true -> is_ok (fmt3 td) = true ->
  exists s' new,
    add_stimulation T Rr Rt D B W (OList l) tv td mode s = (Ok tt, s') /\
    protocol s' = protocol s ++ new /\
    length new = 69%nat /\
    List.filter (String.prefix "[step") new =
      ("[step" +:+ str_Z (n_steps s + 1) +:+ "]") ::
      ("[step" +:+ str_Z (n_steps s + 1) +:+ "_stimulation]") ::
      map (fun z => "[step" +:+ str_Z (n_steps s + 1) +:+ "_zone" +:+ str_Z z +:+ "]")
        [1; 2; 3; 4; 5] /\
    List.filter (String.prefix "enabled=") new =
      map (fun z => if existsb (py_eq_int z) l then "enabled=1" else "enabled=0")
        [1; 2; 3; 4; 5] /\
    List.filter (String.prefix "wait=") new =
      map (fun _ => "wait=" +:+ wtxt) [1; 2; 3; 4; 5] /\
    List.filter (String.prefix "temperature=") new =
      map (fun _ => "temperature=" +:+ ttxt) [1; 2; 3; 4; 5] /\
    List.filter (String.prefix "speed=") new =
      map (fun _ => "speed=" +:+ rrtxt) [1; 2; 3; 4; 5] /\
    List.filter (String.prefix "return=") new =
      map (fun _ => "return=" +:+ rttxt) [1; 2; 3; 4; 5].
Proof.
  intros Hrise Hback Hd1 HE Ht Hw Hrr Hrt Hd Hb Htd.
  apply is_ok_inv in Hd, Hb, Htd.
  destruct Hd as [dtxt Hd], Hb as [btxt Hb], Htd as [tdtxt Htd].
  refine (ex_intro _ _ (ex_intro _ _ _)). split.
  - exact (add_stimulation_summary T Rr Rt D B W l tv td mode s rise back d1 E
             dtxt ttxt btxt wtxt tdtxt rrtxt rttxt
             Hrise Hback Hd1 HE Hd Ht Hb Hw Htd Hrr Hrt).
  - split; [reflexivity|]. split; [reflexivity|].
    split; [zone_filter l|]. split; [zone_filter l|]. split; [zone_filter l|].
    split; [zone_filter l|]. split; [zone_filter l|]. zone_filter l.
Qed.

Lemma add_stimulation_zone_sections_witness :
  let s := init "exp" 1 ∅ in
  exists s' new,
    add_stimulation (dec 40 1) (dec 10 1) (dec 10 1) (dec 2 1) (dec 30 1)
      (dec 0 1) (OList [OInt 2; OInt 4]) 255 (dec 1 10) "fixed_plateau" s =
      (Ok tt, s') /\
    protocol s' = protocol s ++ new /\
    length new = 69%nat /\
    List.filter (String.prefix "[step") new =
      ("[step" +:+ str_Z (n_steps s + 1) +:+ "]") ::
      ("[step" +:+ str_Z (n_steps s + 1) +:+ "_stimulation]") ::
      map (fun z => "[step" +:+ str_Z (n_steps s + 1) +:+ "_zone" +:+ str_Z z +:+ "]")
        [1; 2; 3; 4; 5] /\
    List.filter (String.prefix "enabled=") new =
      map (fun z => if existsb (py_eq_int z) [OInt 2; OInt 4]
                    then "enabled=1" else "enabled=0")
        [1; 2; 3; 4; 5] /\
    List.filter (String.prefix "wait=") new =
      map (fun _ => "wait=" +:+ "0.000") [1; 2; 3; 4; 5] /\
    List.filter (String.prefix "temperature=") new =
      map (fun _ => "temperature=" +:+ "40.000") [1; 2; 3; 4; 5] /\
    List.filter (String.prefix "speed=") new =
      map (fun _ => "speed=" +:+ "10.000") [1; 2; 3; 4; 5] /\
    List.filter (String.prefix "return=") new =
      map (fun _ => "return=" +:+ "10.000") [1; 2; 3; 4; 5].
Proof.
  intros s.
  apply (add_stimulation_zone_sections (dec 40 1) (dec 10 1) (dec 10 1) (dec 2 1)
           (dec 30 1) (dec 0 1) [OInt 2; OInt 4] 255 (dec 1 10) "fixed_plateau" s
           (dec 1 1) (dec 1 1) (dec 3 1) (dec 3 1) "40.000" "0.000" "10.000" "10.000");
    vm_compute; reflexivity.
Defined.

End AddStimulationZones.

(** ** [generate_from_lists]: the trials *)

Section Trials.

Import Generator.

Lemma trials_doc (fn : string) l B W td mode :
  forall k,
    hoare (doc_state fn k 0) (trials l B W td mode)
      (fun _ => doc_state fn (k + 2 * length l) 0) (consistent fn).
Proof.
  induction l as [|[[[[[t d] r] b] v] z] l IH]; intros k; cbn [trials].
  - apply hoare_ret. intros s Hs. rewrite Nat.add_0_r. exact Hs.
  - eapply hoare_bind; [apply add_wait_trigger_in_doc|intros ?; cbv beta].
    eapply hoare_bind; [apply add_stimulation_doc|intros ?; cbv beta].
    replace (k + 2 * length ((t, d, r, b, v, z) :: l))%nat
      with (S (S k) + 2 * length l)%nat by (cbn [length]; lia).
    apply IH.
Qed.

Lemma zip6_length (a b c d : list PyNum) (e : list Z) (f : list pyobj) :
  length (zip6 a b c d e f) =
  Nat.min (length a) (Nat.min (length b) (Nat.min (length c)
    (Nat.min (length d) (Nat.min (length e) (length f))))).
Proof.
  revert b c d e f. induction a as [|x a IH]; intros b c d e f; [reflexivity|].
  destruct b, c, d, e, f; cbn [zip6 length]; try lia.
  rewrite IH. lia.
Qed.

(** X19. The number of trials that [generate_from_lists] writes. With a list of
    temperatures, every other argument being a list or a single value
    repeated as many times as there are temperatures, a call that returns
    has added a WAIT step and a STIMULATE step for each trial, and the
    trials are as many as the shortest of the six lists has entries: lists
    of different lengths are not refused, the entries beyond the shortest
    are left out. *)
Theorem generate_from_lists_counts (fn : string) (rt : Z)
    (files : gmap string string) (calls : list call)
    (temps : list PyNum) (ds rises rets : bcast PyNum) (zones : pyobj)
    (B W : PyNum) (tv : bcast Z) (td : PyNum) (mode : string) (n : option Z)
    (s' : generator) :
  let s := session calls (init fn rt files) in
  generate_from_lists (Many temps) ds zones rises rets B W tv td mode n s =
    (Ok tt, s') ->
  exists zs,
    broadcast_zones zones (length temps) = Ok zs /\
    let N := length temps in
    let m := Nat.min N (Nat.min (length (broadcast ds N))
               (Nat.min (length (broadcast rises N))
                  (Nat.min (length (broadcast rets N))
                     (Nat.min (length (broadcast tv N)) (length zs))))) in
    n_steps s' = n_steps s + 2 * Z.of_nat m /\
    step_blocks (protocol s') = (step_blocks (protocol s) + 2 * m)%nat.
Proof.
  intros s Hrun.
  destruct (session_consistent fn calls (init fn rt files) (init_consistent fn rt files))
    as [k Hk].
  fold s in Hk. unfold generate_from_lists in Hrun.
  change (bind (ret temps) ?k0 s) with (k0 temps s) in Hrun. cbv beta zeta in Hrun.
  destruct (broadcast_zones zones (length temps)) as [zs|e] eqn:Hz;
    [rewrite (bind_lift_ok _ _ _ _ eq_refl) in Hrun|discriminate Hrun].
  exists zs. split; [reflexivity|]. cbv zeta.
  pose proof (trials_doc fn
                (zip6 temps (broadcast ds (length temps))
                   (broadcast rises (length temps)) (broadcast rets (length temps))
                   (broadcast tv (length temps)) zs)
                B W td mode k s Hk) as H.
  rewrite Hrun in H. rewrite zip6_length in H.
  destruct (doc_state_blocks fn k s Hk) as [Hb Hn].
  destruct (doc_state_blocks fn _ s' H) as [Hb' Hn'].
  rewrite Hb, Hb', Hn, Hn'. split; [lia|reflexivity].
Qed.

Lemma generate_from_lists_counts_witness :
  let s := session [] (init "exp" 1 ∅) in
  let s' := snd (generate_from_lists (Many [dec 40 1; dec 42 1; dec 44 1])
                   (Many [dec 2 1; dec 2 1]) (OList [OInt 1; OInt 2])
                   (One (dec 10 1)) (One (dec 10 1)) (dec 30 1) (dec 0 1)
                   (One 255) (dec 1 10) "fixed_plateau" None s) in
  exists zs,
    broadcast_zones (OList [OInt 1; OInt 2]) (length [dec 40 1; dec 42 1; dec 44 1]) =
      Ok zs /\
    let N := length [dec 40 1; dec 42 1; dec 44 1] in
    let m := Nat.min N (Nat.min (length (broadcast (Many [dec 2 1; dec 2 1]) N))
               (Nat.min (length (broadcast (One (dec 10 1)) N))
                  (Nat.min (length (broadcast (One (dec 10 1)) N))
                     (Nat.min (length (broadcast (One 255) N)) (length zs))))) in
    n_steps s' = n_steps s + 2 * Z.of_nat m /\
    step_blocks (protocol s') = (step_blocks (protocol s) + 2 * m)%nat.
Proof.
  intros s s'.
  apply (generate_from_lists_counts "exp" 1 ∅ [] [dec 40 1; dec 42 1; dec 44 1]
           (Many [dec 2 1; dec 2 1]) (One (dec 10 1)) (One (dec 10 1))
           (OList [OInt 1; OInt 2]) (dec 30 1) (dec 0 1) (One 255) (dec 1 10)
           "fixed_plateau" None s').
  vm_compute. reflexivity.
Defined.

(** X20. A single temperature with a negative [n_trials]: the assertion passes
    (the number is not zero), the list [[temp] * n_trials] is empty, and the
    call returns without a trial and without an error; the builder is as it
    was. *)
Theorem generate_from_lists_negative_trials (t : PyNum) (ds rises rets : bcast PyNum)
    (z : pyobj) (zs : list pyobj) (B W : PyNum) (tv : bcast Z) (td : PyNum)
    (mode : string) (n : Z) (s : generator) :
  n < 0 ->
  generate_from_lists (One t) ds (OList (z :: zs)) rises rets B W tv td mode
    (Some n) s = (Ok tt, s).
Proof.
  intros Hn. unfold generate_from_lists.
  destruct (Z.eqb_spec n 0) as [|_]; [lia|].
  replace (Z.to_nat n) with 0%nat by lia.
  unfold bind, ret, lift. cbn [replicate length broadcast_zones].
  destruct (is_list z); reflexivity.
Qed.

Lemma generate_from_lists_negative_trials_witness :
  generate_from_lists (One (dec 40 1)) (One (dec 2 1)) (OList [OInt 1; OInt 2])
    (One (dec 10 1)) (One (dec 10 1)) (dec 30 1) (dec 0 1) (One 255) (dec 1 10)
    "fixed_plateau" (Some (-3)) (init "exp" 1 ∅) = (Ok tt, init "exp" 1 ∅).
Proof.
  apply (generate_from_lists_negative_trials (dec 40 1) (One (dec 2 1))
           (One (dec 10 1)) (One (dec 10 1)) (OInt 1) [OInt 2] (dec 30 1)
           (dec 0 1) (One 255) (dec 1 10) "fixed_plateau" (-3) (init "exp" 1 ∅)).
  lia.
Defined.

(** ** [export_protocol]: the files *)

(** X21. [export_protocol] writes one file, named after the builder: every other
    file is as it was, and so are the step counter, the name and the number
    of lines of the document, whether the file can be opened or not and
    whether the call returns or raises. *)
Theorem export_protocol_other_files (opened : result unit) (s : generator)
    (path : string) :
  path <> filename s +:+ ".protocol.ini" ->
  let s' := snd (export_protocol opened s) in
  disk s' !! path = disk s !! path /\
  n_steps s' = n_steps s /\ filename s' = filename s /\
  length (protocol s') = length (protocol s).
Proof.
  intros Hp. unfold export_protocol, bind, get, modify, raise, lift.
  destruct (1 <? length (protocol s))%nat; [|cbn; auto].
  destruct opened; cbn -[String.append str_Z serialize].
  - rewrite lookup_insert_ne by congruence.
    rewrite length_insert. auto.
  - rewrite length_insert. auto.
Qed.

Lemma export_protocol_other_files_witness :
  let s := init "exp" 1 (<["notes.txt" := "kept"]> ∅) in
  let s' := snd (export_protocol (Ok tt) s) in
  disk s' !! "notes.txt" = disk s !! "notes.txt" /\
  n_steps s' = n_steps s /\ filename s' = filename s /\
  length (protocol s') = length (protocol s).
Proof.
  intros s. apply (export_protocol_other_files (Ok tt) s "notes.txt"). discriminate.
Defined.

End Trials.

(** ** The titles of the step blocks *)

Section StepTitles.

Import Generator.

Lemma step_titles_snoc (doc : list string) (line : string) :
  doc <> [] ->
  step_titles (doc ++ [line]) =
  step_titles doc ++
    (if String.prefix "stepType=" line then [List.last doc ""] else []).
Proof.
  induction doc as [|h doc IH]; [congruence|]. intros _.
  destruct doc as [|t doc].
  - cbn [app step_titles List.last]. destruct (String.prefix "stepType=" line); reflexivity.
  - change (step_titles ((h :: t :: doc) ++ [line]))
      with (if String.prefix "stepType=" t
            then h :: step_titles ((t :: doc) ++ [line])
            else step_titles ((t :: doc) ++ [line])).
    change (step_titles (h :: t :: doc))
      with (if String.prefix "stepType=" t
            then h :: step_titles (t :: doc) else step_titles (t :: doc)).
    change (List.last (h :: t :: doc) "") with (List.last (t :: doc) "").
    rewrite IH by discriminate.
    destruct (String.prefix "stepType=" t); reflexivity.
Qed.

Lemma hd_snoc (doc : list string) (line : string) :
  doc <> [] -> hd "" (doc ++ [line]) = hd "" doc.
Proof. destruct doc; [congruence|reflexivity]. Qed.

Lemma titled_intro (k : nat) (s : generator) : title_state k 0 s -> titled s.
Proof. intros H. exists k. exact H. Qed.

Lemma title_next_step (k : nat) E :
  hoare (title_state k 0) next_step
    (fun c s => c = Z.of_nat k + 1 /\ title_state k 1 s) E.
Proof.
  intros s (Hn & h0 & h1 & body & Hp & Hne & H1 & Hh & Ht & _).
  unfold next_step, bind, modify, get, ret. cbn [Nat.eqb] in Hn.
  split; [change (n_steps s + 1 = Z.of_nat k + 1); lia|].
  split; [change (n_steps s + 1 = Z.of_nat k + 1); lia|].
  exists h0, h1, body. repeat split; try assumption. discriminate.
Qed.

Lemma title_append_title (k : nat) (c : Z) E :
  hoare (fun s => c = Z.of_nat k + 1 /\ title_state k 1 s)
    (append ("[step" +:+ str_Z c +:+ "]")) (fun _ => title_state k 2) E.
Proof.
  intros s (-> & Hn & h0 & h1 & body & Hp & Hne & H1 & Hh & Ht & _).
  unfold append, modify. split; [exact Hn|].
  exists h0, h1, (body ++ ["[step" +:+ str_Z (Z.of_nat k + 1) +:+ "]"]).
  split; [change (protocol s ++ ["[step" +:+ str_Z (Z.of_nat k + 1) +:+ "]"] =
                  h0 :: h1 :: body ++ ["[step" +:+ str_Z (Z.of_nat k + 1) +:+ "]"]);
          rewrite Hp; reflexivity|].
  split; [intros H; apply app_eq_nil in H as [_ H]; discriminate|].
  split; [exact H1|]. split; [rewrite hd_snoc by exact Hne; exact Hh|].
  split; [|intros _; apply last_last].
  rewrite step_titles_snoc by exact Hne.
  replace (String.prefix "stepType=" ("[step" +:+ str_Z (Z.of_nat k + 1) +:+ "]"))
    with false by reflexivity.
  rewrite app_nil_r. exact Ht.
Qed.

Lemma title_append_type (k : nat) (line : string) E :
  String.prefix "stepType=" line = true ->
  hoare (title_state k 2) (append line) (fun _ => title_state (S k) 0) E.
Proof.
  intros Hl s (Hn & h0 & h1 & body & Hp & Hne & H1 & Hh & Ht & Hlast).
  unfold append, modify. cbn [Nat.eqb] in *.
  split; [change (n_steps s = Z.of_nat (S k) + 0); lia|].
  exists h0, h1, (body ++ [line]).
  split; [change (protocol s ++ [line] = h0 :: h1 :: body ++ [line]);
          rewrite Hp; reflexivity|].
  split; [intros H; apply app_eq_nil in H as [_ H]; discriminate|].
  split; [exact H1|]. split; [rewrite hd_snoc by exact Hne; exact Hh|].
  split; [|discriminate].
  rewrite step_titles_snoc by exact Hne. rewrite Hl, Ht, (Hlast eq_refl).
  rewrite seq_S, map_app. cbn [map Nat.add].
  replace (Z.of_nat (S k)) with (Z.of_nat k + 1) by lia. reflexivity.
Qed.

Lemma title_append_plain (k : nat) (line : string) E :
  String.prefix "stepType=" line = false ->
  hoare (title_state k 0) (append line) (fun _ => title_state k 0) E.
Proof.
  intros Hl s (Hn & h0 & h1 & body & Hp & Hne & H1 & Hh & Ht & _).
  unfold append, modify.
  split; [exact Hn|].
  exists h0, h1, (body ++ [line]).
  split; [change (protocol s ++ [line] = h0 :: h1 :: body ++ [line]);
          rewrite Hp; reflexivity|].
  split; [intros H; apply app_eq_nil in H as [_ H]; discriminate|].
  split; [exact H1|]. split; [rewrite hd_snoc by exact Hne; exact Hh|].
  split; [|discriminate].
  rewrite step_titles_snoc by exact Hne. rewrite Hl, app_nil_r. exact Ht.
Qed.

Lemma title_lift {A} (k : nat) (r : result A) :
  hoare (title_state k 0) (lift r) (fun _ => title_state k 0) titled.
Proof. apply hoare_lift; [auto|apply titled_intro]. Qed.

Lemma title_ret {A} (k : nat) (a : A) E :
  hoare (title_state k 0) (ret a) (fun _ => title_state k 0) E.
Proof. apply hoare_ret. auto. Qed.

Ltac title_rule :=
  first
    [ apply title_append_type; reflexivity
    | apply title_append_plain; reflexivity
    | apply title_append_title
    | apply title_next_step
    | apply title_lift
    | apply title_ret
    | apply hoare_if; title_rule ].

Ltac title_steps :=
  repeat (eapply hoare_bind; [title_rule|intros ?; cbv beta]);
  try title_rule.

Lemma constant_zones_titles (k : nat) (range : list Z) (zones : pyobj)
    (t sp d : string) :
  hoare (title_state k 0) (constant_zones range zones t sp d)
    (fun _ => title_state k 0) titled.
Proof.
  induction range as [|z range IH]; cbn [constant_zones]; [apply title_ret|].
  title_steps. exact IH.
Qed.

Lemma step_method_titles (k : nat) (c : call) :
  is_step_method c = true ->
  hoare (title_state k 0) (perform c) (fun _ => title_state (S k) 0) titled.
Proof.
  destruct c; try discriminate; intros _; cbn [perform].
  - unfold add_stimulation. title_steps.
  - unfold add_wait_trigger_in. title_steps.
  - unfold set_baseline. title_steps.
  - unfold set_constant_temp. title_steps.
    eapply hoare_bind; [apply constant_zones_titles|intros ?; cbv beta].
    title_steps.
Qed.

Lemma titled_step {A} (m : M generator A) :
  (forall k, hoare (title_state k 0) m (fun _ => title_state (S k) 0) titled) ->
  hoare titled m (fun _ => titled) titled.
Proof.
  intros H s [k Hk]. specialize (H k s Hk).
  destruct (m s) as [[a|e] s']; [exists (S k)|]; exact H.
Qed.

Lemma trials_titled l B W td mode :
  hoare titled (trials l B W td mode) (fun _ => titled) titled.
Proof.
  induction l as [|[[[[[t d] r] b] v] z] l IH]; cbn [trials].
  - apply hoare_ret. auto.
  - eapply hoare_bind;
      [apply titled_step; intros k;
       apply (step_method_titles k CallAddWaitTriggerIn eq_refl)
      |intros ?; cbv beta].
    eapply hoare_bind;
      [apply titled_step; intros k;
       apply (step_method_titles k (CallAddStimulation t r b d B W z v td mode) eq_refl)
      |intros ?; cbv beta].
    exact IH.
Qed.

Lemma perform_titled (c : call) :
  hoare titled (perform c) (fun _ => titled) titled.
Proof.
  destruct c;
    try (apply titled_step; intros k; apply step_method_titles; reflexivity).
  - cbn [perform]. unfold generate_from_lists.
    eapply hoare_bind with (R := fun _ => titled).
    + destruct temp_list as [t|l]; [|apply hoare_ret; auto].
      destruct n_trials as [n|]; [|apply hoare_raise; auto].
      destruct (n =? 0); [apply hoare_raise|apply hoare_ret]; auto.
    + intros temps.
      eapply hoare_bind with (R := fun _ => titled);
        [apply hoare_lift; auto|intros zs]. apply trials_titled.
  - cbn [perform].
    intros s (k & Hn & h0 & h1 & body & Hp & Hne & H1 & Hh & Ht & Hl).
    rewrite (export_protocol_run opened s h0 h1 body Hp).
    destruct opened;
      (exists k; split; [exact Hn|];
       exists h0, ("stepsNumber=" +:+ str_Z (n_steps s)), body;
       repeat split; assumption).
Qed.

Lemma session_titled (calls : list call) (s : generator) :
  titled s -> titled (session calls s).
Proof.
  revert s. induction calls as [|c calls IH]; intros s Hs; [exact Hs|].
  cbn [session]. apply IH. pose proof (perform_titled c s Hs) as H.
  destruct (perform c s) as [[a|e] s']; exact H.
Qed.

(** X22. The step blocks of a document are titled [[step1]], [[step2]], ... in
    the order in which they were added, up to the value of the step counter,
    whatever calls were made on the builder and however they ended. *)
Theorem step_titles_consecutive (fn : string) (rt : Z)
    (files : gmap string string) (calls : list call) :
  let s := session calls (init fn rt files) in
  step_titles (protocol s) =
  map (fun i => "[step" +:+ str_Z (Z.of_nat i) +:+ "]")
    (seq 1 (Z.to_nat (n_steps s))).
Proof.
  intros s.
  assert (H0 : titled (init fn rt files)).
  { exists 0%nat. split; [reflexivity|].
    exists "[protocol]", "stepsNumber=0", ["recordTemperatures=" +:+ str_Z rt; ""].
    repeat split; try reflexivity; discriminate. }
  destruct (session_titled calls _ H0)
    as (k & Hn & h0 & h1 & body & Hp & Hne & H1 & Hh & Ht & _).
  fold s in Hn, Hp. cbn [Nat.eqb] in Hn.
  rewrite Hp, Hn, Z.add_0_r, Nat2Z.id.
  destruct body as [|h2 body]; [congruence|].
  cbn [hd] in Hh.
  change (step_titles (h0 :: h1 :: h2 :: body))
    with (if String.prefix "stepType=" h1
          then h0 :: step_titles (h1 :: h2 :: body)
          else step_titles (h1 :: h2 :: body)).
  rewrite H1.
  change (step_titles (h1 :: h2 :: body))
    with (if String.prefix "stepType=" h2
          then h1 :: step_titles (h2 :: body)
          else step_titles (h2 :: body)).
  rewrite Hh. exact Ht.
Qed.

End StepTitles.

(** ** The sampling loop: an answer that does not come *)

(** X13. When the port has fewer answers than the loop makes rounds (a read
    times out and gives the empty text), the call raises after the last
    round, in the conversion of the answers to numbers, and [read_outs] is
    left as it was: the samples that were read are not kept. *)
Theorem sampling_timeout_raises (s : tcsii) (total off limit : PyNum) (n fuel : nat) :
  beep s = false ->
  stim_total_duration_ms s = Some total ->
  rbind (py_truediv total (PInt 1000)) (fun q => py_add q off) = Ok limit ->
  (forall i, (i < n)%nat -> py_lt (elapsed_at (clock s) (ticks s) i) limit = true) ->
  py_lt (elapsed_at (clock s) (ticks s) n) limit = false ->
  (n <= fuel)%nat ->
  (length (port_rx s) < n)%nat ->
  exists e s',
    trigger_and_save_temp fuel off s = (Raise e, s') /\
    port s' = port s ++ "L" :: replicate n "E" /\
    port_rx s' = [] /\
    read_outs s' = read_outs s.
Proof.
  intros Hbeep Htot Hlim Hlt Hge Hfuel Hshort.
  destruct (trigger_and_save_temp_assigned s total off limit n fuel
              Hbeep Htot Hlim Hlt Hge Hfuel) as (s' & Hrun & Hp & Hrx & _ & Ho).
  destruct (asarray_div10 _) as [m|e] eqn:Htable in Hrun, Ho.
  - exfalso. apply asarray_div10_entries in Htable.
    rewrite map_map in Htable. apply Forall2_map_left in Htable.
    assert (Hline : take n (port_rx s ++ replicate n "") !! length (port_rx s) = Some "").
    { rewrite lookup_take_lt by lia. rewrite lookup_app_r by lia.
      apply lookup_replicate_2. lia. }
    destruct (Forall2_lookup_l _ _ _ _ _ Htable Hline) as (row & _ & Hrow).
    cbn in Hrow. inversion Hrow as [|field x fields xs Hcell _]; subst.
    vm_compute in Hcell. discriminate Hcell.
  - exists e, s'. split; [exact Hrun|]. split; [exact Hp|]. split; [|exact Ho].
    rewrite Hrx. apply drop_ge. lia.
Qed.

Lemma sampling_timeout_raises_witness :
  let s := assign_stim_total_duration_ms (PInt 2000)
             (init 30 50 false true
                ["300+300+300+300+300+300"; "301+305+305+305+305+305"]
                ticking_clock) in
  exists e s',
    trigger_and_save_temp 10 (PInt 1) s = (Raise e, s') /\
    port s' = port s ++ "L" :: replicate 3 "E" /\
    port_rx s' = [] /\
    read_outs s' = read_outs s.
Proof.
  intros s.
  apply (sampling_timeout_raises s (PInt 2000) (PInt 1) (dec 3 1) 3 10).
  - reflexivity.
  - reflexivity.
  - vm_compute. reflexivity.
  - intros i Hi. destruct i as [|[|[|i]]]; [vm_compute; reflexivity..|lia].
  - vm_compute. reflexivity.
  - lia.
  - cbn. lia.
Defined.
